(** * Open Power Box driver: protocol engine

    A shallow embedding of the serial protocol engine of
    [drivers/power/opbdriver.cpp] (class [OPB]): command framing
    ([Transmit]), response reading ([ReceiveTerminated]), the get/set
    exchanges on the state cache, topology discovery ([GetNum]), the
    client-side switch and text handlers and the poll cycle ([TimerHit]).

    The driver object is a record; every member function is a function
    from the record to an [outcome]: normal completion with a result, a
    C++ exception escaping the function (the file has no [try] block), or
    undefined behaviour (an index outside one of the fixed arrays).  The
    serial line is scripted: the record carries the outcomes of the
    successive reads and writes and collects the packets written.

    Opening and closing the port, [Connect] and [Disconnect] play no
    part in the properties proved here and are not embedded. *)

From Stdlib Require Import ZArith Ascii String SpecFloat Lia.
From stdpp Require Import base list strings gmap.

Local Open Scope Z_scope.

(** ** Machine integers *)

(** [size_t] is 64 bits wide, [int] 32 and [short] 16; conversions wrap. *)
Definition size_t_of (z : Z) : Z := z mod 2 ^ 64.
Definition to_int (z : Z) : Z := (z + 2 ^ 31) mod 2 ^ 32 - 2 ^ 31.
Definition to_short (z : Z) : Z := (z + 2 ^ 15) mod 2 ^ 16 - 2 ^ 15.
Definition in_int (z : Z) : bool := (- 2 ^ 31 <=? z) && (z <? 2 ^ 31).

(** [std::string::npos]. *)
Definition npos : Z := 2 ^ 64 - 1.

(** ** Exceptions of the standard library *)

Inductive exn : Type :=
| out_of_range
| invalid_argument.

Inductive res (A : Type) : Type :=
| Value (a : A)
| Raise (e : exn).
Arguments Value {A} a.
Arguments Raise {A} e.

(** ** std::string *)

Definition NUL : ascii := ascii_of_nat 0.

Fixpoint sdrop (n : nat) (s : string) : string :=
  match n, s with
  | O, _ => s
  | S n', String _ s' => sdrop n' s'
  | S _, EmptyString => EmptyString
  end.

Fixpoint stake (n : nat) (s : string) : string :=
  match n, s with
  | O, _ => EmptyString
  | S n', String c s' => String c (stake n' s')
  | S _, EmptyString => EmptyString
  end.

(** Position of the first occurrence of [c]. *)
Fixpoint sfind (c : ascii) (s : string) : option nat :=
  match s with
  | EmptyString => None
  | String c' s' => if Ascii.eqb c' c then Some O else S <$> sfind c s'
  end.

(** Position of the last occurrence of [c]. *)
Fixpoint srfind (c : ascii) (s : string) : option nat :=
  match s with
  | EmptyString => None
  | String c' s' =>
      match srfind c s' with
      | Some n => Some (S n)
      | None => if Ascii.eqb c' c then Some O else None
      end
  end.

Definition size (s : string) : Z := Z.of_nat (String.length s).

(** [s.find(c)] and [s.find_last_of(c)], as [size_t]. *)
Definition find (s : string) (c : ascii) : Z :=
  match sfind c s with Some n => Z.of_nat n | None => npos end.

Definition find_last_of (s : string) (c : ascii) : Z :=
  match srfind c s with Some n => Z.of_nat n | None => npos end.

(** [s.substr(pos, n)]: throws when [pos > size()], otherwise the
    characters [pos, min(pos + n, size())). *)
Definition substr (s : string) (pos n : Z) : res string :=
  if size s <? pos then Raise out_of_range
  else Value (stake (Z.to_nat (Z.min n (size s - pos))) (sdrop (Z.to_nat pos) s)).

(** [s.erase(pos, n)]: throws when [pos > size()], otherwise removes
    [min(n, size() - pos)] characters at [pos]. *)
Definition erase (s : string) (pos n : Z) : res string :=
  if size s <? pos then Raise out_of_range
  else Value (stake (Z.to_nat pos) s
              +:+ sdrop (Z.to_nat (pos + Z.min n (size s - pos))) s).

(** [s[0]]: the first character, the terminating NUL for an empty string. *)
Definition front (s : string) : ascii :=
  match s with
  | EmptyString => NUL
  | String c _ => c
  end.

(** ** Decimal conversions *)

Definition isspace (c : ascii) : bool :=
  let n := nat_of_ascii c in ((n =? 32) || ((9 <=? n) && (n <=? 13)))%nat.

Definition isdigit (c : ascii) : bool :=
  let n := nat_of_ascii c in ((48 <=? n) && (n <=? 57))%nat.

Definition digit_val (c : ascii) : Z := Z.of_nat (nat_of_ascii c) - 48.
Definition digit_char (n : Z) : ascii := ascii_of_nat (Z.to_nat (48 + n)).

Fixpoint skip_space (s : string) : string :=
  match s with
  | String c s' => if isspace c then skip_space s' else s
  | EmptyString => s
  end.

(** Reads the longest prefix of digits: the number read so far, how many
    digits were read, and the rest. *)
Fixpoint read_digits (acc : Z) (cnt : nat) (s : string) : Z * nat * string :=
  match s with
  | String c s' =>
      if isdigit c then read_digits (10 * acc + digit_val c) (S cnt) s'
      else (acc, cnt, s)
  | EmptyString => (acc, cnt, s)
  end.

(** An optional sign in front of a numeral. *)
Definition split_sign (s : string) : bool * string :=
  match s with
  | String c r =>
      if Ascii.eqb c "-" then (true, r)
      else if Ascii.eqb c "+" then (false, r)
      else (false, s)
  | EmptyString => (false, s)
  end.

(** [strtol(s, &end, 10)] without the range check: whitespace, an
    optional sign, digits.  [None] when no digit is found. *)
Definition strtol (s : string) : option (Z * string) :=
  let '(neg, s2) := split_sign (skip_space s) in
  let '(n, cnt, rest) := read_digits 0 0 s2 in
  match cnt with
  | O => None
  | S _ => Some (if neg : bool then - n else n, rest)
  end.

(** [std::stoi(s)]: [invalid_argument] without a conversion,
    [out_of_range] when the number does not fit an [int]. *)
Definition stoi (s : string) : res Z :=
  match strtol s with
  | None => Raise invalid_argument
  | Some (z, _) => if in_int z then Value z else Raise out_of_range
  end.

Fixpoint digits_of (fuel : nat) (n : Z) (acc : string) : string :=
  match fuel with
  | O => acc
  | S f =>
      let acc' := String (digit_char (n mod 10)) acc in
      if n <? 10 then acc' else digits_of f (n / 10) acc'
  end.

Definition decimal (n : Z) : string :=
  digits_of (S (Z.to_nat (Z.log2 n))) n EmptyString.

(** [std::to_string] on an integer. *)
Definition to_string (z : Z) : string :=
  if z <? 0 then String "-" (decimal (- z)) else decimal z.

(** ** Floating point

    [float] and [double] values are [spec_float]s: binary32 has
    precision 24 and [emax] 128, binary64 precision 53 and [emax] 1024.
    A [float] converts to [double] without change of value. *)

Definition fmul : spec_float -> spec_float -> spec_float := SFmul 24 128.

(** An [int] as a [double] (exact). *)
Definition double_of_int (z : Z) : spec_float := binary_normalize 53 1024 z 0 false.

(** [(int)x] for a [double]: truncation toward zero; [None] (undefined)
    for NaN, infinities and values outside [int]. *)
Definition double_to_int (x : spec_float) : option Z :=
  match x with
  | S754_zero _ => Some 0
  | S754_finite s m e =>
      let a := if 0 <=? e then Z.pos m * 2 ^ e else Z.pos m / 2 ^ (- e) in
      let z := if s then - a else a in
      if in_int z then Some z else None
  | _ => None
  end.

Fixpoint zeros (k : nat) : string :=
  match k with
  | O => EmptyString
  | S k' => String "0" (zeros k')
  end.

(** Left-pads [s] with zeros to [n] characters. *)
Definition pad_zeros (n : nat) (s : string) : string :=
  zeros (n - String.length s) +:+ s.

(** [std::to_string] on a [double]: [printf("%f")], six decimals, ties to
    even. *)
Definition to_string_double (x : spec_float) : string :=
  match x with
  | S754_zero s => (if s then "-" else "") +:+ "0.000000"
  | S754_infinity s => (if s then "-" else "") +:+ "inf"
  | S754_nan => "nan"
  | S754_finite s m e =>
      let num := Z.pos m * 10 ^ 6 in
      let scaled :=
        if 0 <=? e then num * 2 ^ e
        else
          let den := 2 ^ (- e) in
          let q := num / den in
          let r := num mod den in
          if 2 * r <? den then q
          else if den <? 2 * r then q + 1
          else if Z.even q then q else q + 1 in
      (if s then "-" else "") +:+ decimal (scaled / 10 ^ 6) +:+ "."
        +:+ pad_zeros 6 (decimal (scaled mod 10 ^ 6))
  end.

(** ** The driver object *)

Inductive log_level : Type := INFO | ERROR | DEBUG.

(** Outcome of one [tty_read_section] call followed by the construction
    of [answer] in [ReceiveTerminated]: the text the string holds, or the
    message of [tty_error_msg].  [tty_read_section] stores the bytes up
    to and including the terminator; [answer] is built from a copy of
    them that carries no terminating NUL, so the source does not fix what
    follows the bytes read: [ReadOk] gives the whole text of [answer]. *)
Inductive read_result : Type :=
| ReadOk (answer : string)
| ReadFail (msg : string).

(** Outcome of one [tty_write_string] call. *)
Inductive write_result : Type :=
| WriteOk
| WriteFail (msg : string).

Inductive IPState : Type := IPS_IDLE | IPS_OK | IPS_BUSY | IPS_ALERT.

(** Value of one widget of an INDI property vector, as the driver sets it
    ([setValue], [setState] on a switch, [setText]). *)
Inductive wval : Type :=
| WNum (x : spec_float)
| WSwitch (on : bool)
| WText (s : string).

Record driver : Type := mkDriver {
  (* members of class OPB *)
  state : list string;            (* std::string state[100] *)
  name_switch : list string;      (* std::string name_switch[100] *)
  Reverse : list bool;            (* bool Reverse[5] *)
  Limit : list spec_float;        (* float Limit[6] *)
  numDC : Z;
  numPWM : Z;
  numRelay : Z;
  numOn : Z;
  numUSB : Z;
  IP : string;
  SSID : string;
  Alldc : bool;
  Allpwm : bool;
  (* the serial line behind PortFD *)
  written : list string;          (* packets handed to tty_write_string *)
  rd : list read_result;          (* outcomes of the reads to come *)
  wr : list write_result;         (* outcomes of the writes to come *)
  (* the host framework *)
  log : list (log_level * string);
  widgets : gmap (string * Z) wval;
  pstate : gmap string IPState;
  timers : nat;                   (* calls of SetTimer *)
  isConnected : bool
}.

Definition set_state (v : list string) (d : driver) : driver :=
  mkDriver v (name_switch d) (Reverse d) (Limit d) (numDC d) (numPWM d) (numRelay d) (numOn d) (numUSB d) (IP d) (SSID d) (Alldc d) (Allpwm d) (written d) (rd d) (wr d) (log d) (widgets d) (pstate d) (timers d) (isConnected d).
Definition set_name_switch (v : list string) (d : driver) : driver :=
  mkDriver (state d) v (Reverse d) (Limit d) (numDC d) (numPWM d) (numRelay d) (numOn d) (numUSB d) (IP d) (SSID d) (Alldc d) (Allpwm d) (written d) (rd d) (wr d) (log d) (widgets d) (pstate d) (timers d) (isConnected d).
Definition set_Reverse (v : list bool) (d : driver) : driver :=
  mkDriver (state d) (name_switch d) v (Limit d) (numDC d) (numPWM d) (numRelay d) (numOn d) (numUSB d) (IP d) (SSID d) (Alldc d) (Allpwm d) (written d) (rd d) (wr d) (log d) (widgets d) (pstate d) (timers d) (isConnected d).
Definition set_Limit (v : list spec_float) (d : driver) : driver :=
  mkDriver (state d) (name_switch d) (Reverse d) v (numDC d) (numPWM d) (numRelay d) (numOn d) (numUSB d) (IP d) (SSID d) (Alldc d) (Allpwm d) (written d) (rd d) (wr d) (log d) (widgets d) (pstate d) (timers d) (isConnected d).
Definition set_numDC (v : Z) (d : driver) : driver :=
  mkDriver (state d) (name_switch d) (Reverse d) (Limit d) v (numPWM d) (numRelay d) (numOn d) (numUSB d) (IP d) (SSID d) (Alldc d) (Allpwm d) (written d) (rd d) (wr d) (log d) (widgets d) (pstate d) (timers d) (isConnected d).
Definition set_numPWM (v : Z) (d : driver) : driver :=
  mkDriver (state d) (name_switch d) (Reverse d) (Limit d) (numDC d) v (numRelay d) (numOn d) (numUSB d) (IP d) (SSID d) (Alldc d) (Allpwm d) (written d) (rd d) (wr d) (log d) (widgets d) (pstate d) (timers d) (isConnected d).
Definition set_numRelay (v : Z) (d : driver) : driver :=
  mkDriver (state d) (name_switch d) (Reverse d) (Limit d) (numDC d) (numPWM d) v (numOn d) (numUSB d) (IP d) (SSID d) (Alldc d) (Allpwm d) (written d) (rd d) (wr d) (log d) (widgets d) (pstate d) (timers d) (isConnected d).
Definition set_numOn (v : Z) (d : driver) : driver :=
  mkDriver (state d) (name_switch d) (Reverse d) (Limit d) (numDC d) (numPWM d) (numRelay d) v (numUSB d) (IP d) (SSID d) (Alldc d) (Allpwm d) (written d) (rd d) (wr d) (log d) (widgets d) (pstate d) (timers d) (isConnected d).
Definition set_numUSB (v : Z) (d : driver) : driver :=
  mkDriver (state d) (name_switch d) (Reverse d) (Limit d) (numDC d) (numPWM d) (numRelay d) (numOn d) v (IP d) (SSID d) (Alldc d) (Allpwm d) (written d) (rd d) (wr d) (log d) (widgets d) (pstate d) (timers d) (isConnected d).
Definition set_IP (v : string) (d : driver) : driver :=
  mkDriver (state d) (name_switch d) (Reverse d) (Limit d) (numDC d) (numPWM d) (numRelay d) (numOn d) (numUSB d) v (SSID d) (Alldc d) (Allpwm d) (written d) (rd d) (wr d) (log d) (widgets d) (pstate d) (timers d) (isConnected d).
Definition set_SSID (v : string) (d : driver) : driver :=
  mkDriver (state d) (name_switch d) (Reverse d) (Limit d) (numDC d) (numPWM d) (numRelay d) (numOn d) (numUSB d) (IP d) v (Alldc d) (Allpwm d) (written d) (rd d) (wr d) (log d) (widgets d) (pstate d) (timers d) (isConnected d).
Definition set_Alldc (v : bool) (d : driver) : driver :=
  mkDriver (state d) (name_switch d) (Reverse d) (Limit d) (numDC d) (numPWM d) (numRelay d) (numOn d) (numUSB d) (IP d) (SSID d) v (Allpwm d) (written d) (rd d) (wr d) (log d) (widgets d) (pstate d) (timers d) (isConnected d).
Definition set_Allpwm (v : bool) (d : driver) : driver :=
  mkDriver (state d) (name_switch d) (Reverse d) (Limit d) (numDC d) (numPWM d) (numRelay d) (numOn d) (numUSB d) (IP d) (SSID d) (Alldc d) v (written d) (rd d) (wr d) (log d) (widgets d) (pstate d) (timers d) (isConnected d).
Definition set_written (v : list string) (d : driver) : driver :=
  mkDriver (state d) (name_switch d) (Reverse d) (Limit d) (numDC d) (numPWM d) (numRelay d) (numOn d) (numUSB d) (IP d) (SSID d) (Alldc d) (Allpwm d) v (rd d) (wr d) (log d) (widgets d) (pstate d) (timers d) (isConnected d).
Definition set_rd (v : list read_result) (d : driver) : driver :=
  mkDriver (state d) (name_switch d) (Reverse d) (Limit d) (numDC d) (numPWM d) (numRelay d) (numOn d) (numUSB d) (IP d) (SSID d) (Alldc d) (Allpwm d) (written d) v (wr d) (log d) (widgets d) (pstate d) (timers d) (isConnected d).
Definition set_wr (v : list write_result) (d : driver) : driver :=
  mkDriver (state d) (name_switch d) (Reverse d) (Limit d) (numDC d) (numPWM d) (numRelay d) (numOn d) (numUSB d) (IP d) (SSID d) (Alldc d) (Allpwm d) (written d) (rd d) v (log d) (widgets d) (pstate d) (timers d) (isConnected d).
Definition set_log (v : list (log_level * string)) (d : driver) : driver :=
  mkDriver (state d) (name_switch d) (Reverse d) (Limit d) (numDC d) (numPWM d) (numRelay d) (numOn d) (numUSB d) (IP d) (SSID d) (Alldc d) (Allpwm d) (written d) (rd d) (wr d) v (widgets d) (pstate d) (timers d) (isConnected d).
Definition set_widgets (v : gmap (string * Z) wval) (d : driver) : driver :=
  mkDriver (state d) (name_switch d) (Reverse d) (Limit d) (numDC d) (numPWM d) (numRelay d) (numOn d) (numUSB d) (IP d) (SSID d) (Alldc d) (Allpwm d) (written d) (rd d) (wr d) (log d) v (pstate d) (timers d) (isConnected d).
Definition set_pstate (v : gmap string IPState) (d : driver) : driver :=
  mkDriver (state d) (name_switch d) (Reverse d) (Limit d) (numDC d) (numPWM d) (numRelay d) (numOn d) (numUSB d) (IP d) (SSID d) (Alldc d) (Allpwm d) (written d) (rd d) (wr d) (log d) (widgets d) v (timers d) (isConnected d).
Definition set_timers (v : nat) (d : driver) : driver :=
  mkDriver (state d) (name_switch d) (Reverse d) (Limit d) (numDC d) (numPWM d) (numRelay d) (numOn d) (numUSB d) (IP d) (SSID d) (Alldc d) (Allpwm d) (written d) (rd d) (wr d) (log d) (widgets d) (pstate d) v (isConnected d).

(** ** Outcomes and the driver monad *)

Inductive outcome (A : Type) : Type :=
| Done (a : A) (d : driver)     (* the function returned [a] *)
| Throw (e : exn) (d : driver)  (* an exception left the function *)
| Undefined.                    (* undefined behaviour: index out of bounds,
                                   conversion of a double outside int *)
Arguments Done {A} a d.
Arguments Throw {A} e d.
Arguments Undefined {A}.

Definition M (A : Type) : Type := driver -> outcome A.

Definition ret {A} (a : A) : M A := fun d => Done a d.

Definition bind {A B} (m : M A) (k : A -> M B) : M B :=
  fun d =>
    match m d with
    | Done a d' => k a d'
    | Throw e d' => Throw e d'
    | Undefined => Undefined
    end.

Definition undefined {A} : M A := fun _ => Undefined.

Definition lift {A} (r : res A) : M A :=
  fun d => match r with Value a => Done a d | Raise e => Throw e d end.

Definition get : M driver := fun d => Done d d.
Definition gets {A} (f : driver -> A) : M A := fun d => Done (f d) d.
Definition modify (f : driver -> driver) : M unit := fun d => Done tt (f d).

Declare Scope opb_scope.
Delimit Scope opb_scope with opb.
Notation "'let*' x ':=' m 'in' k" := (bind m (fun x => k))
  (at level 10, x name, m at level 100, k at level 200) : opb_scope.
Notation "m '>>' k" := (bind m (fun _ => k))
  (at level 100, k at level 200, right associativity) : opb_scope.
Local Open Scope opb_scope.

(** The driver state an outcome carries, if any. *)
Definition final {A} (o : outcome A) : option driver :=
  match o with
  | Done _ d => Some d
  | Throw _ d => Some d
  | Undefined => None
  end.

(** [for (int k = lo; k < hi; k++) body(k);] *)
Fixpoint for_from (n : nat) (k : Z) (body : Z -> M unit) : M unit :=
  match n with
  | O => ret tt
  | S n' => body k >> for_from n' (k + 1) body
  end.

Definition for_range (lo hi : Z) (body : Z -> M unit) : M unit :=
  for_from (Z.to_nat (hi - lo)) lo body.

(** Arrays: an index outside the array is undefined behaviour. *)
Definition in_bounds (n i : Z) : bool := (0 <=? i) && (i <? n).

Definition state_get (id : Z) : M string :=
  fun d => if in_bounds 100 id then Done (default EmptyString (state d !! Z.to_nat id)) d
           else Undefined.
Definition state_put (id : Z) (v : string) : M unit :=
  fun d => if in_bounds 100 id then Done tt (set_state (<[Z.to_nat id := v]> (state d)) d)
           else Undefined.
Definition name_switch_put (id : Z) (v : string) : M unit :=
  fun d => if in_bounds 100 id
           then Done tt (set_name_switch (<[Z.to_nat id := v]> (name_switch d)) d)
           else Undefined.
Definition Reverse_get (id : Z) : M bool :=
  fun d => if in_bounds 5 id then Done (default false (Reverse d !! Z.to_nat id)) d
           else Undefined.
Definition Reverse_put (id : Z) (v : bool) : M unit :=
  fun d => if in_bounds 5 id then Done tt (set_Reverse (<[Z.to_nat id := v]> (Reverse d)) d)
           else Undefined.
Definition Limit_put (id : Z) (v : spec_float) : M unit :=
  fun d => if in_bounds 6 id then Done tt (set_Limit (<[Z.to_nat id := v]> (Limit d)) d)
           else Undefined.

(** Modelled from the spec: the host framework (INDI logger, property
    vectors, timer) lies outside the sources at hand; the spec treats it
    as an external collaborator.  A log call appends an entry, setting a
    widget or the state of a vector records the value under the name of
    the vector, [SetTimer] counts the calls. *)
Definition LOG (lvl : log_level) (msg : string) : M unit :=
  modify (fun d => set_log (log d ++ [(lvl, msg)]) d).

Definition widget_set (prop : string) (i : Z) (v : wval) : M unit :=
  modify (fun d => set_widgets (<[(prop, i) := v]> (widgets d)) d).

Definition setState (prop : string) (s : IPState) : M unit :=
  modify (fun d => set_pstate (<[prop := s]> (pstate d)) d).

Definition SetTimer : M unit := modify (fun d => set_timers (S (timers d)) d).

(** ** The serial line *)

Definition LF : ascii := ascii_of_nat 10.

(** Modelled from the spec: [tty_write_string] belongs to the INDI
    communication library, outside the sources at hand; the spec's
    transport has [write(bytes) -> Result<(), Error>].  The packet goes
    to the line and the scripted outcome of the write is consumed (a
    write succeeds once the script is used up). *)
Definition tty_write_string (cmd : string) : M write_result :=
  fun d =>
    let d1 := set_written (written d ++ [cmd]) d in
    match wr d with
    | [] => Done WriteOk d1
    | r :: rest => Done r (set_wr rest d1)
    end.

(** Modelled from the spec: [tty_read_section] belongs to the INDI
    communication library, outside the sources at hand; the spec's
    transport has [read_until(terminator, timeout) -> Result<bytes,
    TimeoutOrIoError>].  The scripted outcome of the read is consumed (a
    read times out once the script is used up). *)
Definition tty_read_section (terminator : ascii) : M read_result :=
  fun d =>
    match rd d with
    | [] => Done (ReadFail "Timeout error") d
    | r :: rest => Done r (set_rd rest d)
    end.

(** [OPB::ReceiveTerminated].  After a failed read the result is the
    empty string.  Otherwise the text before the first '#' is dropped;
    [substr] throws when there is no '#'. *)
Definition ReceiveTerminated (terminator : ascii) : M string :=
  let* r := tty_read_section terminator in
  match r with
  | ReadFail errorMessage =>
      LOG ERROR ("Serial read error: " +:+ errorMessage) >> ret EmptyString
  | ReadOk answer =>
      let i := to_int (find answer "#") in
      lift (substr answer (size_t_of i) npos)
  end.

(** The common tail of the four [Transmit] overloads ([tcflush] and
    [usleep] do not act on the scripted line). *)
Definition send_packet (packet : string) : M bool :=
  let* r := tty_write_string packet in
  match r with
  | WriteFail errorMessage =>
      LOG ERROR ("Serial write error: " +:+ errorMessage) >> ret false
  | WriteOk => ret true
  end.

Definition packet2 (command : ascii) (SwitchNum : Z) : string :=
  "# " +:+ String command (" " +:+ to_string SwitchNum +:+ String LF EmptyString).

Definition packet3 (command : ascii) (SwitchNum : Z) (value : string) : string :=
  "# " +:+ String command (" " +:+ to_string SwitchNum +:+ " " +:+ value
                            +:+ String LF EmptyString).

(** [Transmit(char, int, int)] *)
Definition Transmit_int (command : ascii) (SwitchNum value : Z) : M bool :=
  let packet := packet3 command SwitchNum (to_string value) in
  LOG INFO packet >> LOG DEBUG ("CMD <" +:+ packet +:+ ">") >> send_packet packet.

(** [Transmit(char, int, float)] *)
Definition Transmit_float (command : ascii) (SwitchNum : Z) (value : spec_float) : M bool :=
  let packet := packet3 command SwitchNum (to_string_double value) in
  LOG INFO packet >> LOG DEBUG ("CMD <" +:+ packet +:+ ">") >> send_packet packet.

(** [Transmit(char, int)] *)
Definition Transmit (command : ascii) (SwitchNum : Z) : M bool :=
  let packet := packet2 command SwitchNum in
  LOG DEBUG ("CMD <" +:+ packet +:+ ">") >> send_packet packet.

(** [Transmit(char, int, std::string)] *)
Definition Transmit_string (command : ascii) (SwitchNum : Z) (value : string) : M bool :=
  let packet := packet3 command SwitchNum value in
  LOG DEBUG ("CMD <" +:+ packet +:+ ">") >> send_packet packet.

(** ** Switch commands

    Each exchange is written as the statements up to the call of
    [ReceiveTerminated] (the request) followed by the rest (the reply);
    the member function is their sequence. *)

Definition error_msg (buf : string) : string := "The power box returned error: " +:+ buf.
Definition nack_msg : string := "ERROR : The power box didn't acknowledge the new state.".

(** [switchN = short(std::stoi(buf.substr(1, i - 1)))] *)
Definition read_switchN (buf : string) (i : Z) : M Z :=
  let* t := lift (substr buf 1 (size_t_of (i - 1))) in
  let* n := lift (stoi t) in
  ret (to_short n).

(** [buf = buf.erase(0, 1); buf = buf.erase(buf.length() - 1);] *)
Definition strip_both (buf : string) : M string :=
  let* buf := lift (erase buf 0 1) in
  lift (erase buf (size_t_of (size buf - 1)) npos).

Definition SetSwitchValueUSB_request (id : Z) (value : spec_float) : M string :=
  let* prev := state_get id in
  let* v := match double_to_int value with Some v => ret v | None => undefined end in
  Transmit_int "S" id v >>
  state_put id (to_string_double value) >>
  ret prev.

Definition SetSwitchValueUSB_reply (id : Z) (prev : string) : M unit :=
  let* buf := ReceiveTerminated ";" in
  let* buf := strip_both buf in
  let i := to_int (find buf ":") in
  let* switchN := read_switchN buf i in
  if Ascii.eqb (front buf) "E" then LOG INFO (error_msg buf)
  else if Ascii.eqb (front buf) "G" && (switchN =? id) then
    let* buf := lift (substr buf (size_t_of (i + 1)) npos) in
    let* cur := state_get id in
    let* a := lift (stoi cur) in
    let* b := lift (stoi buf) in
    if a =? b then ret tt
    else state_put id prev >> LOG INFO nack_msg
  else ret tt.

(** [OPB::SetSwitchValueUSB(short id, double value)] *)
Definition SetSwitchValueUSB (id : Z) (value : spec_float) : M unit :=
  let* prev := SetSwitchValueUSB_request id value in
  SetSwitchValueUSB_reply id prev.

Definition SetSwitchUSB_request (id value : Z) : M string :=
  let* prev := state_get id in
  Transmit_int "S" id value >>
  state_put id (to_string value) >>
  ret prev.

Definition SetSwitchUSB_reply (id : Z) (prev : string) : M unit :=
  let* buf := ReceiveTerminated ";" in
  let* buf := strip_both buf in
  let i := to_int (find buf ":") in
  let* switchN := read_switchN buf i in
  if Ascii.eqb (front buf) "E" then LOG INFO (error_msg buf)
  else if Ascii.eqb (front buf) "G" && (switchN =? id) then
    let* buf := lift (substr buf (size_t_of (i + 1)) npos) in
    let* cur := state_get id in
    if Ascii.eqb (front cur) (front buf) then ret tt
    else state_put id prev >> LOG INFO nack_msg
  else ret tt.

(** [OPB::SetSwitchUSB(short id, int value)] *)
Definition SetSwitchUSB (id value : Z) : M unit :=
  let* prev := SetSwitchUSB_request id value in
  SetSwitchUSB_reply id prev.

(** [OPB::GetSwitchUSB(short id)] *)
Definition GetSwitchUSB (id : Z) : M unit :=
  Transmit "G" id >>
  let* buf := ReceiveTerminated ";" in
  let* buf := strip_both buf in
  let i := to_int (find buf ":") in
  let* switchN := read_switchN buf i in
  if Ascii.eqb (front buf) "E" then LOG INFO (error_msg buf)
  else if Ascii.eqb (front buf) "G" && (switchN =? id) then
    let j := to_int (find buf ";") in
    if j =? to_int npos then ret tt
    else
      let* buf := lift (erase buf (size_t_of j) npos) in
      let* v := lift (substr buf (size_t_of (i + 1)) npos) in
      state_put id v
  else ret tt.

(** ** Names *)

(** [OPB::GetNameUSB(short id)] *)
Definition GetNameUSB (id : Z) : M unit :=
  Transmit "n" id >>
  let* buf := ReceiveTerminated ";" in
  let* buf := strip_both buf in
  let i := to_int (find buf ":") in
  let* switchN := read_switchN buf i in
  if Ascii.eqb (front buf) "E" then LOG INFO (error_msg buf)
  else if Ascii.eqb (front buf) "n" && (switchN =? id) then
    let j := to_int (find buf ";") in
    if j =? to_int npos then ret tt
    else
      let* buf := lift (erase buf (size_t_of j) npos) in
      let* v := lift (substr buf (size_t_of (i + 1)) npos) in
      name_switch_put id v
  else ret tt.

Definition SetNameUSB_request (id : Z) (name : string) : M unit :=
  Transmit_string "N" id name >> ret tt.

Definition SetNameUSB_reply (id : Z) : M unit :=
  let* buf := ReceiveTerminated ";" in
  LOG INFO buf >>
  let* buf := lift (erase buf 0 1) in
  let i := to_int (find buf ":") in
  let* switchN := read_switchN buf i in
  if Ascii.eqb (front buf) "E" then LOG INFO (error_msg buf)
  else if Ascii.eqb (front buf) "n" && (switchN =? id) then
    LOG INFO buf >>
    let j := to_int (find buf ";") in
    if j =? to_int npos then ret tt
    else
      let* buf := lift (erase buf (size_t_of j) npos) in
      LOG INFO buf >>
      let* v := lift (substr buf (size_t_of (i + 1)) npos) in
      name_switch_put id v >>
      LOG INFO v
  else ret tt.

(** [OPB::SetNameUSB(short id, std::string name)] *)
Definition SetNameUSB (id : Z) (name : string) : M unit :=
  SetNameUSB_request id name >> SetNameUSB_reply id.

(** ** Topology, WiFi *)

(** [OPB::GetNum()] *)
Definition GetNum : M unit :=
  Transmit "Z" 0 >>
  let* buf := ReceiveTerminated ";" in
  let* buf := lift (erase buf 0 1) in
  let i := to_int (find buf ":") in
  if Ascii.eqb (front buf) "E" then LOG INFO (error_msg buf)
  else if Ascii.eqb (front buf) "Z" then
    let j := to_int (find buf ";") in
    if j =? to_int npos then ret tt
    else
      let* buf := lift (erase buf (size_t_of j) npos) in
      let* buf := lift (substr buf (size_t_of (i + 1)) npos) in
      let k := to_int (find_last_of buf ",") in
      let* t := lift (substr buf (size_t_of (k + 1)) npos) in
      let* n := lift (stoi t) in
      modify (set_numUSB n) >>
      let* buf := lift (erase buf (size_t_of k) npos) in
      let k := to_int (find_last_of buf ",") in
      let* t := lift (substr buf (size_t_of (k + 1)) npos) in
      let* n := lift (stoi t) in
      modify (set_numOn n) >>
      let* buf := lift (erase buf (size_t_of k) npos) in
      let k := to_int (find_last_of buf ",") in
      let* t := lift (substr buf (size_t_of (k + 1)) npos) in
      let* n := lift (stoi t) in
      modify (set_numRelay n) >>
      let* buf := lift (erase buf (size_t_of k) npos) in
      let k := to_int (find_last_of buf ",") in
      let* t := lift (substr buf (size_t_of (k + 1)) npos) in
      let* n := lift (stoi t) in
      modify (set_numPWM n) >>
      let* buf := lift (erase buf (size_t_of k) npos) in
      let* n := lift (stoi buf) in
      modify (set_numDC n)
  else ret tt.

(** The replies of [GetIP], [GetSSID] and [SetSSID] are handled alike:
    tag, cut at ';', text after ':'. *)
Definition wifi_reply (tag : ascii) (store : string -> driver -> driver)
    (widget : Z) (what : string) : M unit :=
  let* buf := ReceiveTerminated ";" in
  let* buf := lift (erase buf 0 1) in
  let i := to_int (find buf ":") in
  if Ascii.eqb (front buf) "E" then LOG INFO (error_msg buf)
  else if Ascii.eqb (front buf) tag then
    let j := to_int (find buf ";") in
    if j =? to_int npos then ret tt
    else
      let* buf := lift (erase buf (size_t_of j) npos) in
      let* buf := lift (substr buf (size_t_of (i + 1)) npos) in
      modify (store buf) >>
      widget_set "WifiTP" widget (WText buf) >>
      LOG INFO (what +:+ buf)
  else ret tt.

(** [OPB::GetIP()] *)
Definition GetIP : M unit :=
  Transmit "I" 0 >> wifi_reply "i" set_IP 0 "IP Address returned by the device: ".

(** [OPB::GetSSID()] *)
Definition GetSSID : M unit :=
  Transmit "f" 0 >> wifi_reply "f" set_SSID 1 "SSID returned by the device: ".

(** [OPB::SetSSID(std::string ssid)] *)
Definition SetSSID (ssid : string) : M unit :=
  Transmit_string "F" 0 ssid >> wifi_reply "f" set_SSID 1 "SSID returned by the device: ".

(** [OPB::SetPWD(std::string pwd)] *)
Definition SetPWD (pwd : string) : M unit :=
  Transmit_string "H" 0 pwd >> ret tt.

(** [OPB::GetWifiIP_SSID()] *)
Definition GetWifiIP_SSID : M bool := GetIP >> GetSSID >> ret true.

(** [OPB::reboot()] *)
Definition reboot : M bool := Transmit "p" 0 >> ret true.

(** ** Polarity *)

Definition reverse_reply (id : Z) : M unit :=
  let* buf := ReceiveTerminated ";" in
  let* buf := lift (erase buf 0 1) in
  let i := to_int (find buf ":") in
  let* switchN := read_switchN buf i in
  if Ascii.eqb (front buf) "E" then LOG INFO (error_msg buf)
  else if Ascii.eqb (front buf) "r" && (switchN =? id) then
    let j := to_int (find buf ";") in
    if j =? to_int npos then ret tt
    else
      let* buf := lift (erase buf (size_t_of j) npos) in
      let* t := lift (substr buf (size_t_of (i + 1)) npos) in
      let* n := lift (stoi t) in
      Reverse_put id (negb (n =? 0))
  else ret tt.

(** [OPB::GetReverseUSB(short id)] *)
Definition GetReverseUSB (id : Z) : M unit :=
  Transmit "r" id >> reverse_reply id.

Definition SetReverseUSB_request (id value : Z) : M unit :=
  Transmit_int "R" id value >> ret tt.

(** [OPB::SetReverseUSB(short id, int value)] *)
Definition SetReverseUSB (id value : Z) : M unit :=
  SetReverseUSB_request id value >> reverse_reply id.

(** ** The power interface *)

(** [OPB::SetPowerPort(size_t port, bool enabled)] *)
Definition SetPowerPort (port : Z) (enabled : bool) : M bool :=
  let* on := gets Alldc in
  (if on : bool then
     let* cur := state_get port in
     LOG INFO ("Changing state of " +:+ to_string (to_int port) +:+ " from " +:+ cur
               +:+ " to " +:+ to_string (Z.b2z enabled)) >>
     SetSwitchUSB (to_short port) (Z.b2z enabled)
   else ret tt) >>
  ret true.

(** [OPB::SetDewPort(size_t port, bool enabled, double dutyCycle)] *)
Definition SetDewPort (port : Z) (enabled : bool) (dutyCycle : spec_float) : M bool :=
  let* on := gets Allpwm in
  (if on : bool then
     let* duty := match double_to_int dutyCycle with
                  | Some v => ret v
                  | None => undefined
                  end in
     LOG INFO ("Setting Dew Port " +:+ to_string (to_int port) +:+ " to "
               +:+ to_string (Z.b2z enabled) +:+ " with duty cycle " +:+ to_string duty) >>
     let* n := gets numDC in
     let id := to_short (size_t_of (n + port)) in
     if enabled then SetSwitchValueUSB id (double_of_int duty)
     else SetSwitchValueUSB id (double_of_int 0)
   else ret tt) >>
  ret true.

(** [OPB::SetUSBPort(size_t port, bool enabled)] (the line printed on
    [std::cout] is left out). *)
Definition SetUSBPort (port : Z) (enabled : bool) : M bool :=
  let* d := get in
  SetSwitchUSB (to_short (size_t_of (numDC d + numPWM d + numRelay d + numOn d + port)))
               (Z.b2z enabled) >>
  ret true.

(** ** Switch properties of the client *)

(** The driver's own switch vectors, with the state of element 0 after
    [update] ([enabled]). *)
Inductive switch_event : Type :=
| GetWiFiInfoSP
| RebootSP
| AllDCSP (enabled : bool)
| AllPWMSP (enabled : bool)
| OnSP (enabled : bool)
| RelaySP (enabled : bool)
| ReverseDCSP (enabled : bool)
| ReversePWMSP (enabled : bool)
| ReverseOnSP (enabled : bool)
| ReverseRelaySP (enabled : bool)
| ReverseUSBSP (enabled : bool).

Definition ok_or_alert (b : bool) : IPState := if b then IPS_OK else IPS_ALERT.

(** [(bool)std::stoi(state[k])] *)
Definition state_bool (k : Z) : M bool :=
  let* s := state_get k in
  let* n := lift (stoi s) in
  ret (negb (n =? 0)).

Definition reverse_switch (prop : string) (id : Z) (enabled : bool) : M bool :=
  SetReverseUSB id (Z.b2z enabled) >>
  let* r := Reverse_get id in
  setState prop (ok_or_alert (Bool.eqb r enabled)) >>
  ret true.

(** [OPB::ISNewSwitch] for this device and one of the driver's vectors. *)
Definition ISNewSwitch (ev : switch_event) : M bool :=
  match ev with
  | GetWiFiInfoSP =>
      let* r := GetWifiIP_SSID in
      setState "GetWiFiInfoSP" (ok_or_alert r) >> ret true
  | RebootSP =>
      let* r := reboot in
      setState "RebootSP" (ok_or_alert r) >> LOG INFO "Rebooting device..." >> ret true
  | AllDCSP enabled =>
      modify (set_Alldc enabled) >>
      (if negb enabled then
         let* n := gets numDC in
         for_range 0 n (fun i =>
           SetSwitchUSB (to_short i) (Z.b2z enabled) >>
           let* b := state_bool i in
           widget_set "PowerChannelsSP" i (WSwitch b))
       else ret tt) >>
      ret true
  | AllPWMSP enabled =>
      modify (set_Allpwm enabled) >>
      (if negb enabled then
         let* n := gets numPWM in
         let* dc := gets numDC in
         for_range 0 n (fun i =>
           SetSwitchValueUSB (to_short (dc + i)) (double_of_int (Z.b2z enabled)) >>
           let* s := state_get (dc + i) in
           let* v := lift (stoi s) in
           widget_set "DewChannelDutyCycleNP" i (WNum (double_of_int v)))
       else ret tt) >>
      ret true
  | OnSP enabled =>
      let* d := get in
      SetSwitchUSB (to_short (numDC d + numPWM d)) (Z.b2z enabled) >>
      let* b := state_bool (numDC d + numPWM d) in
      setState "OnSP" (ok_or_alert (Bool.eqb b enabled)) >> ret true
  | RelaySP enabled =>
      let* d := get in
      SetSwitchUSB (to_short (numDC d + numPWM d + numOn d)) (Z.b2z enabled) >>
      let* b := state_bool (numDC d + numPWM d + numOn d) in
      setState "RelaySP" (ok_or_alert (Bool.eqb b enabled)) >> ret true
  | ReverseDCSP enabled => reverse_switch "ReverseDCSP" 0 enabled
  | ReversePWMSP enabled => reverse_switch "ReversePWMSP" 1 enabled
  | ReverseOnSP enabled => reverse_switch "ReverseOnSP" 2 enabled
  | ReverseRelaySP enabled => reverse_switch "ReverseRelaySP" 3 enabled
  | ReverseUSBSP enabled => reverse_switch "ReverseUSBSP" 4 enabled
  end.

(** ** Limits and the poll cycle

    [std::stof] is a parameter of this part: any reading of decimal text
    as a [float] that either yields a value or throws. *)

Section Polling.

Variable stof : string -> res spec_float.

Definition limits_reply (id : Z) : M unit :=
  let* buf := ReceiveTerminated ";" in
  let* buf := strip_both buf in
  let i := to_int (find buf ":") in
  let* switchN := read_switchN buf i in
  if Ascii.eqb (front buf) "E" then LOG INFO (error_msg buf)
  else if Ascii.eqb (front buf) "l" && (switchN =? id) then
    let j := to_int (find buf ";") in
    if j =? to_int npos then ret tt
    else
      let* buf := lift (erase buf (size_t_of j) npos) in
      let* t := lift (substr buf (size_t_of (i + 1)) npos) in
      let* b := lift (stof t) in
      Limit_put id b
  else ret tt.

(** [OPB::GetLimitsUSB(short id)] *)
Definition GetLimitsUSB (id : Z) : M unit :=
  Transmit "l" id >> limits_reply id.

Definition SetLimitsUSB_request (id : Z) (value : spec_float) : M unit :=
  Transmit_float "L" id value >> ret tt.

(** [OPB::SetLimitsUSB(short id, float value)] *)
Definition SetLimitsUSB (id : Z) (value : spec_float) : M unit :=
  SetLimitsUSB_request id value >> limits_reply id.

(** [std::stof(state[k])] *)
Definition state_float (k : Z) : M spec_float :=
  let* s := state_get k in
  lift (stof s).

(** Indices of [TimerHit]. *)
Definition total (d : driver) : Z := numDC d + numPWM d + numOn d + numRelay d + numUSB d.
Definition sensorNum (d : driver) : Z := total d + 4.
Definition numSwitch (d : driver) : Z := (numDC d + numPWM d + numOn d) * 2 + total d + 4.
Definition numInputV (d : driver) : Z := total d.
Definition numTotalA (d : driver) : Z := numInputV d + 1.

Definition SENSOR_VOLTAGE : Z := 0.
Definition SENSOR_CURRENT : Z := 1.
Definition SENSOR_POWER : Z := 2.
Definition INPUT_VOLTAGE : Z := 0.
Definition TOTAL_CURRENT : Z := 1.
Definition TOTAL_POWER : Z := 2.
Definition ON_V : Z := 0.
Definition ON_A : Z := 1.

(** The sweep: [for (int k = 0; k < numSwitch; k++) GetSwitchUSB(k);] *)
Definition sweep (n : Z) : M unit :=
  for_range 0 n (fun k => GetSwitchUSB (to_short k)).

(** The statements of [TimerHit] after the sweep, up to [SetTimer]; the
    three indices are the locals computed before the sweep. *)
Definition publish (numInputV numTotalA sensorNum : Z) : M unit :=
  let* v := state_float numInputV in
  let* a := state_float numTotalA in
  widget_set "PowerSensorsNP" SENSOR_VOLTAGE (WNum v) >>
  widget_set "PowerSensorsNP" SENSOR_CURRENT (WNum a) >>
  widget_set "PowerSensorsNP" SENSOR_POWER (WNum (fmul v a)) >>
  setState "PowerSensorsNP" IPS_OK >>
  let* d := get in
  for_range 0 (numDC d) (fun i =>
    let* b := state_bool i in
    widget_set "PowerChannelsSP" i (WSwitch b)) >>
  for_range 0 (numPWM d) (fun j =>
    let* s := state_get (numDC d + j) in
    let* n := lift (stoi s) in
    widget_set "DewChannelDutyCycleNP" j (WNum (double_of_int n))) >>
  for_range 0 (numDC d) (fun i =>
    let* x := state_float (sensorNum + 2 * i) in
    widget_set "DCVoltageNP" i (WNum x) >>
    let* y := state_float (sensorNum + 2 * i + 1) in
    widget_set "DCCurrentNP" i (WNum y) >>
    let* z := state_float (sensorNum + 2 * i + 1) in
    widget_set "PowerChannelCurrentNP" i (WNum z)) >>
  for_range 0 (numPWM d) (fun i =>
    let* x := state_float (sensorNum + 2 * numDC d + 2 * i + 1) in
    widget_set "PWMCurrentNP" i (WNum x)) >>
  let* x := state_float (sensorNum + 2 * numDC d + 2 * numPWM d) in
  widget_set "OnSensorNP" ON_V (WNum x) >>
  let* y := state_float (sensorNum + 2 * numDC d + 2 * numPWM d + 1) in
  widget_set "OnSensorNP" ON_A (WNum y) >>
  widget_set "TotalConsumptionNP" INPUT_VOLTAGE (WNum v) >>
  widget_set "TotalConsumptionNP" TOTAL_CURRENT (WNum a) >>
  widget_set "TotalConsumptionNP" TOTAL_POWER (WNum (fmul v a)) >>
  setState "TotalConsumptionNP" IPS_OK.

(** [OPB::TimerHit()] *)
Definition TimerHit : M unit :=
  let* up := gets isConnected in
  if negb up then SetTimer
  else
    let* d := get in
    sweep (numSwitch d) >>
    publish (numInputV d) (numTotalA d) (sensorNum d) >>
    SetTimer.

End Polling.

(** ** Running the model

    A reading of plain decimal numerals ([digits[.digits]] after optional
    blanks and sign), rounded to binary32; it stands for [std::stof] when
    the model is run on a script. *)
Definition stof_fixed (s : string) : res spec_float :=
  let '(neg, s2) := split_sign (skip_space s) in
  let '(ip, c1, r1) := read_digits 0 0 s2 in
  let '(n, c2, _) :=
    match r1 with
    | String "." r => read_digits ip 0 r
    | _ => (ip, O, r1)
    end in
  match (c1 + c2)%nat with
  | O => Raise invalid_argument
  | S _ =>
      match n with
      | Z.pos p =>
          match SFdiv 24 128 (S754_finite neg p 0) (S754_finite false (Z.to_pos (10 ^ Z.of_nat c2)) 0) with
          | S754_infinity _ => Raise out_of_range
          | x => Value x
          end
      | _ => Value (S754_zero neg)
      end
  end.

(** The driver after construction and [initProperties]: empty strings in
    the caches, both master toggles on.  The five counts, which the
    source leaves uninitialised until [GetNum] has run, are 0 here. *)
Definition fresh : driver :=
  mkDriver (replicate 100 EmptyString) (replicate 100 EmptyString)
           (replicate 5 false) (replicate 6 (S754_zero false))
           0 0 0 0 0 EmptyString EmptyString true true
           [] [] [] [] ∅ ∅ O true.

(** The topology of the stock device: 7 DC, 3 PWM, 1 relay, 1 bank, 7 USB. *)
Definition stock : driver :=
  set_numDC 7 (set_numPWM 3 (set_numRelay 1 (set_numOn 1 (set_numUSB 7 fresh)))).

(** The frame ["#" tag index ":" payload ";"] of the wire grammar, and
    what is left of it without the leading '#' and the closing ';'. *)
Definition body (tag : ascii) (index : Z) (payload : string) : string :=
  String tag (to_string index +:+ String ":" payload).

Definition frame (tag : ascii) (index : Z) (payload : string) : string :=
  String "#" (body tag index payload +:+ ";").

(** A device that answers the [n] requests [G k], [k = from, from+1, ...],
    with the value [val k]. *)
Fixpoint answers (n : nat) (from : Z) (val : Z -> string) : list read_result :=
  match n with
  | O => []
  | S n' => ReadOk (frame "G" from (val from)) :: answers n' (from + 1) val
  end.

(** ** Vocabulary of the statements *)

(** What a [Transmit] leaves behind: the packet on the line, the outcome
    of the write consumed, the log extended by the entries [pre] written
    before the write and by the error entry of a failed write. *)
Definition write_ok (d : driver) : bool :=
  match wr d with
  | WriteFail _ :: _ => false
  | _ => true
  end.

Definition write_log (d : driver) : list (log_level * string) :=
  match wr d with
  | WriteFail msg :: _ => [(ERROR, "Serial write error: " +:+ msg)]
  | _ => []
  end.

Definition sent (pre : list (log_level * string)) (packet : string) (d : driver) : driver :=
  set_log (log d ++ pre ++ write_log d)
    (set_wr (tail (wr d)) (set_written (written d ++ [packet]) d)).

Definition trace_int (packet : string) : list (log_level * string) :=
  [(INFO, packet); (DEBUG, "CMD <" +:+ packet +:+ ">")].

Definition trace (packet : string) : list (log_level * string) :=
  [(DEBUG, "CMD <" +:+ packet +:+ ">")].

(** [spec u R m]: from every driver, [m] ends (by return or exception)
    in a driver related by [R]; when [u] is [False] it also never runs
    into undefined behaviour. *)
Definition spec (u : Prop) (R : driver -> driver -> Prop) {A} (m : M A) : Prop :=
  forall d,
    match m d with
    | Done _ d' => R d d'
    | Throw _ d' => R d d'
    | Undefined => u
    end.

(** The packets already on the line stay as they are. *)
Definition same_written (d d' : driver) : Prop := written d' = written d.

(** The state cache and the topology stay as they are. *)
Definition same_cache (d d' : driver) : Prop :=
  state d' = state d /\ numDC d' = numDC d /\ numPWM d' = numPWM d
  /\ numRelay d' = numRelay d /\ numOn d' = numOn d /\ numUSB d' = numUSB d.

(** The topology stays as it is. *)
Definition same_counts (d d' : driver) : Prop :=
  numDC d' = numDC d /\ numPWM d' = numPWM d /\ numRelay d' = numRelay d
  /\ numOn d' = numOn d /\ numUSB d' = numUSB d.

(** The [double] [x] holds the integer [n] exactly. *)
Definition holds_int (x : spec_float) (n : Z) : Prop :=
  match x with
  | S754_zero s => s = false /\ n = 0
  | S754_finite s m e =>
      exists a, n = (if s then - a else a)
                /\ (if 0 <=? e then a = Z.pos m * 2 ^ e else Z.pos m = a * 2 ^ (- e))
  | _ => False
  end.

(** The requests [G lo], ..., [G (lo + n - 1)] of a sweep. *)
Fixpoint polls (n : nat) (lo : Z) : list string :=
  match n with
  | O => []
  | S n' => packet2 "G" lo :: polls n' (lo + 1)
  end.

(** The state cache and the topology stay as they are, and so does the
    power widget of the sensor vector of the power interface. *)
Definition keeps_power (d d' : driver) : Prop :=
  same_cache d d'
  /\ widgets d' !! ("PowerSensorsNP"%string, SENSOR_POWER)
     = widgets d !! ("PowerSensorsNP"%string, SENSOR_POWER).

(** The binary32 number nearest to [m * 2 ^ e]. *)
Definition f32 (m e : Z) : spec_float := binary_normalize 24 128 m e false.

(** What a read of the cache at [k] yields. *)
Definition cached (d : driver) (k : Z) : string :=
  default EmptyString (state d !! Z.to_nat k).

(** A cache for the stock topology: the 19 switches on, 12.00 V and
    2.50 A in the two global slots, 0.50 in every other sensor slot. *)
Definition sample_cache : list string :=
  replicate 19 "1"%string ++ ["12.00"%string; "2.50"%string] ++ replicate 79 "0.50"%string.

(** The stock device with that cache, about to answer a whole sweep. *)
Definition polled : driver :=
  set_state sample_cache (set_rd (answers 45 0 (fun _ => "1"%string)) stock).

(** The stock device whose first reply of a sweep times out while the
    other 44 replies would arrive. *)
Definition stalled : driver :=
  set_rd (ReadFail "Timeout error" :: answers 44 1 (fun _ => "1"%string)) stock.

(** The stock device whose first reply of a sweep has no number where
    the index should be. *)
Definition garbled : driver :=
  set_rd (ReadOk "#Gx:1;" :: answers 44 1 (fun _ => "1"%string)) stock.

(** A driver with "0" cached at index 3 and a pending reply. *)
Definition pending (reply : string) : driver :=
  set_rd [ReadOk reply] (set_state (<[3%nat := "0"%string]> (state fresh)) fresh).

(** The driver a poll cycle leaves behind when started from [polled]. *)
Definition polled_end : driver :=
  Eval vm_compute in
    match TimerHit stof_fixed polled with
    | Done _ d => d
    | _ => polled
    end.

(** The comma list of a topology reply: the five counts in the order
    the device sends them. *)
Definition counts_text (a b c d e : Z) : string :=
  (((to_string a +:+ String "," (to_string b)) +:+ String "," (to_string c))
     +:+ String "," (to_string d)) +:+ String "," (to_string e).

(** A reply without an index: the head [tag h], the payload [p] between
    the colon and the terminator, and the text [tail] after it. *)
Definition reply (tag : ascii) (h p tail : string) : string :=
  String "#" (String tag h +:+ String ":" (p +:+ String ";" tail)).

(** The five polarity vectors of [ISNewSwitch]: the class each one
    commands, the event, and the name of the vector. *)
Definition polarity_vectors (enabled : bool) : list (Z * switch_event * string) :=
  [(0, ReverseDCSP enabled, "ReverseDCSP"%string);
   (1, ReversePWMSP enabled, "ReversePWMSP"%string);
   (2, ReverseOnSP enabled, "ReverseOnSP"%string);
   (3, ReverseRelaySP enabled, "ReverseRelaySP"%string);
   (4, ReverseUSBSP enabled, "ReverseUSBSP"%string)].

(** The driver after a read that has failed with [msg]: the outcome is
    consumed and the failure is in the log. *)
Definition read_failed (msg : string) (rest : list read_result) (d : driver) : driver :=
  set_log (log d ++ [(ERROR, "Serial read error: " +:+ msg)]) (set_rd rest d).

(** The timer is armed as often as before. *)
Definition same_timers (d d' : driver) : Prop := timers d' = timers d.

(** The state cache and the topology stay as they are, and so does
    every widget of the vector [prop]. *)
Definition keeps_vector (prop : string) (d d' : driver) : Prop :=
  same_cache d d' /\ forall i, widgets d' !! (prop, i) = widgets d !! (prop, i).

(** A driver that is not connected. *)
Definition offline : driver :=
  mkDriver (state stock) (name_switch stock) (Reverse stock) (Limit stock)
           7 3 1 1 7 EmptyString EmptyString true true [] [] [] [] ∅ ∅ O false.

(** The cache entry [k] stays as it is. *)
Definition keeps_entry (k : nat) (d d' : driver) : Prop := state d' !! k = state d !! k.

(** A device without a bank: one DC output and nothing else, every cache
    entry at "1", about to answer a whole sweep; and the driver a poll
    cycle leaves behind when started from it. *)
Definition bankless : driver :=
  set_state (replicate 100 "1"%string)
    (set_rd (answers 7 0 (fun _ => "0"%string)) (set_numDC 1 fresh)).

Definition bankless_end : driver :=
  Eval vm_compute in
    match TimerHit stof_fixed bankless with
    | Done _ d => d
    | _ => bankless
    end.

(** The commands [S lo v], ..., [S (lo + n - 1) v]. *)
Fixpoint sets (n : nat) (lo : Z) (v : Z) : list string :=
  match n with
  | O => []
  | S n' => packet3 "S" lo (to_string v) :: sets n' (lo + 1) v
  end.

(** The two on/off vectors of [ISNewSwitch] that command one switch: the
    index commanded, the event, and the name of the vector. *)
Definition single_switches (d : driver) (enabled : bool) : list (Z * switch_event * string) :=
  [(numDC d + numPWM d, OnSP enabled, "OnSP"%string);
   (numDC d + numPWM d + numOn d, RelaySP enabled, "RelaySP"%string)].

(** ** Text properties of the client *)

(** The driver's own text vectors, with the texts the client sends. *)
Inductive text_event : Type :=
| WifiTP (texts : list string)
| PowerChannelLabelsTP (texts : list string)
| DewChannelLabelsTP (texts : list string)
| LimitsTP (texts : list string).

(** [texts[i]]: an index past the texts sent is undefined behaviour. *)
Definition text_at (texts : list string) (i : Z) : M string :=
  fun d =>
    if 0 <=? i then
      match texts !! Z.to_nat i with
      | Some s => Done s d
      | None => Undefined
      end
    else Undefined.

(** Modelled from the spec: [getText] belongs to the host framework,
    which the spec treats as an external collaborator.  It yields the
    text last set on element [i] of the vector [prop]; an element that
    holds no text is left undefined (the driver gives every label and
    every limit a text when it connects). *)
Definition getText (prop : string) (i : Z) : M string :=
  fun d =>
    match widgets d !! (prop, i) with
    | Some (WText s) => Done s d
    | _ => Undefined
    end.

Definition name_switch_get (id : Z) : M string :=
  fun d => if in_bounds 100 id then Done (default EmptyString (name_switch d !! Z.to_nat id)) d
           else Undefined.

Definition Limit_get (id : Z) : M spec_float :=
  fun d => if in_bounds 6 id then Done (default (S754_zero false) (Limit d !! Z.to_nat id)) d
           else Undefined.

Section TextProperties.

Variable stof : string -> res spec_float.

(** [OPB::ISNewText] for this device and one of the driver's vectors
    ([usleep] does not act on the scripted line). *)
Definition ISNewText (ev : text_event) : M bool :=
  match ev with
  | WifiTP texts =>
      let* ssid := text_at texts 1 in
      SetSSID ssid >>
      let* pwd := text_at texts 2 in
      SetPWD pwd >>
      Transmit "p" 0 >>
      GetIP >>
      let* ip := gets IP in
      widget_set "WifiTP" 0 (WText ip) >>
      let* ssid := gets SSID in
      widget_set "WifiTP" 1 (WText ssid) >>
      ret true
  | PowerChannelLabelsTP texts =>
      let* n := gets numDC in
      for_range 0 n (fun i =>
        let* cur := getText "PowerChannelLabelsTP" i in
        let* t := text_at texts i in
        if negb (String.eqb cur t) then
          SetNameUSB (to_short i) t >>
          let* nm := name_switch_get i in
          widget_set "PowerChannelLabelsTP" i (WText nm)
        else ret tt) >>
      ret true
  | DewChannelLabelsTP texts =>
      let* n := gets numPWM in
      let* dc := gets numDC in
      for_range 0 n (fun i =>
        let* cur := getText "DewChannelLabelsTP" i in
        let* t := text_at texts i in
        if negb (String.eqb cur t) then
          SetNameUSB (to_short (dc + i)) t >>
          let* nm := name_switch_get (dc + i) in
          widget_set "DewChannelLabelsTP" i (WText nm)
        else ret tt) >>
      ret true
  | LimitsTP texts =>
      for_range 0 6 (fun i =>
        let* cur := getText "LimitsTP" i in
        let* t := text_at texts i in
        if negb (String.eqb cur t) then
          let* x := lift (stof t) in
          SetLimitsUSB stof (to_short i) x >>
          let* l := Limit_get i in
          widget_set "LimitsTP" i (WText (to_string_double l))
        else ret tt) >>
      ret true
  end.

End TextProperties.

(** The set-name commands a label vector sends: one for each of the [n]
    labels from [lo] on whose text differs from the text shown, with
    [base] the index of the first output of the class. *)
Fixpoint renames (prop : string) (w : gmap (string * Z) wval) (texts : list string)
    (base : Z) (n : nat) (lo : Z) : list string :=
  match n with
  | O => []
  | S n' =>
      match w !! (prop, lo), texts !! Z.to_nat lo with
      | Some (WText cur), Some t =>
          if String.eqb cur t then [] else [packet3 "N" (base + lo) t]
      | _, _ => []
      end ++ renames prop w texts base n' (lo + 1)
  end.

(** The log has only grown. *)
Definition log_grows (d d' : driver) : Prop := exists l, log d' = log d ++ l.

(** The packets on the line and the widgets stay as they are. *)
Definition same_surface (d d' : driver) : Prop :=
  written d' = written d /\ widgets d' = widgets d.

(** The texts sent are the texts the first [n] elements of [prop] show. *)
Definition shows (prop : string) (n : Z) (texts : list string) (d : driver) : Prop :=
  forall i, 0 <= i < n ->
    exists t, widgets d !! (prop, i) = Some (WText t) /\ texts !! Z.to_nat i = Some t.

(** The label and limit vectors of [ISNewText]: the event, the name of
    the vector and the number of elements it goes through. *)
Definition compared_vectors (d : driver) (texts : list string)
  : list (text_event * string * Z) :=
  [(PowerChannelLabelsTP texts, "PowerChannelLabelsTP"%string, numDC d);
   (DewChannelLabelsTP texts, "DewChannelLabelsTP"%string, numPWM d);
   (LimitsTP texts, "LimitsTP"%string, 6)].

(** The two label vectors of [ISNewText]: the event, the name of the
    vector, the index of the first output of the class and the number of
    outputs. *)
Definition label_vectors (d : driver) (texts : list string)
  : list (text_event * string * Z * Z) :=
  [(PowerChannelLabelsTP texts, "PowerChannelLabelsTP"%string, 0, numDC d);
   (DewChannelLabelsTP texts, "DewChannelLabelsTP"%string, numDC d, numPWM d)].

(** Two power outputs whose labels are shown. *)
Definition labelled : driver :=
  set_numDC 2
    (set_widgets (<[("PowerChannelLabelsTP"%string, 0) := WText "Mount"]>
                    (<[("PowerChannelLabelsTP"%string, 1) := WText "Camera"]> ∅)) fresh).

(** The same driver before and after the client renames the second
    output, the box confirming the name. *)
Definition relabelling : driver := set_rd [ReadOk (frame "n" 1 "Scope")] labelled.

Definition relabelled : driver :=
  Eval vm_compute in
    match ISNewText stof_fixed (PowerChannelLabelsTP ["Mount"; "Scope"]%string) relabelling with
    | Done _ d => d
    | _ => fresh
    end.

(** * Properties *)

(** ** Strings *)

Lemma sapp_cons (x : ascii) (a b : string) : String x a +:+ b = String x (a +:+ b).
Proof. reflexivity. Qed.

Lemma sapp_nil_l (b : string) : EmptyString +:+ b = b.
Proof. reflexivity. Qed.

Lemma sapp_assoc (a b c : string) : (a +:+ b) +:+ c = a +:+ (b +:+ c).
Proof.
  induction a as [|x a IH]; [reflexivity|].
  rewrite !sapp_cons, IH. reflexivity.
Qed.

Lemma sapp_nil_r (a : string) : a +:+ EmptyString = a.
Proof.
  induction a as [|x a IH]; [reflexivity|].
  rewrite sapp_cons, IH. reflexivity.
Qed.

Lemma slength_app (a b : string) :
  String.length (a +:+ b) = (String.length a + String.length b)%nat.
Proof.
  induction a as [|x a IH]; [reflexivity|].
  rewrite sapp_cons. simpl. rewrite IH. reflexivity.
Qed.

Lemma size_app (a b : string) : size (a +:+ b) = size a + size b.
Proof. unfold size. rewrite slength_app. lia. Qed.

Lemma size_String (c : ascii) (s : string) : size (String c s) = 1 + size s.
Proof. unfold size. simpl String.length. lia. Qed.

Lemma size_nonneg (s : string) : 0 <= size s.
Proof. unfold size. lia. Qed.

Lemma sdrop_app (a b : string) : sdrop (String.length a) (a +:+ b) = b.
Proof.
  induction a as [|x a IH]; [reflexivity|].
  rewrite sapp_cons. simpl. exact IH.
Qed.

Lemma stake_app (a b : string) : stake (String.length a) (a +:+ b) = a.
Proof.
  induction a as [|x a IH]; [reflexivity|].
  rewrite sapp_cons. simpl. rewrite IH. reflexivity.
Qed.

Lemma stake_all (n : nat) (s : string) : (String.length s <= n)%nat -> stake n s = s.
Proof.
  revert n. induction s as [|x s IH]; intros [|n] H; simpl in *; try reflexivity; try lia.
  rewrite IH by lia. reflexivity.
Qed.

Lemma sdrop_all (n : nat) (s : string) : (String.length s <= n)%nat -> sdrop n s = EmptyString.
Proof.
  revert n. induction s as [|x s IH]; intros [|n] H; simpl in *; try reflexivity; try lia.
  apply IH. lia.
Qed.

Lemma sfind_app_None (c : ascii) (a b : string) :
  sfind c a = None -> sfind c (a +:+ String c b) = Some (String.length a).
Proof.
  induction a as [|x a IH]; intros H.
  - rewrite sapp_nil_l. simpl. now rewrite Ascii.eqb_refl.
  - rewrite sapp_cons. simpl in *.
    destruct (Ascii.eqb x c); [discriminate|].
    destruct (sfind c a); [discriminate|]. now rewrite IH.
Qed.

Lemma sfind_app_None_None (c : ascii) (a b : string) :
  sfind c a = None -> sfind c b = None -> sfind c (a +:+ b) = None.
Proof.
  induction a as [|x a IH]; intros Ha Hb; [exact Hb|].
  rewrite sapp_cons. simpl in *.
  destruct (Ascii.eqb x c); [discriminate|].
  destruct (sfind c a); [discriminate|]. now rewrite IH.
Qed.

(** ** Machine integers *)

Lemma to_int_small (z : Z) : - 2 ^ 31 <= z < 2 ^ 31 -> to_int z = z.
Proof. intros H. unfold to_int. rewrite Z.mod_small; lia. Qed.

Lemma to_int_npos : to_int npos = -1.
Proof. reflexivity. Qed.

Lemma to_short_small (z : Z) : - 2 ^ 15 <= z < 2 ^ 15 -> to_short z = z.
Proof. intros H. unfold to_short. rewrite Z.mod_small; lia. Qed.

Lemma size_t_small (z : Z) : 0 <= z < 2 ^ 64 -> size_t_of z = z.
Proof. intros H. unfold size_t_of. apply Z.mod_small. lia. Qed.

Lemma in_int_true (z : Z) : in_int z = true <-> - 2 ^ 31 <= z < 2 ^ 31.
Proof. unfold in_int. rewrite andb_true_iff, Z.leb_le, Z.ltb_lt. reflexivity. Qed.

(** ** std::string operations on short strings *)

Lemma substr_whole (s : string) : size s < 2 ^ 64 -> substr s 0 npos = Value s.
Proof.
  intros H. unfold substr. pose proof (size_nonneg s).
  destruct (Z.ltb_spec (size s) 0); [lia|].
  simpl sdrop. rewrite stake_all; [reflexivity|].
  unfold size, npos in *. lia.
Qed.

Lemma erase_first (c : ascii) (s : string) : erase (String c s) 0 1 = Value s.
Proof.
  unfold erase. rewrite size_String. pose proof (size_nonneg s).
  destruct (Z.ltb_spec (1 + size s) 0); [lia|].
  replace (0 + Z.min 1 (1 + size s - 0)) with 1 by lia. reflexivity.
Qed.

Lemma erase_last (s : string) (c : ascii) :
  size s < 2 ^ 63 ->
  erase (s +:+ String c EmptyString) (size_t_of (size (s +:+ String c EmptyString) - 1)) npos
  = Value s.
Proof.
  intros H. rewrite size_app, size_String. change (size EmptyString) with 0.
  pose proof (size_nonneg s).
  rewrite size_t_small by lia.
  unfold erase. rewrite size_app, size_String. change (size EmptyString) with 0.
  destruct (Z.ltb_spec (size s + (1 + 0)) (size s + (1 + 0) - 1)); [lia|].
  replace (size s + (1 + 0) - 1) with (size s) by lia.
  replace (size s + Z.min npos (size s + (1 + 0) - size s)) with (size s + 1)
    by (unfold npos; lia).
  unfold size. rewrite Nat2Z.id, stake_app.
  rewrite sdrop_all; [now rewrite sapp_nil_r|].
  rewrite slength_app. simpl. lia.
Qed.

(** ** Decimal numerals *)

Lemma digit_char_val (m : Z) : 0 <= m < 10 -> digit_val (digit_char m) = m.
Proof.
  intros H.
  assert (m = 0 \/ m = 1 \/ m = 2 \/ m = 3 \/ m = 4 \/ m = 5 \/ m = 6 \/ m = 7
          \/ m = 8 \/ m = 9) as Hm by lia.
  repeat (destruct Hm as [-> | Hm]; [reflexivity|]). subst. reflexivity.
Qed.

Lemma digit_char_isdigit (m : Z) : 0 <= m < 10 -> isdigit (digit_char m) = true.
Proof.
  intros H.
  assert (m = 0 \/ m = 1 \/ m = 2 \/ m = 3 \/ m = 4 \/ m = 5 \/ m = 6 \/ m = 7
          \/ m = 8 \/ m = 9) as Hm by lia.
  repeat (destruct Hm as [-> | Hm]; [reflexivity|]). subst. reflexivity.
Qed.

Lemma digits_of_app (fuel : nat) (n : Z) (acc : string) :
  digits_of fuel n acc = digits_of fuel n EmptyString +:+ acc.
Proof.
  revert n acc. induction fuel as [|f IH]; intros n acc; [reflexivity|].
  simpl. destruct (n <? 10); [reflexivity|].
  rewrite IH. rewrite (IH _ (String _ EmptyString)).
  rewrite sapp_assoc. reflexivity.
Qed.

Lemma read_digits_digits_of (fuel : nat) :
  forall n a c rest, 0 <= n < 10 ^ Z.of_nat fuel ->
    read_digits a c (digits_of fuel n EmptyString +:+ rest)
    = read_digits (a * 10 ^ Z.of_nat (String.length (digits_of fuel n EmptyString)) + n)
                  (c + String.length (digits_of fuel n EmptyString)) rest.
Proof.
  induction fuel as [|f IH]; intros n a c rest H.
  - simpl in *. assert (n = 0) by lia. subst.
    rewrite sapp_nil_l. f_equal; lia.
  - simpl digits_of. destruct (Z.ltb_spec n 10) as [Hlt|Hge].
    + rewrite sapp_cons, sapp_nil_l. simpl read_digits.
      rewrite Z.mod_small by lia.
      rewrite digit_char_isdigit, digit_char_val by lia.
      simpl String.length. f_equal; lia.
    + rewrite digits_of_app, sapp_assoc, sapp_cons, sapp_nil_l.
      assert (Hq : 0 <= n / 10 < 10 ^ Z.of_nat f).
      { split; [apply Z.div_pos; lia|].
        apply Z.div_lt_upper_bound; [lia|].
        replace (Z.of_nat (S f)) with (1 + Z.of_nat f) in H by lia.
        rewrite Z.pow_add_r in H by lia. lia. }
      rewrite IH by exact Hq.
      simpl read_digits.
      pose proof (Z.mod_pos_bound n 10 ltac:(lia)) as Hm.
      rewrite digit_char_isdigit, digit_char_val by lia.
      rewrite slength_app. simpl String.length.
      f_equal; [|lia].
      rewrite Nat2Z.inj_add. rewrite Z.pow_add_r by lia.
      change (10 ^ Z.of_nat 1) with 10.
      pose proof (Z.div_mod n 10 ltac:(lia)). lia.
Qed.

Lemma decimal_fuel (n : Z) : 0 <= n -> n < 10 ^ Z.of_nat (S (Z.to_nat (Z.log2 n))).
Proof.
  intros H. destruct (Z.eq_dec n 0) as [->|Hn]; [reflexivity|].
  pose proof (Z.log2_nonneg n) as Hl.
  destruct (Z.log2_spec n ltac:(lia)) as [_ Hu].
  rewrite Nat2Z.inj_succ, Z2Nat.id by lia.
  eapply Z.lt_le_trans; [exact Hu|].
  apply Z.pow_le_mono_l. lia.
Qed.

Lemma digits_of_S_head (f : nat) (n : Z) (acc : string) :
  0 <= n -> exists c t, digits_of (S f) n acc = String c t /\ isdigit c = true.
Proof.
  revert n acc. induction f as [|f IH]; intros n acc H.
  - simpl. pose proof (Z.mod_pos_bound n 10 ltac:(lia)).
    destruct (n <? 10); eexists _, _; (split; [reflexivity|]);
      apply digit_char_isdigit; lia.
  - cbn [digits_of]. destruct (Z.ltb_spec n 10).
    + eexists _, _. split; [reflexivity|].
      pose proof (Z.mod_pos_bound n 10 ltac:(lia)). apply digit_char_isdigit; lia.
    + apply (IH (n / 10)). apply Z.div_pos; lia.
Qed.

Lemma decimal_head (n : Z) :
  0 <= n -> exists c t, decimal n = String c t /\ isdigit c = true.
Proof. intros H. apply digits_of_S_head. exact H. Qed.

Lemma isdigit_not_space (c : ascii) : isdigit c = true -> isspace c = false.
Proof.
  unfold isdigit, isspace. intros H.
  apply andb_true_iff in H as [H1 H2].
  apply Nat.leb_le in H1. apply Nat.leb_le in H2.
  apply orb_false_iff. split.
  - apply Nat.eqb_neq. lia.
  - apply andb_false_iff. right. apply Nat.leb_gt. lia.
Qed.

Lemma isdigit_not (c x : ascii) : isdigit c = true -> isdigit x = false -> Ascii.eqb c x = false.
Proof.
  intros H1 H2. apply Ascii.eqb_neq. intros ->. congruence.
Qed.

Lemma read_digits_decimal (n : Z) (rest : string) :
  0 <= n ->
  isdigit (front rest) = false ->
  exists k, read_digits 0 0 (decimal n +:+ rest) = (n, S k, rest).
Proof.
  intros H Hr. unfold decimal.
  rewrite read_digits_digits_of by (split; [exact H | apply decimal_fuel; exact H]).
  destruct (digits_of_S_head (Z.to_nat (Z.log2 n)) n EmptyString H) as (c & t & -> & _).
  simpl String.length. exists (String.length t).
  destruct rest as [|x rest]; simpl in *; [reflexivity|].
  rewrite Hr. reflexivity.
Qed.

Lemma strtol_to_string (z : Z) (rest : string) :
  isdigit (front rest) = false ->
  strtol (to_string z +:+ rest) = Some (z, rest).
Proof.
  intros Hr. unfold strtol, to_string.
  destruct (Z.ltb_spec z 0) as [Hneg|Hpos].
  - rewrite sapp_cons. simpl skip_space. simpl split_sign.
    destruct (read_digits_decimal (- z) rest ltac:(lia) Hr) as [k ->].
    f_equal. f_equal. lia.
  - destruct (decimal_head z Hpos) as (c & t & E & Hc).
    destruct (read_digits_decimal z rest Hpos Hr) as [k Hk].
    rewrite E in *. rewrite sapp_cons in *.
    simpl skip_space. rewrite (isdigit_not_space c Hc).
    unfold split_sign.
    rewrite (isdigit_not c "-" Hc eq_refl), (isdigit_not c "+" Hc eq_refl).
    rewrite Hk. reflexivity.
Qed.

Lemma stoi_to_string_app (z : Z) (rest : string) :
  in_int z = true -> isdigit (front rest) = false ->
  stoi (to_string z +:+ rest) = Value z.
Proof.
  intros Hz Hr. unfold stoi. rewrite strtol_to_string by exact Hr.
  rewrite Hz. reflexivity.
Qed.

Lemma stoi_to_string (z : Z) : in_int z = true -> stoi (to_string z) = Value z.
Proof.
  intros Hz. rewrite <- (sapp_nil_r (to_string z)).
  apply stoi_to_string_app; [exact Hz | reflexivity].
Qed.

Lemma sfind_digits_of (c : ascii) (fuel : nat) :
  forall n acc, 0 <= n -> isdigit c = false -> sfind c acc = None ->
    sfind c (digits_of fuel n acc) = None.
Proof.
  induction fuel as [|f IH]; intros n acc Hn Hc Hacc; [exact Hacc|].
  simpl digits_of.
  assert (Hd : sfind c (String (digit_char (n mod 10)) acc) = None).
  { cbn [sfind]. pose proof (Z.mod_pos_bound n 10 ltac:(lia)) as Hm.
    rewrite (isdigit_not _ c (digit_char_isdigit (n mod 10) Hm) Hc).
    rewrite Hacc. reflexivity. }
  destruct (n <? 10); [exact Hd|].
  apply IH; [apply Z.div_pos; lia | exact Hc | exact Hd].
Qed.

Lemma sfind_to_string (c : ascii) (z : Z) :
  isdigit c = false -> Ascii.eqb "-" c = false -> sfind c (to_string z) = None.
Proof.
  intros Hc Hm. unfold to_string, decimal.
  destruct (Z.ltb_spec z 0).
  - cbn [sfind]. rewrite Hm.
    rewrite sfind_digits_of; [reflexivity | lia | exact Hc | reflexivity].
  - apply sfind_digits_of; [lia | exact Hc | reflexivity].
Qed.

Lemma front_to_string (z : Z) :
  isdigit (front (to_string z)) = true \/ front (to_string z) = "-"%char.
Proof.
  unfold to_string. destruct (Z.ltb_spec z 0); [right; reflexivity|].
  left. destruct (decimal_head z ltac:(lia)) as (c & t & -> & Hc). exact Hc.
Qed.

Lemma sdrop_app_plus (a b : string) (k : nat) :
  sdrop (String.length a + k) (a +:+ b) = sdrop k b.
Proof.
  induction a as [|x a IH]; [reflexivity|].
  rewrite sapp_cons. simpl. exact IH.
Qed.

(** ** Frames *)

Lemma size_frame (tag : ascii) (j : Z) (p : string) :
  size (frame tag j p) = 4 + size (to_string j) + size p.
Proof.
  unfold frame, body. rewrite !size_String, size_app, !size_String, size_app, size_String.
  change (size EmptyString) with 0. lia.
Qed.

Lemma size_body (tag : ascii) (j : Z) (p : string) :
  size (body tag j p) = 2 + size (to_string j) + size p.
Proof. unfold body. rewrite !size_String, size_app, size_String. lia. Qed.

Lemma find_hash_frame (tag : ascii) (j : Z) (p : string) : find (frame tag j p) "#" = 0.
Proof. reflexivity. Qed.

Lemma find_colon_body (tag : ascii) (j : Z) (p : string) :
  Ascii.eqb tag ":" = false ->
  find (body tag j p) ":" = 1 + size (to_string j).
Proof.
  intros Ht. unfold find, body. cbn [sfind]. rewrite Ht.
  rewrite sfind_app_None by (apply sfind_to_string; reflexivity).
  simpl. unfold size. lia.
Qed.

Lemma substr_index_body (tag : ascii) (j : Z) (p : string) :
  size (body tag j p) < 2 ^ 31 ->
  substr (body tag j p) 1 (size_t_of (1 + size (to_string j) - 1)) = Value (to_string j).
Proof.
  intros Hs. rewrite size_body in Hs.
  pose proof (size_nonneg (to_string j)). pose proof (size_nonneg p).
  rewrite size_t_small by lia.
  unfold substr. rewrite size_body.
  destruct (Z.ltb_spec (2 + size (to_string j) + size p) 1); [lia|].
  replace (Z.min (1 + size (to_string j) - 1) (2 + size (to_string j) + size p - 1))
    with (size (to_string j)) by lia.
  unfold body. change (Z.to_nat 1) with 1%nat. cbn [sdrop].
  unfold size. rewrite Nat2Z.id, stake_app. reflexivity.
Qed.

Lemma substr_value_body (tag : ascii) (j : Z) (p : string) :
  size (body tag j p) < 2 ^ 31 ->
  substr (body tag j p) (size_t_of (1 + size (to_string j) + 1)) npos = Value p.
Proof.
  intros Hs. rewrite size_body in Hs.
  pose proof (size_nonneg (to_string j)). pose proof (size_nonneg p).
  rewrite size_t_small by lia.
  unfold substr. rewrite size_body.
  destruct (Z.ltb_spec (2 + size (to_string j) + size p) (1 + size (to_string j) + 1)); [lia|].
  replace (Z.to_nat (1 + size (to_string j) + 1))
    with (S (String.length (to_string j) + 1)) by (unfold size; lia).
  unfold body. cbn [sdrop]. rewrite sdrop_app_plus. cbn [sdrop].
  rewrite stake_all; [reflexivity|]. unfold size, npos in *. lia.
Qed.

(** ** The driver monad *)

Lemma bind_Done {A B} (m : M A) (k : A -> M B) (d d1 : driver) (a : A) :
  m d = Done a d1 -> bind m k d = k a d1.
Proof. intros H. unfold bind. rewrite H. reflexivity. Qed.

Lemma bind_Throw {A B} (m : M A) (k : A -> M B) (d d1 : driver) (e : exn) :
  m d = Throw e d1 -> bind m k d = Throw e d1.
Proof. intros H. unfold bind. rewrite H. reflexivity. Qed.

Lemma lift_Value {A} (r : res A) (a : A) (d : driver) : r = Value a -> lift r d = Done a d.
Proof. intros ->. reflexivity. Qed.

Lemma state_get_in (id : Z) (d : driver) :
  0 <= id < 100 ->
  state_get id d = Done (default EmptyString (state d !! Z.to_nat id)) d.
Proof.
  intros H. unfold state_get, in_bounds.
  destruct (Z.leb_spec 0 id); [|lia]. destruct (Z.ltb_spec id 100); [|lia]. reflexivity.
Qed.

Lemma state_put_in (id : Z) (v : string) (d : driver) :
  0 <= id < 100 ->
  state_put id v d = Done tt (set_state (<[Z.to_nat id := v]> (state d)) d).
Proof.
  intros H. unfold state_put, in_bounds.
  destruct (Z.leb_spec 0 id); [|lia]. destruct (Z.ltb_spec id 100); [|lia]. reflexivity.
Qed.

(** ** Reading a frame *)

Lemma ReceiveTerminated_frame (t tag : ascii) (j : Z) (p : string)
    (rest : list read_result) (d : driver) :
  rd d = ReadOk (frame tag j p) :: rest ->
  size (frame tag j p) < 2 ^ 31 ->
  ReceiveTerminated t d = Done (frame tag j p) (set_rd rest d).
Proof.
  intros Hrd Hs. unfold ReceiveTerminated, bind, tty_read_section. rewrite Hrd.
  cbv beta iota. rewrite find_hash_frame. change (size_t_of (to_int 0)) with 0.
  apply lift_Value. apply substr_whole. lia.
Qed.

Lemma strip_both_frame (tag : ascii) (j : Z) (p : string) (d : driver) :
  size (frame tag j p) < 2 ^ 31 ->
  strip_both (frame tag j p) d = Done (body tag j p) d.
Proof.
  intros Hs. unfold strip_both, frame.
  rewrite (bind_Done _ _ d d (body tag j p +:+ ";")) by (apply lift_Value, erase_first).
  apply lift_Value. apply erase_last.
  rewrite size_frame in Hs. rewrite size_body.
  pose proof (size_nonneg (to_string j)). pose proof (size_nonneg p). lia.
Qed.

Lemma read_switchN_body (tag : ascii) (j : Z) (p : string) (d : driver) :
  size (frame tag j p) < 2 ^ 31 -> in_int j = true ->
  read_switchN (body tag j p) (1 + size (to_string j)) d = Done (to_short j) d.
Proof.
  intros Hs Hj. unfold read_switchN.
  rewrite size_frame in Hs.
  pose proof (size_nonneg (to_string j)). pose proof (size_nonneg p).
  rewrite (bind_Done _ _ d d (to_string j)).
  2:{ apply lift_Value, substr_index_body. rewrite size_body. lia. }
  rewrite (bind_Done _ _ d d j) by (apply lift_Value, stoi_to_string, Hj).
  reflexivity.
Qed.

Lemma colon_body (tag : ascii) (j : Z) (p : string) :
  size (frame tag j p) < 2 ^ 31 -> Ascii.eqb tag ":" = false ->
  to_int (find (body tag j p) ":") = 1 + size (to_string j).
Proof.
  intros Hs Ht. rewrite find_colon_body by exact Ht.
  rewrite size_frame in Hs.
  pose proof (size_nonneg (to_string j)). pose proof (size_nonneg p).
  apply to_int_small. lia.
Qed.

Lemma value_body (tag : ascii) (j : Z) (p : string) (d : driver) :
  size (frame tag j p) < 2 ^ 31 ->
  lift (substr (body tag j p) (size_t_of (1 + size (to_string j) + 1)) npos) d = Done p d.
Proof.
  intros Hs. apply lift_Value, substr_value_body.
  rewrite size_frame in Hs. rewrite size_body.
  pose proof (size_nonneg (to_string j)). pose proof (size_nonneg p). lia.
Qed.

(** The reply to a set-switch command whose frame carries tag 'G' and
    the requested index. *)
Lemma SetSwitchUSB_reply_frame (id : Z) (prev p : string) (rest : list read_result)
    (d : driver) :
  0 <= id < 100 ->
  rd d = ReadOk (frame "G" id p) :: rest ->
  size (frame "G" id p) < 2 ^ 31 ->
  SetSwitchUSB_reply id prev d =
    if Ascii.eqb (front (default EmptyString (state d !! Z.to_nat id))) (front p)
    then Done tt (set_rd rest d)
    else Done tt (set_log (log d ++ [(INFO, nack_msg)])
                   (set_state (<[Z.to_nat id := prev]> (state d)) (set_rd rest d))).
Proof.
  intros Hid Hrd Hs. unfold SetSwitchUSB_reply.
  rewrite (bind_Done _ _ _ _ _ (ReceiveTerminated_frame _ _ _ _ _ _ Hrd Hs)).
  rewrite (bind_Done _ _ _ _ _ (strip_both_frame _ _ _ _ Hs)).
  rewrite (colon_body _ _ _ Hs eq_refl).
  rewrite (bind_Done _ _ _ _ _ (read_switchN_body _ _ _ _ Hs ltac:(apply in_int_true; lia))).
  change (front (body "G" id p)) with "G"%char. cbv beta iota.
  change (Ascii.eqb "G" "E") with false. change (Ascii.eqb "G" "G") with true.
  rewrite to_short_small by lia. rewrite Z.eqb_refl. cbv beta iota. cbn [andb].
  rewrite (bind_Done _ _ _ _ _ (value_body _ _ _ _ Hs)).
  rewrite (bind_Done _ _ _ _ _ (state_get_in _ _ Hid)).
  cbn [state set_rd].
  destruct (Ascii.eqb _ _); [reflexivity|].
  rewrite (bind_Done _ _ _ _ _ (state_put_in _ _ _ Hid)).
  reflexivity.
Qed.

(** ** Transmitting *)

Lemma send_packet_sent (pre : list (log_level * string)) (packet : string) (d : driver) :
  send_packet packet (set_log (log d ++ pre) d) = Done (write_ok d) (sent pre packet d).
Proof.
  unfold send_packet, bind, tty_write_string, sent, write_ok, write_log.
  destruct d as [st ns rv lm n1 n2 n3 n4 n5 ip ss a1 a2 w r ws lg wd ps tm ic].
  cbn [wr written log set_log set_written set_wr].
  destruct ws as [|[|msg] ws]; cbn; rewrite ?app_nil_r, <- ?app_assoc; reflexivity.
Qed.

Lemma Transmit_int_sent (c : ascii) (i v : Z) (d : driver) :
  Transmit_int c i v d
  = Done (write_ok d) (sent (trace_int (packet3 c i (to_string v))) (packet3 c i (to_string v)) d).
Proof.
  unfold Transmit_int, LOG, modify, bind. cbv beta iota.
  cbn [log set_log]. rewrite <- app_assoc.
  rewrite <- (send_packet_sent (trace_int _) _ d).
  destruct d; reflexivity.
Qed.

Lemma Transmit_float_sent (c : ascii) (i : Z) (v : spec_float) (d : driver) :
  Transmit_float c i v d
  = Done (write_ok d)
         (sent (trace_int (packet3 c i (to_string_double v))) (packet3 c i (to_string_double v)) d).
Proof.
  unfold Transmit_float, LOG, modify, bind. cbv beta iota.
  cbn [log set_log]. rewrite <- app_assoc.
  rewrite <- (send_packet_sent (trace_int _) _ d).
  destruct d; reflexivity.
Qed.

Lemma Transmit_sent (c : ascii) (i : Z) (d : driver) :
  Transmit c i d = Done (write_ok d) (sent (trace (packet2 c i)) (packet2 c i) d).
Proof.
  unfold Transmit, LOG, modify, bind. cbv beta iota.
  rewrite <- (send_packet_sent (trace _) _ d). reflexivity.
Qed.

Lemma Transmit_string_sent (c : ascii) (i : Z) (v : string) (d : driver) :
  Transmit_string c i v d = Done (write_ok d) (sent (trace (packet3 c i v)) (packet3 c i v) d).
Proof.
  unfold Transmit_string, LOG, modify, bind. cbv beta iota.
  rewrite <- (send_packet_sent (trace _) _ d). reflexivity.
Qed.

(** ** The request of a set-switch command *)

Lemma SetSwitchUSB_request_run (id value : Z) (d : driver) :
  0 <= id < 100 ->
  SetSwitchUSB_request id value d
  = Done (default EmptyString (state d !! Z.to_nat id))
         (set_state (<[Z.to_nat id := to_string value]> (state d))
            (sent (trace_int (packet3 "S" id (to_string value)))
                  (packet3 "S" id (to_string value)) d)).
Proof.
  intros Hid. unfold SetSwitchUSB_request.
  rewrite (bind_Done _ _ _ _ _ (state_get_in _ _ Hid)).
  rewrite (bind_Done _ _ _ _ _ (Transmit_int_sent _ _ _ _)).
  rewrite (bind_Done _ _ _ _ _ (state_put_in _ _ _ Hid)).
  reflexivity.
Qed.

Lemma length_digits_of (fuel : nat) :
  forall n acc, (String.length (digits_of fuel n acc) <= fuel + String.length acc)%nat.
Proof.
  induction fuel as [|f IH]; intros n acc; [simpl; lia|].
  simpl digits_of. destruct (n <? 10); [simpl; lia|].
  etransitivity; [apply IH|]. simpl. lia.
Qed.

Lemma size_to_string (z : Z) : in_int z = true -> size (to_string z) <= 33.
Proof.
  intros Hz. apply in_int_true in Hz. unfold to_string, decimal, size.
  assert (Hl : forall n, 0 <= n <= 2 ^ 31 -> (S (Z.to_nat (Z.log2 n)) <= 32)%nat).
  { intros n Hn. destruct (Z.eq_dec n 0) as [->|Hne]; [simpl; lia|].
    assert (Z.log2 n < 32) by (apply Z.log2_lt_pow2; lia).
    pose proof (Z.log2_nonneg n). lia. }
  destruct (Z.ltb_spec z 0).
  - cbn [String.length].
    pose proof (length_digits_of (S (Z.to_nat (Z.log2 (- z)))) (- z) EmptyString) as Hd.
    pose proof (Hl (- z) ltac:(lia)). cbn [String.length] in Hd. lia.
  - pose proof (length_digits_of (S (Z.to_nat (Z.log2 z))) z EmptyString) as Hd.
    pose proof (Hl z ltac:(lia)). cbn [String.length] in Hd. lia.
Qed.

Lemma size_frame_ints (tag : ascii) (i v : Z) :
  in_int i = true -> in_int v = true -> size (frame tag i (to_string v)) <= 100.
Proof.
  intros Hi Hv. rewrite size_frame.
  pose proof (size_to_string i Hi). pose proof (size_to_string v Hv). lia.
Qed.

(** * Properties of the specification *)

(** C1: a boolean set whose acknowledgment carries the previous value:
    when the cache of index [id] holds [v0], [SetSwitchUSB id v1] is
    answered by the frame "#G<id>:<v0>;" (a frame that fits the 100
    bytes of the receive buffer) and the first character of [v0] differs
    from that of the decimal text of [v1], the call returns with the
    cache as it was before the call (entry [id] is [v0] again), the last
    thing logged is the message that the power box did not acknowledge
    the new state, and exactly one packet, the S command, has been
    written: the command is not sent again. *)
Theorem SetSwitchUSB_mismatch_rolls_back
    (d : driver) (id v1 : Z) (v0 : string) (rest : list read_result) :
  0 <= id < 100 ->
  state d !! Z.to_nat id = Some v0 ->
  rd d = ReadOk (frame "G" id v0) :: rest ->
  size (frame "G" id v0) <= 100 ->
  front v0 <> front (to_string v1) ->
  exists d',
    SetSwitchUSB id v1 d = Done tt d'
    /\ state d' = state d
    /\ state d' !! Z.to_nat id = Some v0
    /\ log d' = log (sent (trace_int (packet3 "S" id (to_string v1)))
                          (packet3 "S" id (to_string v1)) d)
                ++ [(INFO, nack_msg)]
    /\ written d' = written d ++ [packet3 "S" id (to_string v1)]
    /\ rd d' = rest.
Proof.
  intros Hid Hv0 Hrd Hs Hne.
  assert (Hlen : (Z.to_nat id < length (state d))%nat) by (eapply lookup_lt_Some; eauto).
  unfold SetSwitchUSB.
  rewrite (bind_Done _ _ _ _ _ (SetSwitchUSB_request_run id v1 d Hid)).
  rewrite (SetSwitchUSB_reply_frame id _ v0 rest) by (assumption || reflexivity || lia).
  cbn [state set_state sent set_log set_wr set_written].
  rewrite list_lookup_insert_eq by exact Hlen.
  change (default EmptyString (Some (to_string v1))) with (to_string v1).
  destruct (Ascii.eqb_spec (front (to_string v1)) (front v0)) as [E|_]; [congruence|].
  eexists. split; [reflexivity|].
  rewrite Hv0. change (default EmptyString (Some v0)) with v0.
  cbn [state set_state set_log set_rd log written rd].
  rewrite list_insert_insert_eq, list_insert_id by exact Hv0.
  repeat split; try reflexivity; exact Hv0.
Qed.

Lemma SetSwitchUSB_mismatch_witness :
  exists d',
    SetSwitchUSB 3 1 (set_rd [ReadOk (frame "G" 3 "0")] (set_state (<[3%nat := "0"%string]> (state fresh)) fresh))
    = Done tt d'
    /\ state d' !! 3%nat = Some "0"%string.
Proof.
  destruct (SetSwitchUSB_mismatch_rolls_back
              (set_rd [ReadOk (frame "G" 3 "0")]
                      (set_state (<[3%nat := "0"%string]> (state fresh)) fresh))
              3 1 "0" []) as (d' & H & _ & H3 & _).
  - lia.
  - reflexivity.
  - reflexivity.
  - vm_compute. discriminate.
  - vm_compute. discriminate.
  - exists d'. split; [exact H | exact H3].
Defined.

(** ** Doubles that hold an integer *)

Lemma holds_int_to_int (x : spec_float) (n : Z) :
  holds_int x n -> in_int n = true -> double_to_int x = Some n.
Proof.
  destruct x as [s| | |s m e]; cbn [holds_int double_to_int]; try contradiction.
  - intros [_ ->] _. reflexivity.
  - intros (a & -> & Ha) Hn.
    assert (Hval : (if 0 <=? e then Z.pos m * 2 ^ e else Z.pos m / 2 ^ (- e)) = a).
    { destruct (Z.leb_spec 0 e); [symmetry; exact Ha|].
      rewrite Ha. apply Z.div_mul.
      apply Z.pow_nonzero; lia. }
    rewrite Hval. cbv zeta. rewrite Hn. reflexivity.
Qed.

Lemma holds_int_to_string (x : spec_float) (n : Z) :
  holds_int x n -> to_string_double x = to_string n +:+ ".000000".
Proof.
  destruct x as [s| | |s m e]; cbn [holds_int to_string_double]; try contradiction.
  - intros [-> ->]. reflexivity.
  - intros (a & -> & Ha).
    assert (Hpos : 0 < a).
    { destruct (Z.leb_spec 0 e).
      - subst a. apply Z.mul_pos_pos; [lia | apply Z.pow_pos_nonneg; lia].
      - assert (0 < 2 ^ (- e)) by (apply Z.pow_pos_nonneg; lia). nia. }
    cbv zeta.
    match goal with
    | |- context [if 0 <=? e then ?A else ?B] =>
        assert (Hsc : (if 0 <=? e then A else B) = a * 10 ^ 6)
    end.
    { destruct (Z.leb_spec 0 e); [subst a; ring|].
      assert (Hd : 0 < 2 ^ (- e)) by (apply Z.pow_pos_nonneg; lia).
      rewrite Ha.
      replace (a * 2 ^ (- e) * 10 ^ 6) with (a * 10 ^ 6 * 2 ^ (- e)) by ring.
      rewrite Z.mod_mul, Z.div_mul by lia.
      destruct (Z.ltb_spec (2 * 0) (2 ^ (- e))); [reflexivity | lia]. }
    rewrite Hsc.
    rewrite Z.div_mul, Z.mod_mul by lia.
    change (pad_zeros 6 (decimal 0)) with "000000"%string.
    unfold to_string. destruct s.
    + destruct (Z.ltb_spec (- a) 0); [|lia].
      rewrite Z.opp_involutive. reflexivity.
    + destruct (Z.ltb_spec a 0); [lia|].
      rewrite sapp_nil_l. reflexivity.
Qed.

Lemma stoi_double_text (n : Z) :
  in_int n = true -> stoi (to_string n +:+ ".000000") = Value n.
Proof. intros Hn. apply stoi_to_string_app; [exact Hn | reflexivity]. Qed.

(** ** The set-switch command with a duty cycle *)

Lemma SetSwitchValueUSB_request_run (id n : Z) (x : spec_float) (d : driver) :
  0 <= id < 100 ->
  double_to_int x = Some n ->
  SetSwitchValueUSB_request id x d
  = Done (default EmptyString (state d !! Z.to_nat id))
         (set_state (<[Z.to_nat id := to_string_double x]> (state d))
            (sent (trace_int (packet3 "S" id (to_string n)))
                  (packet3 "S" id (to_string n)) d)).
Proof.
  intros Hid Hx. unfold SetSwitchValueUSB_request.
  rewrite (bind_Done _ _ _ _ _ (state_get_in _ _ Hid)).
  rewrite Hx.
  rewrite (bind_Done _ _ d d n) by reflexivity.
  rewrite (bind_Done _ _ _ _ _ (Transmit_int_sent _ _ _ _)).
  rewrite (bind_Done _ _ _ _ _ (state_put_in _ _ _ Hid)).
  reflexivity.
Qed.

Lemma SetSwitchValueUSB_reply_frame (id a b : Z) (prev p : string)
    (rest : list read_result) (d : driver) :
  0 <= id < 100 ->
  rd d = ReadOk (frame "G" id p) :: rest ->
  size (frame "G" id p) < 2 ^ 31 ->
  stoi (default EmptyString (state d !! Z.to_nat id)) = Value a ->
  stoi p = Value b ->
  SetSwitchValueUSB_reply id prev d =
    if a =? b
    then Done tt (set_rd rest d)
    else Done tt (set_log (log d ++ [(INFO, nack_msg)])
                   (set_state (<[Z.to_nat id := prev]> (state d)) (set_rd rest d))).
Proof.
  intros Hid Hrd Hs Ha Hb. unfold SetSwitchValueUSB_reply.
  rewrite (bind_Done _ _ _ _ _ (ReceiveTerminated_frame _ _ _ _ _ _ Hrd Hs)).
  rewrite (bind_Done _ _ _ _ _ (strip_both_frame _ _ _ _ Hs)).
  rewrite (colon_body _ _ _ Hs eq_refl).
  rewrite (bind_Done _ _ _ _ _ (read_switchN_body _ _ _ _ Hs ltac:(apply in_int_true; lia))).
  change (front (body "G" id p)) with "G"%char. cbv beta iota.
  change (Ascii.eqb "G" "E") with false. change (Ascii.eqb "G" "G") with true.
  rewrite to_short_small by lia. rewrite Z.eqb_refl. cbv beta iota. cbn [andb].
  rewrite (bind_Done _ _ _ _ _ (value_body _ _ _ _ Hs)).
  rewrite (bind_Done _ _ _ _ _ (state_get_in _ _ Hid)).
  cbn [state set_rd].
  rewrite (bind_Done _ _ _ _ _ (lift_Value _ _ _ Ha)).
  rewrite (bind_Done _ _ _ _ _ (lift_Value _ _ _ Hb)).
  destruct (a =? b); [reflexivity|].
  rewrite (bind_Done _ _ _ _ _ (state_put_in _ _ _ Hid)).
  reflexivity.
Qed.

(** C8: a set that the device acknowledges with the requested value.
    [SetSwitchUSB id v] answered by "#G<id>:<v>;" returns with the
    decimal text of [v] in the cache at [id]: a read of the cache
    ([state_get]) yields that text, which [std::stoi] reads back as [v].
    The same holds for the duty-cycle variant: [SetSwitchValueUSB id x],
    for a double [x] holding the integer [n], answered by "#G<id>:<n>;"
    leaves the cache at [id] at the text of [x], which reads back as [n]. *)
Theorem SetSwitch_acknowledged_keeps_value
    (d : driver) (id v n : Z) (x : spec_float) (rest : list read_result) :
  0 <= id < 100 ->
  length (state d) = 100%nat ->
  in_int v = true ->
  in_int n = true ->
  holds_int x n ->
  (rd d = ReadOk (frame "G" id (to_string v)) :: rest ->
   exists d',
     SetSwitchUSB id v d = Done tt d'
     /\ state d' = <[Z.to_nat id := to_string v]> (state d)
     /\ state_get id d' = Done (to_string v) d'
     /\ stoi (to_string v) = Value v)
  /\
  (rd d = ReadOk (frame "G" id (to_string n)) :: rest ->
   exists d',
     SetSwitchValueUSB id x d = Done tt d'
     /\ state d' = <[Z.to_nat id := to_string_double x]> (state d)
     /\ state_get id d' = Done (to_string_double x) d'
     /\ stoi (to_string_double x) = Value n).
Proof.
  intros Hid Hlen Hv Hn Hx.
  assert (Hi : in_int id = true) by (apply in_int_true; lia).
  assert (Hlt : (Z.to_nat id < length (state d))%nat) by lia.
  split; intros Hrd.
  - pose proof (size_frame_ints "G" id v Hi Hv) as Hs.
    unfold SetSwitchUSB.
    rewrite (bind_Done _ _ _ _ _ (SetSwitchUSB_request_run id v d Hid)).
    rewrite (SetSwitchUSB_reply_frame id _ (to_string v) rest) by (assumption || reflexivity || lia).
    cbn [state set_state].
    rewrite list_lookup_insert_eq by exact Hlt.
    change (default EmptyString (Some (to_string v))) with (to_string v).
    rewrite Ascii.eqb_refl.
    eexists. split; [reflexivity|].
    split; [reflexivity|]. split; [|apply stoi_to_string; exact Hv].
    rewrite state_get_in by exact Hid. cbn [state set_rd set_state].
    rewrite list_lookup_insert_eq by exact Hlt. reflexivity.
  - pose proof (size_frame_ints "G" id n Hi Hn) as Hs.
    pose proof (holds_int_to_string x n Hx) as Htxt.
    pose proof (stoi_double_text n Hn) as Hread. rewrite <- Htxt in Hread.
    unfold SetSwitchValueUSB.
    rewrite (bind_Done _ _ _ _ _
               (SetSwitchValueUSB_request_run id n x d Hid (holds_int_to_int x n Hx Hn))).
    rewrite (SetSwitchValueUSB_reply_frame id n n _ (to_string n) rest);
      try assumption; try reflexivity; try lia.
    + rewrite Z.eqb_refl.
      eexists. split; [reflexivity|].
      split; [reflexivity|]. split; [|exact Hread].
      rewrite state_get_in by exact Hid. cbn [state set_rd set_state].
      rewrite list_lookup_insert_eq by exact Hlt. reflexivity.
    + cbn [state set_state]. rewrite list_lookup_insert_eq by exact Hlt. exact Hread.
    + apply stoi_to_string. exact Hn.
Qed.

Lemma SetSwitch_acknowledged_witness :
  (exists d', SetSwitchUSB 3 1 (set_rd [ReadOk (frame "G" 3 (to_string 1))] fresh) = Done tt d'
              /\ state_get 3 d' = Done "1"%string d')
  /\ (exists d', SetSwitchValueUSB 3 (double_of_int 50)
                   (set_rd [ReadOk (frame "G" 3 (to_string 50))] fresh) = Done tt d'
                 /\ state_get 3 d' = Done "50.000000"%string d').
Proof.
  assert (H50 : holds_int (double_of_int 50) 50).
  { exists 50. split; [reflexivity|]. vm_compute. reflexivity. }
  split.
  - destruct (SetSwitch_acknowledged_keeps_value
                (set_rd [ReadOk (frame "G" 3 (to_string 1))] fresh) 3 1 50
                (double_of_int 50) [] ltac:(lia) eq_refl eq_refl eq_refl H50) as [H _].
    destruct (H eq_refl) as (d' & E & _ & G & _). exists d'. split; [exact E | exact G].
  - destruct (SetSwitch_acknowledged_keeps_value
                (set_rd [ReadOk (frame "G" 3 (to_string 50))] fresh) 3 1 50
                (double_of_int 50) [] ltac:(lia) eq_refl eq_refl eq_refl H50) as [_ H].
    destruct (H eq_refl) as (d' & E & _ & G & _). exists d'. split; [exact E | exact G].
Defined.

(** C10: with the master toggle of the DC outputs off, [SetPowerPort]
    returns [true] and leaves the whole driver as it was: nothing is
    written to the line, no cache entry changes.  With the master toggle
    of the dew heaters off the same holds for [SetDewPort]. *)
Theorem master_toggle_off_is_silent
    (d : driver) (port : Z) (enabled : bool) (dutyCycle : spec_float) :
  (Alldc d = false -> SetPowerPort port enabled d = Done true d)
  /\ (Allpwm d = false -> SetDewPort port enabled dutyCycle d = Done true d).
Proof.
  split; intros H.
  - unfold SetPowerPort, bind, gets. rewrite H. reflexivity.
  - unfold SetDewPort, bind, gets. rewrite H. reflexivity.
Qed.

Lemma master_toggle_off_witness :
  exists d,
    ISNewSwitch (AllDCSP false) fresh = Done true d
    /\ SetPowerPort 2 true d = Done true d
    /\ SetDewPort 1 true (double_of_int 40) (set_Allpwm false d) = Done true (set_Allpwm false d).
Proof.
  exists (set_Alldc false fresh). split; [reflexivity|]. split.
  - apply (master_toggle_off_is_silent (set_Alldc false fresh) 2 true (double_of_int 40)).
    reflexivity.
  - apply (master_toggle_off_is_silent (set_Allpwm false (set_Alldc false fresh)) 1 true
             (double_of_int 40)).
    reflexivity.
Defined.

(** C5, as the code has it: of the set commands only the set-switch
    command (tag S, both variants) writes the requested value into its
    cache entry between the transmission and the reading of the reply.
    The set commands N, R and L leave [name_switch], [Reverse] and
    [Limit] as they are until the reply is read.  No reply has been
    consumed at that point. *)
Theorem only_set_switch_writes_ahead
    (d : driver) (id value n : Z) (x : spec_float) (name : string) :
  0 <= id < 100 ->
  double_to_int x = Some n ->
  (exists d1, SetSwitchUSB_request id value d = Done (default EmptyString (state d !! Z.to_nat id)) d1
              /\ state d1 = <[Z.to_nat id := to_string value]> (state d)
              /\ rd d1 = rd d)
  /\ (exists d1, SetSwitchValueUSB_request id x d
                 = Done (default EmptyString (state d !! Z.to_nat id)) d1
              /\ state d1 = <[Z.to_nat id := to_string_double x]> (state d)
              /\ rd d1 = rd d)
  /\ (exists d1, SetNameUSB_request id name d = Done tt d1
              /\ name_switch d1 = name_switch d /\ rd d1 = rd d)
  /\ (exists d1, SetReverseUSB_request id value d = Done tt d1
              /\ Reverse d1 = Reverse d /\ rd d1 = rd d)
  /\ (exists d1, SetLimitsUSB_request id x d = Done tt d1
              /\ Limit d1 = Limit d /\ rd d1 = rd d).
Proof.
  intros Hid Hx. repeat split.
  - eexists. rewrite SetSwitchUSB_request_run by exact Hid. repeat split.
  - eexists. rewrite (SetSwitchValueUSB_request_run id n) by assumption. repeat split.
  - eexists. unfold SetNameUSB_request.
    rewrite (bind_Done _ _ _ _ _ (Transmit_string_sent _ _ _ _)). repeat split.
  - eexists. unfold SetReverseUSB_request.
    rewrite (bind_Done _ _ _ _ _ (Transmit_int_sent _ _ _ _)). repeat split.
  - eexists. unfold SetLimitsUSB_request.
    rewrite (bind_Done _ _ _ _ _ (Transmit_float_sent _ _ _ _)). repeat split.
Qed.

Lemma only_set_switch_writes_ahead_witness :
  exists d1, SetSwitchUSB_request 3 1 fresh = Done EmptyString d1
             /\ state d1 !! 3%nat = Some "1"%string.
Proof.
  destruct (only_set_switch_writes_ahead fresh 3 1 50 (double_of_int 50) "cam"
              ltac:(lia) eq_refl) as [(d1 & E & S & _) _].
  exists d1. split; [exact E|]. rewrite S. reflexivity.
Defined.

(** C5 as stated fails for the set-name command: after the request of
    [SetNameUSB 0 "cam"] the name cache still holds the old (empty) name. *)
Lemma set_name_does_not_write_ahead :
  exists d1, SetNameUSB_request 0 "cam" fresh = Done tt d1
             /\ name_switch d1 !! 0%nat = Some EmptyString
             /\ name_switch d1 !! 0%nat <> Some "cam"%string.
Proof.
  eexists. split; [reflexivity|]. split; [reflexivity|]. discriminate.
Qed.

(** ** Relational specifications of driver actions *)

Section SpecRules.

Variable u : Prop.
Variable R : driver -> driver -> Prop.
Hypothesis R_refl : forall d, R d d.
Hypothesis R_trans : forall d1 d2 d3, R d1 d2 -> R d2 d3 -> R d1 d3.

Lemma spec_ret {A} (a : A) : spec u R (ret a).
Proof. intros d. apply R_refl. Qed.

Lemma spec_lift {A} (r : res A) : spec u R (lift r).
Proof. intros d. destruct r; apply R_refl. Qed.

Lemma spec_get : spec u R get.
Proof. intros d. apply R_refl. Qed.

Lemma spec_gets {A} (f : driver -> A) : spec u R (gets f).
Proof. intros d. apply R_refl. Qed.

Lemma spec_bind {A B} (m : M A) (k : A -> M B) :
  spec u R m -> (forall a, spec u R (k a)) -> spec u R (bind m k).
Proof.
  intros Hm Hk d. unfold bind. specialize (Hm d).
  destruct (m d) as [a d1|e d1|]; [|exact Hm|exact Hm].
  specialize (Hk a d1). destruct (k a d1); eauto.
Qed.

Lemma spec_if {A} (c : bool) (m1 m2 : M A) :
  spec u R m1 -> spec u R m2 -> spec u R (if c then m1 else m2).
Proof. destruct c; auto. Qed.

Lemma spec_modify (f : driver -> driver) : (forall d, R d (f d)) -> spec u R (modify f).
Proof. intros H d. apply H. Qed.

Lemma spec_for_from (n : nat) (body : Z -> M unit) :
  (forall i, spec u R (body i)) -> forall k, spec u R (for_from n k body).
Proof.
  intros Hb. induction n as [|n IH]; intros k; [apply spec_ret|].
  cbn [for_from]. apply spec_bind; [apply Hb | intros _; apply IH].
Qed.

Lemma spec_for_range (lo hi : Z) (body : Z -> M unit) :
  (forall i, spec u R (body i)) -> spec u R (for_range lo hi body).
Proof. intros Hb. apply spec_for_from. exact Hb. Qed.

End SpecRules.

Lemma spec_weaken (u : Prop) (R : driver -> driver -> Prop) {A} (m : M A) :
  spec False R m -> spec u R m.
Proof.
  intros H d. specialize (H d). destruct (m d); [exact H | exact H | contradiction].
Qed.

(** Leaves of the driver actions: unfold and compute. *)
Ltac spec_leaf :=
  let d := fresh "d" in
  intros d;
  unfold state_get, state_put, name_switch_put, Reverse_get, Reverse_put, Limit_put,
    LOG, widget_set, setState, SetTimer, modify, tty_read_section, tty_write_string,
    undefined, in_bounds in *;
  repeat match goal with
         | H : _ <= ?i < _ |- context [0 <=? ?i] =>
             let E := fresh in
             destruct (Z.leb_spec 0 i) as [E|E]; [|exfalso; lia]
         | H : _ <= ?i < ?n |- context [?i <? ?n] =>
             let E := fresh in
             destruct (Z.ltb_spec i n) as [E|E]; [|exfalso; lia]
         | |- _ => progress cbn [andb orb negb]
         | |- context [match ?x with _ => _ end] =>
             lazymatch x with
             | context [match _ with _ => _ end] => fail
             | _ => destruct x
             end
         end;
  cbn; try (repeat split; reflexivity); try exact I.

Ltac spec_go refl trans :=
  repeat first
    [ apply (spec_ret _ _ refl)
    | apply (spec_lift _ _ refl)
    | apply (spec_get _ _ refl)
    | apply (spec_gets _ _ refl)
    | apply (spec_bind _ _ trans); [|intros ?]
    | apply (spec_for_range _ _ refl trans); intros ?
    | match goal with
      | |- spec _ _ (if ?c then _ else _) => destruct c
      | |- spec _ _ (match ?x with _ => _ end) => destruct x
      | |- spec _ _ (let '(_, _) := ?x in _) => destruct x
      end ].

(** ** Frame properties: the packets written *)

Lemma same_written_refl (d : driver) : same_written d d.
Proof. reflexivity. Qed.

Lemma same_written_trans (d1 d2 d3 : driver) :
  same_written d1 d2 -> same_written d2 d3 -> same_written d1 d3.
Proof. unfold same_written. congruence. Qed.

Lemma same_cache_refl (d : driver) : same_cache d d.
Proof. repeat split. Qed.

Lemma same_cache_trans (d1 d2 d3 : driver) :
  same_cache d1 d2 -> same_cache d2 d3 -> same_cache d1 d3.
Proof. unfold same_cache. intuition congruence. Qed.

Lemma ReceiveTerminated_written (u : Prop) (t : ascii) :
  spec u same_written (ReceiveTerminated t).
Proof.
  unfold ReceiveTerminated.
  spec_go same_written_refl same_written_trans; spec_leaf.
Qed.

Lemma strip_both_written (u : Prop) (buf : string) : spec u same_written (strip_both buf).
Proof. unfold strip_both. spec_go same_written_refl same_written_trans. Qed.

Lemma read_switchN_written (u : Prop) (buf : string) (i : Z) :
  spec u same_written (read_switchN buf i).
Proof. unfold read_switchN. spec_go same_written_refl same_written_trans. Qed.

Lemma SetSwitchUSB_reply_written (id : Z) (prev : string) :
  0 <= id < 100 -> spec False same_written (SetSwitchUSB_reply id prev).
Proof.
  intros Hid. unfold SetSwitchUSB_reply.
  spec_go same_written_refl same_written_trans;
    try apply ReceiveTerminated_written; try apply strip_both_written;
    try apply read_switchN_written; spec_leaf.
Qed.

Lemma state_bool_written (k : Z) : 0 <= k < 100 -> spec False same_written (state_bool k).
Proof.
  intros Hk. unfold state_bool.
  spec_go same_written_refl same_written_trans; spec_leaf.
Qed.

Lemma spec_final (R : driver -> driver -> Prop) {A} (m : M A) (d : driver) :
  spec False R m -> exists d', final (m d) = Some d' /\ R d d'.
Proof.
  intros H. specialize (H d).
  destruct (m d) as [a d'|e d'|]; [| |contradiction]; exists d'; split; auto.
Qed.

Lemma spec_seq (u : Prop) (R1 R2 : driver -> driver -> Prop) {A B}
    (m : M A) (k : A -> M B) :
  (forall d, R2 d d) ->
  spec u R1 m -> (forall a, spec u R2 (k a)) ->
  spec u (fun d d' => exists d1, R1 d d1 /\ R2 d1 d') (bind m k).
Proof.
  intros Hrefl Hm Hk d. unfold bind. specialize (Hm d).
  destruct (m d) as [a d1|e d1|]; [|eauto|exact Hm].
  specialize (Hk a d1). destruct (k a d1); eauto.
Qed.

(** A set-switch command for an index inside the cache puts exactly one
    packet on the line, whatever the reply. *)
Lemma SetSwitchUSB_packet (id v : Z) :
  0 <= id < 100 ->
  spec False (fun d d' => written d' = written d ++ [packet3 "S" id (to_string v)])
       (SetSwitchUSB id v).
Proof.
  intros Hid d. unfold SetSwitchUSB.
  rewrite (bind_Done _ _ _ _ _ (SetSwitchUSB_request_run id v d Hid)).
  match goal with
  | |- context [SetSwitchUSB_reply id ?p ?d1] =>
      pose proof (SetSwitchUSB_reply_written id p Hid d1) as H;
      destruct (SetSwitchUSB_reply id p d1)
  end; unfold same_written in H; cbn in H; try contradiction; exact H.
Qed.

Lemma switch_handler_packet (prop : string) (id k v : Z) (enabled : bool) (d : driver) :
  0 <= id < 100 -> 0 <= k < 100 ->
  exists d',
    final ((SetSwitchUSB id v >>
            (let* b := state_bool k in
             setState prop (ok_or_alert (Bool.eqb b enabled)) >> ret true)) d) = Some d'
    /\ written d' = written d ++ [packet3 "S" id (to_string v)].
Proof.
  intros Hid Hk.
  assert (Hk' : forall a : unit,
             spec False same_written
               (let* b := state_bool k in
                setState prop (ok_or_alert (Bool.eqb b enabled)) >> ret true)).
  { intros _. spec_go same_written_refl same_written_trans;
      try apply (state_bool_written k Hk); spec_leaf. }
  pose proof (spec_seq False _ same_written _ _ same_written_refl
                (SetSwitchUSB_packet id v Hid) Hk') as Hs.
  destruct (spec_final _ _ d Hs) as (d' & Hf & d1 & H1 & H2).
  exists d'. split; [exact Hf|]. unfold same_written in H2. congruence.
Qed.

(** C2, as the code has it: the physical switches are laid out DC, PWM,
    bank, relay, USB.  The bank switch is addressed at index
    numDC+numPWM, the relay at numDC+numPWM+numOn (numOn is the bank
    count) and USB port [port] at numDC+numPWM+numRelay+numOn+port: in
    each case the handler writes one S command with that index, whatever
    the device answers. *)
Theorem switch_index_layout (d : driver) (enabled : bool) (port : Z) :
  (0 <= numDC d + numPWM d < 100 ->
   exists d', final (ISNewSwitch (OnSP enabled) d) = Some d'
              /\ written d' = written d
                   ++ [packet3 "S" (numDC d + numPWM d) (to_string (Z.b2z enabled))])
  /\ (0 <= numDC d + numPWM d + numOn d < 100 ->
      exists d', final (ISNewSwitch (RelaySP enabled) d) = Some d'
                 /\ written d' = written d
                      ++ [packet3 "S" (numDC d + numPWM d + numOn d)
                                  (to_string (Z.b2z enabled))])
  /\ (0 <= numDC d + numPWM d + numRelay d + numOn d + port < 100 ->
      exists d', final (SetUSBPort port enabled d) = Some d'
                 /\ written d' = written d
                      ++ [packet3 "S" (numDC d + numPWM d + numRelay d + numOn d + port)
                                  (to_string (Z.b2z enabled))]).
Proof.
  split; [|split]; intros H.
  - cbn [ISNewSwitch]. rewrite (bind_Done _ _ d d d) by reflexivity.
    rewrite to_short_small by lia.
    apply switch_handler_packet; exact H.
  - cbn [ISNewSwitch]. rewrite (bind_Done _ _ d d d) by reflexivity.
    rewrite to_short_small by lia.
    apply switch_handler_packet; exact H.
  - unfold SetUSBPort. rewrite (bind_Done _ _ d d d) by reflexivity.
    rewrite size_t_small, to_short_small by lia.
    pose proof (spec_seq False _ same_written _ (fun _ : unit => ret true) same_written_refl
                  (SetSwitchUSB_packet _ (Z.b2z enabled) H)
                  (fun _ => spec_ret False same_written same_written_refl true)) as Hs.
    destruct (spec_final _ _ d Hs) as (d' & Hf & d1 & H1 & H2).
    exists d'. split; [exact Hf|]. unfold same_written in H2. congruence.
Qed.

Lemma switch_index_layout_witness :
  (exists d', final (ISNewSwitch (OnSP true) stock) = Some d'
              /\ written d' = [packet3 "S" 10 "1"])
  /\ (exists d', final (ISNewSwitch (RelaySP true) stock) = Some d'
                 /\ written d' = [packet3 "S" 11 "1"])
  /\ (exists d', final (SetUSBPort 2 true stock) = Some d'
                 /\ written d' = [packet3 "S" 14 "1"]).
Proof.
  destruct (switch_index_layout stock true 2) as (H1 & H2 & H3).
  split; [|split].
  - apply H1. vm_compute. split; discriminate || reflexivity.
  - apply H2. vm_compute. split; discriminate || reflexivity.
  - apply H3. vm_compute. split; discriminate || reflexivity.
Defined.

(** C2 as stated fails on the stock topology (7 DC, 3 PWM, 1 relay,
    1 bank, 7 USB): the relay switch is commanded at index 11, not at
    numDC+numPWM = 10, which is the index of the bank. *)
Lemma relay_is_not_at_numDC_plus_numPWM :
  exists d',
    ISNewSwitch (RelaySP true) (set_rd [ReadOk (frame "G" 11 "1")] stock) = Done true d'
    /\ written d' = [packet3 "S" 11 "1"]
    /\ written d' <> [packet3 "S" (numDC stock + numPWM stock) "1"].
Proof.
  eexists. split; [vm_compute; reflexivity|]. split; [reflexivity|].
  vm_compute. discriminate.
Qed.

(** ** Replies that carry another index *)

Lemma frame_open (tag : ascii) (j : Z) (p : string) :
  body tag j p +:+ ";" = body tag j (p +:+ ";").
Proof. unfold body. rewrite sapp_cons, sapp_assoc, sapp_cons. reflexivity. Qed.

Lemma size_frame_open (tag : ascii) (j : Z) (p : string) :
  size (frame tag j (p +:+ ";")) = size (frame tag j p) + 1.
Proof. rewrite !size_frame, size_app. change (size ";") with 1. lia. Qed.

Lemma erase_first_frame (tag : ascii) (j : Z) (p : string) (d : driver) :
  lift (erase (frame tag j p) 0 1) d = Done (body tag j (p +:+ ";")) d.
Proof. unfold frame. rewrite erase_first, frame_open. reflexivity. Qed.

Section Dropped.

Variables (id j : Z) (tag : ascii) (p : string) (rest : list read_result).
Hypothesis Hj : in_int j = true.
Hypothesis Hne : to_short j <> id.
Hypothesis HtagE : Ascii.eqb tag "E" = false.
Hypothesis Htagc : Ascii.eqb tag ":" = false.
Hypothesis Hsize : size (frame tag j p) <= 100.

Lemma other_index (c : ascii) : Ascii.eqb tag c && (to_short j =? id) = false.
Proof. destruct (Z.eqb_spec (to_short j) id); [contradiction | apply andb_false_r]. Qed.

Lemma small_frame : size (frame tag j p) < 2 ^ 31.
Proof. lia. Qed.

Lemma small_open_frame : size (frame tag j (p +:+ ";")) < 2 ^ 31.
Proof. rewrite size_frame_open. lia. Qed.

Ltac drop_closed Hrd :=
  erewrite bind_Done by (apply ReceiveTerminated_frame; [exact Hrd | exact small_frame]);
  rewrite (bind_Done _ _ _ _ _ (strip_both_frame _ _ _ _ small_frame));
  rewrite (colon_body _ _ _ small_frame Htagc);
  rewrite (bind_Done _ _ _ _ _ (read_switchN_body _ _ _ _ small_frame Hj));
  change (front (body tag j p)) with tag; rewrite HtagE, other_index; reflexivity.

Ltac drop_open :=
  rewrite (bind_Done _ _ _ _ _ (erase_first_frame _ _ _ _));
  rewrite (colon_body _ _ _ small_open_frame Htagc);
  rewrite (bind_Done _ _ _ _ _ (read_switchN_body _ _ _ _ small_open_frame Hj));
  change (front (body tag j (p +:+ ";"))) with tag; rewrite HtagE, other_index; reflexivity.

Lemma SetSwitchUSB_reply_drops (prev : string) (d : driver) :
  rd d = ReadOk (frame tag j p) :: rest ->
  SetSwitchUSB_reply id prev d = Done tt (set_rd rest d).
Proof. intros Hrd. unfold SetSwitchUSB_reply. drop_closed Hrd. Qed.

Lemma SetSwitchValueUSB_reply_drops (prev : string) (d : driver) :
  rd d = ReadOk (frame tag j p) :: rest ->
  SetSwitchValueUSB_reply id prev d = Done tt (set_rd rest d).
Proof. intros Hrd. unfold SetSwitchValueUSB_reply. drop_closed Hrd. Qed.

Lemma GetSwitchUSB_drops (d : driver) :
  rd d = ReadOk (frame tag j p) :: rest ->
  GetSwitchUSB id d
  = Done tt (set_rd rest (sent (trace (packet2 "G" id)) (packet2 "G" id) d)).
Proof.
  intros Hrd. unfold GetSwitchUSB.
  rewrite (bind_Done _ _ _ _ _ (Transmit_sent _ _ _)).
  drop_closed Hrd.
Qed.

Lemma GetNameUSB_drops (d : driver) :
  rd d = ReadOk (frame tag j p) :: rest ->
  GetNameUSB id d
  = Done tt (set_rd rest (sent (trace (packet2 "n" id)) (packet2 "n" id) d)).
Proof.
  intros Hrd. unfold GetNameUSB.
  rewrite (bind_Done _ _ _ _ _ (Transmit_sent _ _ _)).
  drop_closed Hrd.
Qed.

Lemma SetNameUSB_reply_drops (d : driver) :
  rd d = ReadOk (frame tag j p) :: rest ->
  SetNameUSB_reply id d
  = Done tt (set_log (log d ++ [(INFO, frame tag j p)]) (set_rd rest d)).
Proof.
  intros Hrd. unfold SetNameUSB_reply.
  erewrite bind_Done by (apply ReceiveTerminated_frame; [exact Hrd | exact small_frame]).
  unfold LOG at 1.
  rewrite (bind_Done _ _ _ (set_log (log d ++ [(INFO, frame tag j p)]) (set_rd rest d)) tt)
    by reflexivity.
  drop_open.
Qed.

Lemma reverse_reply_drops (d : driver) :
  rd d = ReadOk (frame tag j p) :: rest ->
  reverse_reply id d = Done tt (set_rd rest d).
Proof.
  intros Hrd. unfold reverse_reply.
  erewrite bind_Done by (apply ReceiveTerminated_frame; [exact Hrd | exact small_frame]).
  drop_open.
Qed.

Lemma limits_reply_drops (stof : string -> res spec_float) (d : driver) :
  rd d = ReadOk (frame tag j p) :: rest ->
  limits_reply stof id d = Done tt (set_rd rest d).
Proof. intros Hrd. unfold limits_reply. drop_closed Hrd. Qed.

End Dropped.

(** C6 at a reply that carries another index: a well-formed frame (a
    tag other than 'E' and ':', at most the 100 bytes of the receive
    buffer) whose index, once decoded, differs from the index of the
    command.  Every exchange returns without an error and consumes the
    reply.  The four gets and the set commands N, R and L leave every
    cache as it was.  The two set-switch commands do not: the value they
    wrote into [state[id]] before reading the reply stays there, although
    the device has not acknowledged it; nothing is rolled back and
    nothing is logged. *)
Theorem mismatched_index_is_not_rolled_back
    (stof : string -> res spec_float) (d : driver) (id j v n : Z) (tag : ascii)
    (p name : string) (x y : spec_float) (rest : list read_result) :
  0 <= id < 100 ->
  in_int j = true ->
  to_short j <> id ->
  Ascii.eqb tag "E" = false ->
  Ascii.eqb tag ":" = false ->
  size (frame tag j p) <= 100 ->
  double_to_int x = Some n ->
  rd d = ReadOk (frame tag j p) :: rest ->
  GetSwitchUSB id d = Done tt (set_rd rest (sent (trace (packet2 "G" id)) (packet2 "G" id) d))
  /\ GetNameUSB id d = Done tt (set_rd rest (sent (trace (packet2 "n" id)) (packet2 "n" id) d))
  /\ GetReverseUSB id d
     = Done tt (set_rd rest (sent (trace (packet2 "r" id)) (packet2 "r" id) d))
  /\ GetLimitsUSB stof id d
     = Done tt (set_rd rest (sent (trace (packet2 "l" id)) (packet2 "l" id) d))
  /\ SetSwitchUSB id v d
     = Done tt (set_rd rest
                  (set_state (<[Z.to_nat id := to_string v]> (state d))
                     (sent (trace_int (packet3 "S" id (to_string v)))
                           (packet3 "S" id (to_string v)) d)))
  /\ SetSwitchValueUSB id x d
     = Done tt (set_rd rest
                  (set_state (<[Z.to_nat id := to_string_double x]> (state d))
                     (sent (trace_int (packet3 "S" id (to_string n)))
                           (packet3 "S" id (to_string n)) d)))
  /\ SetNameUSB id name d
     = Done tt (set_log (log d ++ trace (packet3 "N" id name) ++ write_log d
                         ++ [(INFO, frame tag j p)])
                  (set_rd rest (sent (trace (packet3 "N" id name)) (packet3 "N" id name) d)))
  /\ SetReverseUSB id v d
     = Done tt (set_rd rest (sent (trace_int (packet3 "R" id (to_string v)))
                                  (packet3 "R" id (to_string v)) d))
  /\ SetLimitsUSB stof id y d
     = Done tt (set_rd rest (sent (trace_int (packet3 "L" id (to_string_double y)))
                                  (packet3 "L" id (to_string_double y)) d)).
Proof.
  intros Hid Hj Hne HE Hc Hs Hx Hrd.
  split; [eapply GetSwitchUSB_drops; eassumption|].
  split; [eapply GetNameUSB_drops; eassumption|].
  split.
  { unfold GetReverseUSB. rewrite (bind_Done _ _ _ _ _ (Transmit_sent _ _ _)).
    eapply reverse_reply_drops; eassumption. }
  split.
  { unfold GetLimitsUSB. rewrite (bind_Done _ _ _ _ _ (Transmit_sent _ _ _)).
    eapply limits_reply_drops; eassumption. }
  split.
  { unfold SetSwitchUSB.
    rewrite (bind_Done _ _ _ _ _ (SetSwitchUSB_request_run id v d Hid)).
    apply (SetSwitchUSB_reply_drops id j tag p rest Hj Hne HE Hc Hs). exact Hrd. }
  split.
  { unfold SetSwitchValueUSB.
    rewrite (bind_Done _ _ _ _ _ (SetSwitchValueUSB_request_run id n x d Hid Hx)).
    apply (SetSwitchValueUSB_reply_drops id j tag p rest Hj Hne HE Hc Hs). exact Hrd. }
  split.
  { unfold SetNameUSB.
    assert (R : SetNameUSB_request id name d
                = Done tt (sent (trace (packet3 "N" id name)) (packet3 "N" id name) d)).
    { unfold SetNameUSB_request.
      rewrite (bind_Done _ _ _ _ _ (Transmit_string_sent _ _ _ _)). reflexivity. }
    rewrite (bind_Done _ _ _ _ _ R).
    rewrite (SetNameUSB_reply_drops id j tag p rest Hj Hne HE Hc Hs
               (sent (trace (packet3 "N" id name)) (packet3 "N" id name) d) Hrd).
    unfold sent. cbn [log set_log set_wr set_written set_rd].
    rewrite <- !app_assoc. reflexivity. }
  split.
  { unfold SetReverseUSB.
    assert (R : SetReverseUSB_request id v d
                = Done tt (sent (trace_int (packet3 "R" id (to_string v)))
                                (packet3 "R" id (to_string v)) d)).
    { unfold SetReverseUSB_request.
      rewrite (bind_Done _ _ _ _ _ (Transmit_int_sent _ _ _ _)). reflexivity. }
    rewrite (bind_Done _ _ _ _ _ R).
    apply (reverse_reply_drops id j tag p rest Hj Hne HE Hc Hs). exact Hrd. }
  unfold SetLimitsUSB.
  assert (R : SetLimitsUSB_request id y d
              = Done tt (sent (trace_int (packet3 "L" id (to_string_double y)))
                              (packet3 "L" id (to_string_double y)) d)).
  { unfold SetLimitsUSB_request.
    rewrite (bind_Done _ _ _ _ _ (Transmit_float_sent _ _ _ _)). reflexivity. }
  rewrite (bind_Done _ _ _ _ _ R).
  apply (limits_reply_drops id j tag p rest Hj Hne HE Hc Hs). exact Hrd.
Qed.

Lemma mismatched_index_is_not_rolled_back_witness :
  (exists d',
     SetSwitchUSB 3 1 (pending "#G7:1;") = Done tt d'
     /\ state (pending "#G7:1;") !! 3%nat = Some "0"%string
     /\ state d' !! 3%nat = Some "1"%string
     /\ log d' = trace_int (packet3 "S" 3 "1"))
  /\ (exists d',
        GetSwitchUSB 3 (pending "#G7:1;") = Done tt d'
        /\ state d' !! 3%nat = Some "0"%string).
Proof.
  destruct (mismatched_index_is_not_rolled_back stof_fixed (pending "#G7:1;") 3 7 1 0 "G" "1"
              EmptyString (S754_zero false) (S754_zero false) [])
    as (G & _ & _ & _ & S & _).
  - lia.
  - reflexivity.
  - vm_compute. discriminate.
  - reflexivity.
  - reflexivity.
  - vm_compute. discriminate.
  - reflexivity.
  - reflexivity.
  - split; eexists; (split; [eassumption|]); repeat split.
Defined.

(** ** The sweep *)

Lemma sfind_body_semicolon (id : Z) (p : string) :
  sfind ";" p = None -> find (body "G" id p) ";" = npos.
Proof.
  intros Hp. unfold find, body. cbn [sfind].
  change (Ascii.eqb "G" ";") with false. cbv beta iota.
  rewrite sfind_app_None_None; [reflexivity | apply sfind_to_string; reflexivity |].
  cbn [sfind]. change (Ascii.eqb ":" ";") with false. cbv beta iota.
  rewrite Hp. reflexivity.
Qed.

(** A get whose reply ends at its terminator: the reply is consumed and
    the cache is left alone, because the terminator has been erased
    before it is looked for. *)
Lemma GetSwitchUSB_frame (id : Z) (p : string) (rest : list read_result) (d : driver) :
  0 <= id < 100 ->
  size p <= 60 ->
  sfind ";" p = None ->
  rd d = ReadOk (frame "G" id p) :: rest ->
  GetSwitchUSB id d
  = Done tt (set_rd rest (sent (trace (packet2 "G" id)) (packet2 "G" id) d)).
Proof.
  intros Hid Hsz Hp Hrd.
  assert (Hi : in_int id = true) by (apply in_int_true; lia).
  assert (Hs : size (frame "G" id p) < 2 ^ 31).
  { rewrite size_frame. pose proof (size_to_string id Hi). lia. }
  unfold GetSwitchUSB.
  rewrite (bind_Done _ _ _ _ _ (Transmit_sent _ _ _)).
  erewrite bind_Done by (apply ReceiveTerminated_frame; [exact Hrd | exact Hs]).
  rewrite (bind_Done _ _ _ _ _ (strip_both_frame _ _ _ _ Hs)).
  rewrite (colon_body _ _ _ Hs eq_refl).
  rewrite (bind_Done _ _ _ _ _ (read_switchN_body _ _ _ _ Hs Hi)).
  change (front (body "G" id p)) with "G"%char. cbv beta iota.
  change (Ascii.eqb "G" "E") with false. change (Ascii.eqb "G" "G") with true.
  rewrite to_short_small by lia. rewrite Z.eqb_refl. cbv beta iota. cbn [andb].
  rewrite sfind_body_semicolon by exact Hp. rewrite Z.eqb_refl. reflexivity.
Qed.

Lemma length_polls (n : nat) (lo : Z) : length (polls n lo) = n.
Proof. revert lo. induction n as [|n IH]; intros lo; [reflexivity|]. simpl. now rewrite IH. Qed.

Lemma sweep_polls (val : Z -> string) (rest : list read_result) (n : nat) :
  forall (lo : Z) (d : driver),
    0 <= lo -> lo + Z.of_nat n <= 100 ->
    (forall k, lo <= k < lo + Z.of_nat n -> size (val k) <= 60 /\ sfind ";" (val k) = None) ->
    rd d = answers n lo val ++ rest ->
    exists d1,
      for_from n lo (fun k => GetSwitchUSB (to_short k)) d = Done tt d1
      /\ written d1 = written d ++ polls n lo
      /\ rd d1 = rest
      /\ same_cache d d1
      /\ widgets d1 = widgets d.
Proof.
  induction n as [|n IH]; intros lo d Hlo Hhi Hval Hrd.
  - exists d. cbn [for_from polls]. rewrite app_nil_r.
    repeat split; try reflexivity. exact Hrd.
  - cbn [for_from]. cbn [answers] in Hrd.
    destruct (Hval lo ltac:(lia)) as [Hsz Hp].
    rewrite to_short_small by lia.
    rewrite (bind_Done _ _ _ _ _
               (GetSwitchUSB_frame lo (val lo) _ d ltac:(lia) Hsz Hp Hrd)).
    destruct (IH (lo + 1)
                 (set_rd (answers n (lo + 1) val ++ rest)
                    (sent (trace (packet2 "G" lo)) (packet2 "G" lo) d)))
      as (d1 & Hrun & Hw & Hr & Hc & Hwd); try lia.
    + intros k Hk. apply Hval. lia.
    + reflexivity.
    + exists d1. split; [exact Hrun|]. split.
      * rewrite Hw. cbn [written set_rd sent set_log set_wr set_written polls].
        rewrite <- app_assoc. reflexivity.
      * split; [exact Hr|]. split; [|exact Hwd].
        destruct Hc as (H1 & H2 & H3 & H4 & H5 & H6). repeat split; assumption.
Qed.

Lemma state_float_written (stof : string -> res spec_float) (k : Z) :
  spec True same_written (state_float stof k).
Proof. unfold state_float. spec_go same_written_refl same_written_trans; spec_leaf. Qed.

Lemma publish_written (stof : string -> res spec_float) (iv ia sn : Z) :
  spec True same_written (publish stof iv ia sn).
Proof.
  unfold publish, state_float, state_bool.
  spec_go same_written_refl same_written_trans; spec_leaf.
Qed.

Lemma ReceiveTerminated_hash (t : ascii) (s : string) (rest : list read_result) (d : driver) :
  rd d = ReadOk (String "#" s) :: rest ->
  size s < 2 ^ 63 ->
  ReceiveTerminated t d = Done (String "#" s) (set_rd rest d).
Proof.
  intros Hrd Hs. unfold ReceiveTerminated, bind, tty_read_section. rewrite Hrd.
  cbv beta iota. change (find (String "#" s) "#") with 0.
  change (size_t_of (to_int 0)) with 0.
  apply lift_Value. apply substr_whole. rewrite size_String. pose proof (size_nonneg s). lia.
Qed.


(** ** Publishing the sensors *)

Lemma bind_Done_inv {A B} (m : M A) (k : A -> M B) (d d' : driver) (b : B) :
  bind m k d = Done b d' -> exists a d1, m d = Done a d1 /\ k a d1 = Done b d'.
Proof.
  unfold bind. destruct (m d) as [a d1|e d1|]; intros H; [eauto | discriminate | discriminate].
Qed.

Lemma state_float_inv (stof : string -> res spec_float) (k : Z) (d d' : driver)
    (x : spec_float) :
  state_float stof k d = Done x d' -> d' = d /\ stof (cached d k) = Value x.
Proof.
  unfold state_float, bind, state_get, lift, cached.
  destruct (in_bounds 100 k); [|discriminate].
  destruct (stof _); [|discriminate].
  intros [= <- <-]. split; reflexivity.
Qed.

Lemma keeps_power_refl (d : driver) : keeps_power d d.
Proof. split; [apply same_cache_refl | reflexivity]. Qed.

Lemma keeps_power_trans (d1 d2 d3 : driver) :
  keeps_power d1 d2 -> keeps_power d2 d3 -> keeps_power d1 d3.
Proof.
  intros [C1 W1] [C2 W2]. split; [eapply same_cache_trans; eauto | congruence].
Qed.

Lemma widget_set_keeps_power (u : Prop) (prop : string) (i : Z) (v : wval) :
  prop <> "PowerSensorsNP"%string -> spec u keeps_power (widget_set prop i v).
Proof.
  intros Hp d. cbn [widget_set modify]. split; [repeat split|].
  cbn [widgets set_widgets]. apply lookup_insert_ne. intros [= E _]. contradiction.
Qed.

Lemma spec_Done (u : Prop) (R : driver -> driver -> Prop) {A} (m : M A)
    (d d' : driver) (a : A) :
  spec u R m -> m d = Done a d' -> R d d'.
Proof. intros H E. specialize (H d). rewrite E in H. exact H. Qed.

Ltac power_go :=
  spec_go keeps_power_refl keeps_power_trans;
  try (apply widget_set_keeps_power; discriminate);
  spec_leaf; try apply keeps_power_refl.

Lemma channels_loop_keeps_power (n : Z) :
  spec True keeps_power
    (for_range 0 n (fun i =>
       let* b := state_bool i in widget_set "PowerChannelsSP" i (WSwitch b))).
Proof. unfold state_bool. power_go. Qed.

Lemma duty_loop_keeps_power (n dc : Z) :
  spec True keeps_power
    (for_range 0 n (fun j =>
       let* s := state_get (dc + j) in
       let* n := lift (stoi s) in
       widget_set "DewChannelDutyCycleNP" j (WNum (double_of_int n)))).
Proof. power_go. Qed.

Lemma dc_loop_keeps_power (stof : string -> res spec_float) (n base : Z) :
  spec True keeps_power
    (for_range 0 n (fun i =>
       let* x := state_float stof (base + 2 * i) in
       widget_set "DCVoltageNP" i (WNum x) >>
       let* y := state_float stof (base + 2 * i + 1) in
       widget_set "DCCurrentNP" i (WNum y) >>
       let* z := state_float stof (base + 2 * i + 1) in
       widget_set "PowerChannelCurrentNP" i (WNum z))).
Proof. unfold state_float. power_go. Qed.

Lemma pwm_loop_keeps_power (stof : string -> res spec_float) (n base : Z) :
  spec True keeps_power
    (for_range 0 n (fun i =>
       let* x := state_float stof (base + 2 * i + 1) in
       widget_set "PWMCurrentNP" i (WNum x))).
Proof. unfold state_float. power_go. Qed.

Lemma same_counts_refl (d : driver) : same_counts d d.
Proof. repeat split. Qed.

Lemma same_counts_trans (d1 d2 d3 : driver) :
  same_counts d1 d2 -> same_counts d2 d3 -> same_counts d1 d3.
Proof. unfold same_counts. intuition congruence. Qed.

Ltac inv_step H :=
  let a := fresh "a" in
  let dx := fresh "dx" in
  let E := fresh "E" in
  apply bind_Done_inv in H as (a & dx & E & H).

Ltac inv_set H :=
  let a := fresh "a" in
  let dx := fresh "dx" in
  let E := fresh "E" in
  apply bind_Done_inv in H as (a & dx & E & H);
  cbv [widget_set setState modify] in E; injection E as <- <-.

Lemma publish_power (stof : string -> res spec_float) (iv ia sn : Z) (d d' : driver) :
  publish stof iv ia sn d = Done tt d' ->
  exists v a,
    stof (cached d iv) = Value v
    /\ stof (cached d ia) = Value a
    /\ widgets d' !! ("TotalConsumptionNP"%string, TOTAL_POWER) = Some (WNum (fmul v a))
    /\ widgets d' !! ("PowerSensorsNP"%string, SENSOR_POWER) = Some (WNum (fmul v a))
    /\ same_cache d d'.
Proof.
  intros H. unfold publish in H.
  inv_step H. apply state_float_inv in E as [-> Hv].
  inv_step H. apply state_float_inv in E as [-> Ha].
  exists a, a0. split; [exact Hv|]. split; [exact Ha|].
  inv_set H. inv_set H. inv_set H. inv_set H.
  inv_step H. cbv [get] in E. injection E as <- <-.
  inv_step H. pose proof (spec_Done _ _ _ _ _ _ (channels_loop_keeps_power _) E) as K1.
  inv_step H. pose proof (spec_Done _ _ _ _ _ _ (duty_loop_keeps_power _ _) E0) as K2.
  inv_step H. pose proof (spec_Done _ _ _ _ _ _ (dc_loop_keeps_power stof _ _) E1) as K3.
  inv_step H. pose proof (spec_Done _ _ _ _ _ _ (pwm_loop_keeps_power stof _ _) E2) as K4.
  inv_step H. apply state_float_inv in E3 as [-> _].
  inv_set H.
  inv_step H. apply state_float_inv in E3 as [-> _].
  inv_set H. inv_set H. inv_set H. inv_set H.
  cbv [setState modify] in H. injection H as <-.
  pose proof (keeps_power_trans _ _ _ K1 (keeps_power_trans _ _ _ K2
                (keeps_power_trans _ _ _ K3 K4))) as [KC KW].
  cbn [widgets set_widgets set_pstate] in *.
  split; [apply lookup_insert_eq|]. split.
  - rewrite !lookup_insert_ne by discriminate.
    rewrite KW. apply lookup_insert_eq.
  - destruct KC as (C1 & C2 & C3 & C4 & C5 & C6).
    cbn [state numDC numPWM numRelay numOn numUSB set_widgets set_pstate] in *.
    repeat split; assumption.
Qed.

Lemma GetSwitchUSB_counts (id : Z) : spec True same_counts (GetSwitchUSB id).
Proof.
  unfold GetSwitchUSB, Transmit, send_packet.
  spec_go same_counts_refl same_counts_trans; spec_leaf.
Qed.

Lemma sweep_counts (n : Z) : spec True same_counts (sweep n).
Proof.
  unfold sweep. apply (spec_for_range _ _ same_counts_refl same_counts_trans).
  intros i. apply GetSwitchUSB_counts.
Qed.

(** C9: when a poll cycle of a connected driver completes, the total
    power it has published, both in the consumption vector and in the
    sensor vector of the power interface, is the binary32 product of the
    voltage read from the cache at index [total] and of the current read
    from the cache at index [total + 1], [total] being the number of
    physical switches of the topology, which the cycle leaves as it is.
    In particular 12.00 V and 2.50 A give exactly 30.00 W. *)
Theorem power_is_voltage_times_current
    (stof : string -> res spec_float) (d d' : driver) :
  isConnected d = true ->
  TimerHit stof d = Done tt d' ->
  total d' = total d
  /\ exists v a,
       stof (cached d' (total d')) = Value v
       /\ stof (cached d' (total d' + 1)) = Value a
       /\ widgets d' !! ("TotalConsumptionNP"%string, TOTAL_POWER) = Some (WNum (fmul v a))
       /\ widgets d' !! ("PowerSensorsNP"%string, SENSOR_POWER) = Some (WNum (fmul v a))
       /\ (v = f32 12 0 -> a = f32 5 (-1) -> fmul v a = f32 30 0).
Proof.
  intros Hup H. unfold TimerHit in H.
  rewrite (bind_Done _ _ d d true) in H by (unfold gets; rewrite Hup; reflexivity).
  cbn [negb] in H. rewrite (bind_Done _ _ d d d) in H by reflexivity.
  inv_step H. inv_step H.
  pose proof (spec_Done True _ _ _ _ _ (sweep_counts _) E) as (S1 & S2 & S3 & S4 & S5).
  destruct (publish_power stof _ _ _ _ _ ltac:(destruct a0; exact E0))
    as (v & c & Hv & Hc & Ht & Hs & (C1 & C2 & C3 & C4 & C5 & C6)).
  cbv [SetTimer modify] in H. injection H as <-.
  assert (Htot : total dx0 = total d) by (unfold total; lia).
  split; [exact Htot|].
  exists v, c.
  unfold cached, numInputV, numTotalA in *.
  cbn [state widgets set_timers].
  change (total (set_timers (S (timers dx0)) dx0)) with (total dx0).
  rewrite Htot, C1.
  repeat split; try assumption.
  intros -> ->. reflexivity.
Qed.

Lemma power_witness :
  TimerHit stof_fixed polled = Done tt polled_end
  /\ stof_fixed (cached polled_end (total polled_end)) = Value (f32 12 0)
  /\ stof_fixed (cached polled_end (total polled_end + 1)) = Value (f32 5 (-1))
  /\ widgets polled_end !! ("TotalConsumptionNP"%string, TOTAL_POWER) = Some (WNum (f32 30 0)).
Proof.
  assert (E : TimerHit stof_fixed polled = Done tt polled_end) by (vm_compute; reflexivity).
  assert (Hv' : stof_fixed (cached polled_end (total polled_end)) = Value (f32 12 0))
    by (vm_compute; reflexivity).
  assert (Ha' : stof_fixed (cached polled_end (total polled_end + 1)) = Value (f32 5 (-1)))
    by (vm_compute; reflexivity).
  split; [exact E|]. split; [exact Hv'|]. split; [exact Ha'|].
  destruct (power_is_voltage_times_current stof_fixed polled polled_end eq_refl E)
    as (_ & v & a & Hv & Ha & Ht & _ & Hex).
  rewrite Ht. f_equal. f_equal. apply Hex; congruence.
Defined.

(** ** Failed reads and error replies *)

Lemma GetSwitchUSB_failed_read (id : Z) (msg : string) (rest : list read_result)
    (d : driver) :
  rd d = ReadFail msg :: rest ->
  GetSwitchUSB id d
  = Throw out_of_range
      (set_log (log (sent (trace (packet2 "G" id)) (packet2 "G" id) d)
                ++ [(ERROR, "Serial read error: " +:+ msg)])
         (set_rd rest (sent (trace (packet2 "G" id)) (packet2 "G" id) d))).
Proof.
  intros Hrd. unfold GetSwitchUSB.
  rewrite (bind_Done _ _ _ _ _ (Transmit_sent _ _ _)).
  unfold ReceiveTerminated, tty_read_section, bind.
  cbn [rd sent set_log set_wr set_written]. rewrite Hrd. reflexivity.
Qed.

(** C3 at its failing input: the first read of a sweep times out.  The
    exception thrown by [erase] on the empty string leaves
    [GetSwitchUSB] and [TimerHit]: only the request for index 0 has been
    written, the 44 replies that follow are never read, the timer is not
    armed again.  A first reply without a number for its index ends the
    sweep in the same way, by the exception of [std::stoi]. *)
Theorem sweep_stops_at_failed_read (stof : string -> res spec_float) :
  (exists d',
     TimerHit stof stalled = Throw out_of_range d'
     /\ written d' = [packet2 "G" 0]
     /\ length (rd d') = 44%nat
     /\ timers d' = timers stalled)
  /\ (exists d',
        TimerHit stof garbled = Throw invalid_argument d'
        /\ written d' = [packet2 "G" 0]
        /\ length (rd d') = 44%nat
        /\ timers d' = timers garbled).
Proof.
  split; eexists; (split; [vm_compute; reflexivity|]); repeat split.
Qed.

(** C4 at its failing input: the reply "#E bad request;".  For a set the
    exception of [std::stoi] leaves the function before the tag is
    looked at: the cache keeps the speculative "1" in place of the "0"
    it held before the command, and no error has been logged.  A get
    ends the same way.  With a numeric index in the error frame the
    error is logged, and the speculative value still stays. *)
Theorem error_reply_is_not_handled :
  (exists d',
     SetSwitchUSB 3 1 (pending "#E bad request;") = Throw invalid_argument d'
     /\ state (pending "#E bad request;") !! 3%nat = Some "0"%string
     /\ state d' !! 3%nat = Some "1"%string
     /\ log d' = trace_int (packet3 "S" 3 "1"))
  /\ (exists d',
        GetSwitchUSB 3 (pending "#E bad request;") = Throw invalid_argument d'
        /\ log d' = trace (packet2 "G" 3))
  /\ (exists d',
        SetSwitchUSB 3 1 (pending "#E3:bad request;") = Done tt d'
        /\ state d' !! 3%nat = Some "1"%string
        /\ log d' = trace_int (packet3 "S" 3 "1") ++ [(INFO, error_msg "E3:bad request")]).
Proof.
  split; [|split]; eexists; (split; [vm_compute; reflexivity|]); repeat split.
Qed.

(** The error reply without an index makes every set-switch and every
    get throw, whatever the driver and the index. *)
Lemma SetSwitchUSB_error_reply (id v : Z) (rest : list read_result) (d : driver) :
  0 <= id < 100 ->
  rd d = ReadOk "#E bad request;" :: rest ->
  SetSwitchUSB id v d
  = Throw invalid_argument
      (set_rd rest
         (set_state (<[Z.to_nat id := to_string v]> (state d))
            (sent (trace_int (packet3 "S" id (to_string v)))
                  (packet3 "S" id (to_string v)) d))).
Proof.
  intros Hid Hrd. unfold SetSwitchUSB.
  rewrite (bind_Done _ _ _ _ _ (SetSwitchUSB_request_run id v d Hid)).
  unfold SetSwitchUSB_reply.
  erewrite bind_Done by (apply ReceiveTerminated_hash; [exact Hrd | reflexivity]).
  reflexivity.
Qed.

Lemma GetSwitchUSB_error_reply (id : Z) (rest : list read_result) (d : driver) :
  rd d = ReadOk "#E bad request;" :: rest ->
  GetSwitchUSB id d
  = Throw invalid_argument
      (set_rd rest (sent (trace (packet2 "G" id)) (packet2 "G" id) d)).
Proof.
  intros Hrd. unfold GetSwitchUSB.
  rewrite (bind_Done _ _ _ _ _ (Transmit_sent _ _ _)).
  erewrite bind_Done by (apply ReceiveTerminated_hash; [exact Hrd | reflexivity]).
  reflexivity.
Qed.

(** A set-switch whose reply carries another index returns with the
    speculative value in the cache: the reply neither confirms it nor
    rolls it back. *)
Lemma SetSwitchUSB_other_index (id j v : Z) (p : string) (rest : list read_result)
    (d : driver) :
  0 <= id < 100 ->
  in_int j = true ->
  to_short j <> id ->
  size (frame "G" j p) <= 100 ->
  rd d = ReadOk (frame "G" j p) :: rest ->
  SetSwitchUSB id v d
  = Done tt
      (set_rd rest
         (set_state (<[Z.to_nat id := to_string v]> (state d))
            (sent (trace_int (packet3 "S" id (to_string v)))
                  (packet3 "S" id (to_string v)) d))).
Proof.
  intros Hid Hj Hne Hs Hrd. unfold SetSwitchUSB.
  rewrite (bind_Done _ _ _ _ _ (SetSwitchUSB_request_run id v d Hid)).
  apply (SetSwitchUSB_reply_drops id j "G" p rest Hj Hne eq_refl eq_refl Hs).
  exact Hrd.
Qed.

(** What a get stores depends on what follows the terminator in the
    text received: nothing is stored when the text ends at the ';', the
    value is stored when at least one more character follows. *)
Example get_ending_at_terminator :
  exists d', GetSwitchUSB 3 (pending "#G3:1;") = Done tt d'
             /\ state d' !! 3%nat = Some "0"%string.
Proof. eexists. split; [vm_compute; reflexivity | reflexivity]. Qed.

Example get_with_trailing_character :
  exists d', GetSwitchUSB 3 (pending ("#G3:1;" +:+ String LF EmptyString)) = Done tt d'
             /\ state d' !! 3%nat = Some "1"%string.
Proof. eexists. split; [vm_compute; reflexivity | reflexivity]. Qed.

(** A set-name stores the name the device returns, not the name asked for. *)
Example set_name_takes_the_reply :
  exists d', SetNameUSB 0 "cam" (set_rd [ReadOk (frame "n" 0 "CAM")] fresh) = Done tt d'
             /\ name_switch d' !! 0%nat = Some "CAM"%string.
Proof. eexists. split; [vm_compute; reflexivity | reflexivity]. Qed.
(** * Further properties of the protocol engine *)

(** ** Replies followed by more text *)

Lemma body_app (tag : ascii) (j : Z) (p q : string) :
  body tag j (p +:+ q) = body tag j p +:+ q.
Proof. unfold body. rewrite sapp_cons, sapp_assoc, sapp_cons. reflexivity. Qed.

(** The frame followed by the text [t] and one more character [c]. *)
Lemma frame_followed (tag : ascii) (j : Z) (p t : string) (c : ascii) :
  frame tag j p +:+ t +:+ String c EmptyString
  = String "#" (body tag j (p +:+ String ";" t) +:+ String c EmptyString).
Proof.
  unfold frame. rewrite sapp_cons, body_app, !sapp_assoc, sapp_cons, sapp_nil_l.
  reflexivity.
Qed.

Lemma size_followed (tag : ascii) (j : Z) (p t : string) (c : ascii) :
  size (frame tag j p +:+ t +:+ String c EmptyString)
  = size (frame tag j (p +:+ String ";" t)).
Proof.
  rewrite !size_app, !size_frame, !size_app, !size_String.
  change (size EmptyString) with 0. lia.
Qed.

Lemma strip_both_followed (s : string) (c : ascii) (d : driver) :
  size s < 2 ^ 63 ->
  strip_both (String "#" (s +:+ String c EmptyString)) d = Done s d.
Proof.
  intros Hs. unfold strip_both.
  rewrite (bind_Done _ _ d d (s +:+ String c EmptyString)) by (apply lift_Value, erase_first).
  apply lift_Value, erase_last. exact Hs.
Qed.

Lemma erase_at_end (a b : string) :
  size (a +:+ b) < 2 ^ 63 ->
  erase (a +:+ b) (size_t_of (size a)) npos = Value a.
Proof.
  intros Hs. rewrite size_app in Hs.
  pose proof (size_nonneg a). pose proof (size_nonneg b).
  rewrite size_t_small by lia.
  unfold erase. rewrite size_app.
  destruct (Z.ltb_spec (size a + size b) (size a)); [lia|].
  replace (size a + Z.min npos (size a + size b - size a)) with (size a + size b)
    by (unfold npos; lia).
  unfold size. rewrite Nat2Z.id, stake_app.
  rewrite sdrop_all; [now rewrite sapp_nil_r|].
  rewrite slength_app. lia.
Qed.

Lemma sfind_body (c tag : ascii) (j : Z) (p : string) :
  Ascii.eqb tag c = false -> isdigit c = false -> Ascii.eqb "-" c = false ->
  Ascii.eqb ":" c = false ->
  sfind c p = None -> sfind c (body tag j p) = None.
Proof.
  intros Ht Hd Hm Hc Hp. unfold body. cbn [sfind]. rewrite Ht.
  rewrite sfind_app_None_None; [reflexivity | apply sfind_to_string; assumption |].
  cbn [sfind]. rewrite Hc, Hp. reflexivity.
Qed.

(** Where the terminator is found in what is left of a reply, and what
    the text cut there is. *)
Lemma semicolon_body (tag : ascii) (j : Z) (p t : string) :
  Ascii.eqb tag ";" = false ->
  sfind ";" p = None ->
  size (frame tag j (p +:+ String ";" t)) < 2 ^ 31 ->
  to_int (find (body tag j (p +:+ String ";" t)) ";") = size (body tag j p)
  /\ erase (body tag j (p +:+ String ";" t)) (size_t_of (size (body tag j p))) npos
     = Value (body tag j p).
Proof.
  intros Ht Hp Hs.
  rewrite size_frame, size_app, size_String in Hs.
  pose proof (size_nonneg (to_string j)). pose proof (size_nonneg p).
  pose proof (size_nonneg t).
  rewrite body_app. split.
  - unfold find. rewrite sfind_app_None by (apply sfind_body; auto).
    unfold size. apply to_int_small.
    pose proof (size_body tag j p) as Hb. unfold size in *. lia.
  - apply erase_at_end. rewrite size_app, size_body, size_String. lia.
Qed.
(** ** What the get exchanges store *)

Lemma name_switch_put_in (id : Z) (v : string) (d : driver) :
  0 <= id < 100 ->
  name_switch_put id v d = Done tt (set_name_switch (<[Z.to_nat id := v]> (name_switch d)) d).
Proof.
  intros H. unfold name_switch_put, in_bounds.
  destruct (Z.leb_spec 0 id); [|lia]. destruct (Z.ltb_spec id 100); [|lia]. reflexivity.
Qed.

Lemma Limit_put_in (id : Z) (v : spec_float) (d : driver) :
  0 <= id < 6 ->
  Limit_put id v d = Done tt (set_Limit (<[Z.to_nat id := v]> (Limit d)) d).
Proof.
  intros H. unfold Limit_put, in_bounds.
  destruct (Z.leb_spec 0 id); [|lia]. destruct (Z.ltb_spec id 6); [|lia]. reflexivity.
Qed.

Lemma Reverse_put_in (id : Z) (v : bool) (d : driver) :
  0 <= id < 5 ->
  Reverse_put id v d = Done tt (set_Reverse (<[Z.to_nat id := v]> (Reverse d)) d).
Proof.
  intros H. unfold Reverse_put, in_bounds.
  destruct (Z.leb_spec 0 id); [|lia]. destruct (Z.ltb_spec id 5); [|lia]. reflexivity.
Qed.

Lemma size_body_nonneg (tag : ascii) (j : Z) (p : string) :
  (size (body tag j p) =? to_int npos) = false.
Proof. pose proof (size_nonneg (body tag j p)). rewrite to_int_npos. lia. Qed.

Section Followed.

Variables (id : Z) (tag : ascii) (p t : string) (c : ascii) (rest : list read_result).
Hypothesis Hid : - 2 ^ 15 <= id < 2 ^ 15.
Hypothesis HtagE : Ascii.eqb tag "E" = false.
Hypothesis Htagc : Ascii.eqb tag ":" = false.
Hypothesis Htags : Ascii.eqb tag ";" = false.
Hypothesis Hp : sfind ";" p = None.
Hypothesis Hsize : size (frame tag id p +:+ t +:+ String c EmptyString) < 2 ^ 31.

Lemma followed_small : size (frame tag id (p +:+ String ";" t)) < 2 ^ 31.
Proof. rewrite <- size_followed with (c := c). exact Hsize. Qed.

Lemma followed_small_frame : size (frame tag id p) < 2 ^ 31.
Proof.
  pose proof followed_small as H. rewrite size_frame, size_app, size_String in H.
  rewrite size_frame. pose proof (size_nonneg t). lia.
Qed.

Lemma followed_int : in_int id = true.
Proof. apply in_int_true. lia. Qed.

(** The steps every exchange takes on such a reply, once the text has
    been stripped at both ends: the index is read and the text is cut at
    the terminator. *)
Lemma followed_receive (tm : ascii) (d : driver) :
  rd d = ReadOk (frame tag id p +:+ t +:+ String c EmptyString) :: rest ->
  ReceiveTerminated tm d
  = Done (String "#" (body tag id (p +:+ String ";" t) +:+ String c EmptyString))
         (set_rd rest d).
Proof.
  intros Hrd. rewrite frame_followed in Hrd.
  apply ReceiveTerminated_hash; [exact Hrd|].
  pose proof followed_small as H. rewrite size_frame in H.
  rewrite size_app, size_body, size_String. change (size EmptyString) with 0.
  pose proof (size_nonneg (to_string id)).
  pose proof (size_nonneg (p +:+ String ";" t)). lia.
Qed.

Lemma followed_strip (d : driver) :
  strip_both (String "#" (body tag id (p +:+ String ";" t) +:+ String c EmptyString)) d
  = Done (body tag id (p +:+ String ";" t)) d.
Proof.
  apply strip_both_followed.
  pose proof followed_small as H. rewrite size_frame in H. rewrite size_body.
  pose proof (size_nonneg (to_string id)).
  pose proof (size_nonneg (p +:+ String ";" t)). lia.
Qed.

Ltac followed_head Htg :=
  rewrite (colon_body _ _ _ followed_small Htagc);
  rewrite (bind_Done _ _ _ _ _ (read_switchN_body _ _ _ _ followed_small followed_int));
  change (front (body tag id (p +:+ String ";" t))) with tag; rewrite HtagE, Htg;
  rewrite (to_short_small _ Hid), Z.eqb_refl; cbn [andb];
  destruct (semicolon_body tag id p t Htags Hp followed_small) as [Hj He];
  rewrite Hj, size_body_nonneg;
  rewrite (bind_Done _ _ _ _ _ (lift_Value _ _ _ He));
  rewrite (bind_Done _ _ _ _ _ (value_body _ _ _ _ followed_small_frame)).

Lemma GetSwitchUSB_followed (d : driver) :
  Ascii.eqb tag "G" = true -> 0 <= id < 100 ->
  rd d = ReadOk (frame tag id p +:+ t +:+ String c EmptyString) :: rest ->
  GetSwitchUSB id d
  = Done tt (set_state (<[Z.to_nat id := p]> (state d))
               (set_rd rest (sent (trace (packet2 "G" id)) (packet2 "G" id) d))).
Proof.
  intros Ht Hi Hrd. unfold GetSwitchUSB.
  rewrite (bind_Done _ _ _ _ _ (Transmit_sent _ _ _)).
  erewrite bind_Done by (apply followed_receive; exact Hrd).
  rewrite (bind_Done _ _ _ _ _ (followed_strip _)).
  followed_head Ht. rewrite state_put_in by exact Hi. reflexivity.
Qed.

Lemma GetNameUSB_followed (d : driver) :
  Ascii.eqb tag "n" = true -> 0 <= id < 100 ->
  rd d = ReadOk (frame tag id p +:+ t +:+ String c EmptyString) :: rest ->
  GetNameUSB id d
  = Done tt (set_name_switch (<[Z.to_nat id := p]> (name_switch d))
               (set_rd rest (sent (trace (packet2 "n" id)) (packet2 "n" id) d))).
Proof.
  intros Ht Hi Hrd. unfold GetNameUSB.
  rewrite (bind_Done _ _ _ _ _ (Transmit_sent _ _ _)).
  erewrite bind_Done by (apply followed_receive; exact Hrd).
  rewrite (bind_Done _ _ _ _ _ (followed_strip _)).
  followed_head Ht. rewrite name_switch_put_in by exact Hi. reflexivity.
Qed.

Lemma limits_reply_followed (stof : string -> res spec_float) (x : spec_float) (d : driver) :
  Ascii.eqb tag "l" = true -> 0 <= id < 6 ->
  stof p = Value x ->
  rd d = ReadOk (frame tag id p +:+ t +:+ String c EmptyString) :: rest ->
  limits_reply stof id d
  = Done tt (set_Limit (<[Z.to_nat id := x]> (Limit d)) (set_rd rest d)).
Proof.
  intros Ht Hi Hx Hrd. unfold limits_reply.
  erewrite bind_Done by (apply followed_receive; exact Hrd).
  rewrite (bind_Done _ _ _ _ _ (followed_strip _)).
  followed_head Ht. rewrite Hx.
  rewrite (bind_Done _ _ _ _ x) by reflexivity.
  rewrite Limit_put_in by exact Hi. reflexivity.
Qed.

End Followed.

(** A reply that ends at its terminator: once the text has been stripped
    at both ends there is no terminator left in it. *)
Section Ended.

Variables (id : Z) (tag : ascii) (p : string) (rest : list read_result).
Hypothesis Hid : - 2 ^ 15 <= id < 2 ^ 15.
Hypothesis HtagE : Ascii.eqb tag "E" = false.
Hypothesis Htagc : Ascii.eqb tag ":" = false.
Hypothesis Htags : Ascii.eqb tag ";" = false.
Hypothesis Hp : sfind ";" p = None.
Hypothesis Hsize : size (frame tag id p) < 2 ^ 31.

Lemma ended_int : in_int id = true.
Proof. apply in_int_true. lia. Qed.

Lemma ended_no_semicolon : (to_int (find (body tag id p) ";") =? to_int npos) = true.
Proof.
  unfold find. rewrite sfind_body by auto. apply Z.eqb_refl.
Qed.

Ltac ended_head Hrd Htg :=
  erewrite bind_Done by (apply ReceiveTerminated_frame; [exact Hrd | exact Hsize]);
  rewrite (bind_Done _ _ _ _ _ (strip_both_frame _ _ _ _ Hsize));
  rewrite (colon_body _ _ _ Hsize Htagc);
  rewrite (bind_Done _ _ _ _ _ (read_switchN_body _ _ _ _ Hsize ended_int));
  change (front (body tag id p)) with tag; rewrite HtagE, Htg;
  rewrite (to_short_small _ Hid), Z.eqb_refl; cbn [andb];
  rewrite ended_no_semicolon; reflexivity.

Lemma GetNameUSB_ended (d : driver) :
  Ascii.eqb tag "n" = true ->
  rd d = ReadOk (frame tag id p) :: rest ->
  GetNameUSB id d
  = Done tt (set_rd rest (sent (trace (packet2 "n" id)) (packet2 "n" id) d)).
Proof.
  intros Ht Hrd. unfold GetNameUSB.
  rewrite (bind_Done _ _ _ _ _ (Transmit_sent _ _ _)).
  ended_head Hrd Ht.
Qed.

Lemma GetSwitchUSB_ended (d : driver) :
  Ascii.eqb tag "G" = true ->
  rd d = ReadOk (frame tag id p) :: rest ->
  GetSwitchUSB id d
  = Done tt (set_rd rest (sent (trace (packet2 "G" id)) (packet2 "G" id) d)).
Proof.
  intros Ht Hrd. unfold GetSwitchUSB.
  rewrite (bind_Done _ _ _ _ _ (Transmit_sent _ _ _)).
  ended_head Hrd Ht.
Qed.

Lemma limits_reply_ended (stof : string -> res spec_float) (d : driver) :
  Ascii.eqb tag "l" = true ->
  rd d = ReadOk (frame tag id p) :: rest ->
  limits_reply stof id d = Done tt (set_rd rest d).
Proof. intros Ht Hrd. unfold limits_reply. ended_head Hrd Ht. Qed.

End Ended.
(** A reply for the exchanges that strip the text at its head only: the
    frame, followed by any text. *)
Section Open.

Variables (id : Z) (tag : ascii) (p tail : string) (rest : list read_result).
Hypothesis Hid : - 2 ^ 15 <= id < 2 ^ 15.
Hypothesis HtagE : Ascii.eqb tag "E" = false.
Hypothesis Htagc : Ascii.eqb tag ":" = false.
Hypothesis Htags : Ascii.eqb tag ";" = false.
Hypothesis Hp : sfind ";" p = None.
Hypothesis Hsize : size (frame tag id p +:+ tail) < 2 ^ 31 - 1.

Lemma frame_tail :
  frame tag id p +:+ tail = String "#" (body tag id (p +:+ String ";" tail)).
Proof.
  unfold frame. rewrite sapp_cons, body_app, sapp_assoc, sapp_cons, sapp_nil_l.
  reflexivity.
Qed.

Lemma open_small : size (frame tag id (p +:+ String ";" tail)) < 2 ^ 31.
Proof.
  rewrite size_app, size_frame in Hsize.
  rewrite size_frame, size_app, size_String. lia.
Qed.

Lemma open_small_frame : size (frame tag id p) < 2 ^ 31.
Proof.
  rewrite size_app in Hsize. pose proof (size_nonneg tail). lia.
Qed.

Lemma open_int : in_int id = true.
Proof. apply in_int_true. lia. Qed.

Lemma open_receive (tm : ascii) (d : driver) :
  rd d = ReadOk (frame tag id p +:+ tail) :: rest ->
  ReceiveTerminated tm d
  = Done (String "#" (body tag id (p +:+ String ";" tail))) (set_rd rest d).
Proof.
  intros Hrd. rewrite frame_tail in Hrd.
  apply ReceiveTerminated_hash; [exact Hrd|].
  pose proof open_small as H. rewrite size_frame in H. rewrite size_body.
  pose proof (size_nonneg (to_string id)).
  pose proof (size_nonneg (p +:+ String ";" tail)). lia.
Qed.

Ltac open_head Htg :=
  rewrite (colon_body _ _ _ open_small Htagc);
  rewrite (bind_Done _ _ _ _ _ (read_switchN_body _ _ _ _ open_small open_int));
  change (front (body tag id (p +:+ String ";" tail))) with tag; rewrite HtagE, Htg;
  rewrite (to_short_small _ Hid), Z.eqb_refl; cbn [andb].

Ltac open_cut :=
  destruct (semicolon_body tag id p tail Htags Hp open_small) as [Hj He];
  rewrite Hj, size_body_nonneg;
  rewrite (bind_Done _ _ _ _ _ (lift_Value _ _ _ He)).

Lemma SetNameUSB_reply_open (d : driver) :
  Ascii.eqb tag "n" = true -> 0 <= id < 100 ->
  rd d = ReadOk (frame tag id p +:+ tail) :: rest ->
  SetNameUSB_reply id d
  = Done tt
      (set_log (log d ++ [(INFO, frame tag id p +:+ tail);
                          (INFO, body tag id (p +:+ String ";" tail));
                          (INFO, body tag id p);
                          (INFO, p)])
         (set_name_switch (<[Z.to_nat id := p]> (name_switch d)) (set_rd rest d))).
Proof.
  intros Ht Hi Hrd. unfold SetNameUSB_reply.
  erewrite bind_Done by (apply open_receive; exact Hrd).
  unfold LOG at 1.
  erewrite (bind_Done (modify _)) by reflexivity.
  rewrite (bind_Done _ _ _ _ _ (lift_Value _ _ _ (erase_first _ _))).
  open_head Ht.
  unfold LOG at 1. erewrite (bind_Done (modify _)) by reflexivity.
  open_cut.
  unfold LOG at 1. erewrite (bind_Done (modify _)) by reflexivity.
  rewrite (bind_Done _ _ _ _ _ (value_body _ _ _ _ open_small_frame)).
  rewrite (bind_Done _ _ _ _ _ (name_switch_put_in _ _ _ Hi)).
  cbv [LOG modify]. cbn [log set_log set_rd set_name_switch name_switch].
  rewrite frame_tail. rewrite <- !app_assoc. reflexivity.
Qed.

Lemma reverse_reply_open (n : Z) (d : driver) :
  Ascii.eqb tag "r" = true -> 0 <= id < 5 ->
  in_int n = true ->
  p = to_string n ->
  rd d = ReadOk (frame tag id p +:+ tail) :: rest ->
  reverse_reply id d
  = Done tt (set_Reverse (<[Z.to_nat id := negb (n =? 0)]> (Reverse d)) (set_rd rest d)).
Proof.
  intros Ht Hi Hn Hpn Hrd. unfold reverse_reply.
  erewrite bind_Done by (apply open_receive; exact Hrd).
  rewrite (bind_Done _ _ _ _ _ (lift_Value _ _ _ (erase_first _ _))).
  open_head Ht. open_cut.
  rewrite (bind_Done _ _ _ _ _ (value_body _ _ _ _ open_small_frame)).
  rewrite Hpn, (stoi_to_string n Hn).
  rewrite (bind_Done _ _ _ _ n) by reflexivity.
  rewrite Reverse_put_in by exact Hi. reflexivity.
Qed.

End Open.
(** ** Replies without an index: topology and WiFi *)

Lemma srfind_None (c : ascii) (s : string) : sfind c s = None -> srfind c s = None.
Proof.
  induction s as [|x s IH]; [reflexivity|]. cbn [sfind srfind].
  destruct (Ascii.eqb x c); [discriminate|].
  destruct (sfind c s); [discriminate|]. intros _. rewrite IH; reflexivity.
Qed.

Lemma srfind_app_last (c : ascii) (a b : string) :
  sfind c b = None -> srfind c (a +:+ String c b) = Some (String.length a).
Proof.
  intros Hb. induction a as [|x a IH].
  - rewrite sapp_nil_l. cbn [srfind]. rewrite (srfind_None _ _ Hb), Ascii.eqb_refl.
    reflexivity.
  - rewrite sapp_cons. cbn [srfind]. rewrite IH. reflexivity.
Qed.

Lemma substr_after (a b : string) :
  size (a +:+ b) < 2 ^ 63 ->
  substr (a +:+ b) (size_t_of (size a)) npos = Value b.
Proof.
  intros Hs. rewrite size_app in Hs.
  pose proof (size_nonneg a). pose proof (size_nonneg b).
  rewrite size_t_small by lia.
  unfold substr. rewrite size_app.
  destruct (Z.ltb_spec (size a + size b) (size a)); [lia|].
  unfold size. rewrite Nat2Z.id, sdrop_app.
  rewrite stake_all; [reflexivity|]. unfold size, npos in *. lia.
Qed.

(** The last field of a comma list that ends with a number. *)
Lemma last_field (X : string) (e : Z) :
  in_int e = true ->
  size X < 2 ^ 30 ->
  to_int (find_last_of (X +:+ String "," (to_string e)) ",") = size X
  /\ substr (X +:+ String "," (to_string e)) (size_t_of (size X + 1)) npos
     = Value (to_string e)
  /\ erase (X +:+ String "," (to_string e)) (size_t_of (size X)) npos = Value X.
Proof.
  intros He HX. pose proof (size_nonneg X). pose proof (size_to_string e He) as Hse.
  pose proof (size_nonneg (to_string e)).
  split; [|split].
  - unfold find_last_of. rewrite srfind_app_last by (apply sfind_to_string; reflexivity).
    apply to_int_small. unfold size in *. lia.
  - replace (X +:+ String "," (to_string e)) with ((X +:+ ",") +:+ to_string e)
      by (rewrite sapp_assoc; reflexivity).
    replace (size X + 1) with (size (X +:+ ","))
      by (rewrite size_app; reflexivity).
    apply substr_after. rewrite !size_app. change (size ",") with 1. lia.
  - apply erase_at_end. rewrite size_app, size_String. lia.
Qed.

(** A text [hd ":" p ";" tail]: where the two marks are found, what the
    text cut at the terminator is and what follows the colon in it. *)
Lemma cut_payload (hd p tail : string) :
  sfind ":" hd = None -> sfind ";" hd = None -> sfind ";" p = None ->
  size (hd +:+ String ":" (p +:+ String ";" tail)) < 2 ^ 31 ->
  to_int (find (hd +:+ String ":" (p +:+ String ";" tail)) ":") = size hd
  /\ to_int (find (hd +:+ String ":" (p +:+ String ";" tail)) ";") = size hd + 1 + size p
  /\ erase (hd +:+ String ":" (p +:+ String ";" tail)) (size_t_of (size hd + 1 + size p)) npos
     = Value (hd +:+ String ":" p)
  /\ substr (hd +:+ String ":" p) (size_t_of (size hd + 1)) npos = Value p.
Proof.
  intros Hc Hs Hp Hsz.
  rewrite size_app, size_String, size_app, size_String in Hsz.
  pose proof (size_nonneg hd). pose proof (size_nonneg p). pose proof (size_nonneg tail).
  assert (E : hd +:+ String ":" (p +:+ String ";" tail)
              = (hd +:+ String ":" p) +:+ String ";" tail).
  { rewrite sapp_assoc, sapp_cons. reflexivity. }
  split; [|split; [|split]].
  - unfold find. rewrite sfind_app_None by exact Hc. apply to_int_small.
    unfold size in *. lia.
  - rewrite E. unfold find. rewrite sfind_app_None.
    + rewrite slength_app. cbn [String.length].
      rewrite to_int_small by (unfold size in *; lia). unfold size. lia.
    + apply sfind_app_None_None; [exact Hs|]. cbn [sfind].
      change (Ascii.eqb ":" ";") with false. cbv beta iota. rewrite Hp. reflexivity.
  - rewrite E.
    replace (size hd + 1 + size p) with (size (hd +:+ String ":" p))
      by (rewrite size_app, size_String; lia).
    apply erase_at_end. repeat (rewrite size_app || rewrite size_String). lia.
  - replace (hd +:+ String ":" p) with ((hd +:+ ":") +:+ p)
      by (rewrite sapp_assoc; reflexivity).
    replace (size hd + 1) with (size (hd +:+ ":")) by (rewrite size_app; reflexivity).
    apply substr_after. rewrite !size_app. change (size ":") with 1. lia.
Qed.

Lemma sfind_cons_ne (c x : ascii) (s : string) :
  Ascii.eqb x c = false -> sfind c s = None -> sfind c (String x s) = None.
Proof. intros Hx Hs. cbn [sfind]. rewrite Hx, Hs. reflexivity. Qed.

Section Indexless.

Variables (tag : ascii) (h p tail : string) (rest : list read_result).
Hypothesis HtagE : Ascii.eqb tag "E" = false.
Hypothesis Htagc : Ascii.eqb tag ":" = false.
Hypothesis Htags : Ascii.eqb tag ";" = false.
Hypothesis Hhc : sfind ":" h = None.
Hypothesis Hhs : sfind ";" h = None.
Hypothesis Hp : sfind ";" p = None.
Hypothesis Hsize : size (String "#" (String tag h +:+ String ":" (p +:+ String ";" tail))) < 2 ^ 31.

Lemma indexless_small :
  size (String tag h +:+ String ":" (p +:+ String ";" tail)) < 2 ^ 31.
Proof. rewrite size_String in Hsize. lia. Qed.

Lemma indexless_receive (tm : ascii) (d : driver) :
  rd d = ReadOk (String "#" (String tag h +:+ String ":" (p +:+ String ";" tail))) :: rest ->
  ReceiveTerminated tm d
  = Done (String "#" (String tag h +:+ String ":" (p +:+ String ";" tail))) (set_rd rest d).
Proof.
  intros Hrd. apply ReceiveTerminated_hash; [exact Hrd|].
  pose proof indexless_small. lia.
Qed.

Lemma indexless_cut :
  to_int (find (String tag h +:+ String ":" (p +:+ String ";" tail)) ":") = 1 + size h
  /\ to_int (find (String tag h +:+ String ":" (p +:+ String ";" tail)) ";")
     = 1 + size h + 1 + size p
  /\ erase (String tag h +:+ String ":" (p +:+ String ";" tail))
           (size_t_of (1 + size h + 1 + size p)) npos
     = Value (String tag h +:+ String ":" p)
  /\ substr (String tag h +:+ String ":" p) (size_t_of (1 + size h + 1)) npos = Value p.
Proof.
  rewrite <- (size_String tag h).
  apply cut_payload; try assumption;
    [apply sfind_cons_ne; assumption | apply sfind_cons_ne; assumption | exact indexless_small].
Qed.

Lemma indexless_found : (1 + size h + 1 + size p =? to_int npos) = false.
Proof. pose proof (size_nonneg h). pose proof (size_nonneg p). rewrite to_int_npos. lia. Qed.

Lemma wifi_reply_stores (store : string -> driver -> driver) (widget : Z) (what : string)
    (d : driver) :
  rd d = ReadOk (String "#" (String tag h +:+ String ":" (p +:+ String ";" tail))) :: rest ->
  wifi_reply tag store widget what d
  = (modify (store p) >> widget_set "WifiTP" widget (WText p) >> LOG INFO (what +:+ p))
      (set_rd rest d).
Proof.
  intros Hrd. unfold wifi_reply.
  erewrite bind_Done by (apply indexless_receive; exact Hrd).
  rewrite (bind_Done _ _ _ _ _ (lift_Value _ _ _ (erase_first _ _))).
  destruct indexless_cut as (Hi & Hj & He & Hv).
  rewrite sapp_cons in *. cbn [front]. rewrite HtagE, Ascii.eqb_refl.
  rewrite Hj, indexless_found.
  rewrite (bind_Done _ _ _ _ _ (lift_Value _ _ _ He)).
  rewrite Hi.
  rewrite (bind_Done _ _ _ _ _ (lift_Value _ _ _ Hv)).
  reflexivity.
Qed.

End Indexless.
Lemma sfind_counts_text (x : ascii) (a b c d e : Z) :
  isdigit x = false -> Ascii.eqb "-" x = false -> Ascii.eqb "," x = false ->
  sfind x (counts_text a b c d e) = None.
Proof.
  intros Hd Hm Hc. unfold counts_text.
  repeat (apply sfind_app_None_None; [|apply sfind_cons_ne; [exact Hc|]]);
    apply sfind_to_string; assumption.
Qed.

Lemma size_counts_text (a b c d e : Z) :
  in_int a = true -> in_int b = true -> in_int c = true -> in_int d = true ->
  in_int e = true ->
  size (counts_text a b c d e) <= 200.
Proof.
  intros Ha Hb Hc Hd He. unfold counts_text.
  repeat (rewrite size_app || rewrite size_String).
  pose proof (size_to_string a Ha). pose proof (size_to_string b Hb).
  pose proof (size_to_string c Hc). pose proof (size_to_string d Hd).
  pose proof (size_to_string e He). lia.
Qed.

(** Topology discovery on a well-formed reply: the five numbers of the
    comma list, read from the tail, become the five counts. *)
Lemma GetNum_decodes (a b c d e : Z) (h tail : string) (rest : list read_result)
    (d0 : driver) :
  in_int a = true -> in_int b = true -> in_int c = true -> in_int d = true ->
  in_int e = true ->
  sfind ":" h = None -> sfind ";" h = None ->
  size (reply "Z" h (counts_text a b c d e) tail) < 2 ^ 31 ->
  rd d0 = ReadOk (reply "Z" h (counts_text a b c d e) tail) :: rest ->
  GetNum d0
  = Done tt (set_numDC a (set_numPWM b (set_numRelay c (set_numOn d (set_numUSB e
               (set_rd rest (sent (trace (packet2 "Z" 0)) (packet2 "Z" 0) d0))))))).
Proof.
  intros Ha Hb Hc Hd He Hhc Hhs Hsz Hrd. unfold reply in *.
  assert (Hp : sfind ";" (counts_text a b c d e) = None)
    by (apply sfind_counts_text; reflexivity).
  pose proof (size_to_string a Ha). pose proof (size_to_string b Hb).
  pose proof (size_to_string c Hc). pose proof (size_to_string d Hd).
  pose proof (size_nonneg (to_string a)). pose proof (size_nonneg (to_string b)).
  pose proof (size_nonneg (to_string c)). pose proof (size_nonneg (to_string d)).
  unfold GetNum.
  rewrite (bind_Done _ _ _ _ _ (Transmit_sent _ _ _)).
  erewrite bind_Done
    by (apply (indexless_receive "Z" h _ tail rest Hsz); exact Hrd).
  rewrite (bind_Done _ _ _ _ _ (lift_Value _ _ _ (erase_first _ _))).
  destruct (indexless_cut "Z" h (counts_text a b c d e) tail eq_refl eq_refl Hhc Hhs Hp Hsz)
    as (Hi & Hj & Her & Hv).
  rewrite sapp_cons in *. cbn [front].
  change (Ascii.eqb "Z" "E") with false. change (Ascii.eqb "Z" "Z") with true.
  cbv beta iota.
  rewrite Hj, indexless_found.
  rewrite (bind_Done _ _ _ _ _ (lift_Value _ _ _ Her)).
  rewrite Hi.
  rewrite (bind_Done _ _ _ _ _ (lift_Value _ _ _ Hv)).
  unfold counts_text.
  repeat match goal with
  | |- context [find_last_of (?X +:+ String "," (to_string ?n)) ","] =>
      let Hn := fresh in
      assert (Hn : in_int n = true) by assumption;
      let Hk := fresh in let Hs := fresh in let Hx := fresh in
      destruct (last_field X n Hn) as (Hk & Hs & Hx);
      [repeat (rewrite size_app || rewrite size_String); lia|];
      rewrite Hk;
      rewrite (bind_Done _ _ _ _ _ (lift_Value _ _ _ Hs));
      rewrite (bind_Done _ _ _ _ _ (lift_Value _ _ _ (stoi_to_string n Hn)));
      erewrite (bind_Done (modify _)) by reflexivity;
      rewrite (bind_Done _ _ _ _ _ (lift_Value _ _ _ Hx));
      clear Hk Hs Hx
  end.
  rewrite (bind_Done _ _ _ _ _ (lift_Value _ _ _ (stoi_to_string a Ha))).
  reflexivity.
Qed.
(** ** Reading the line *)

(** X1: the three outcomes of [ReceiveTerminated].  A read that fails
    gives the empty string and one ERROR entry in the log.  A text that
    holds a '#' gives the text from the first '#' on: what precedes it is
    discarded.  A text without '#' makes [substr] throw [out_of_range].
    In each case the read is consumed and nothing else changes. *)
Theorem ReceiveTerminated_outcomes (tm : ascii) (d : driver) (rest : list read_result) :
  (forall msg,
     rd d = ReadFail msg :: rest ->
     ReceiveTerminated tm d
     = Done EmptyString
         (set_log (log d ++ [(ERROR, "Serial read error: " +:+ msg)]) (set_rd rest d)))
  /\ (forall junk s,
        sfind "#" junk = None ->
        size (junk +:+ String "#" s) < 2 ^ 31 ->
        rd d = ReadOk (junk +:+ String "#" s) :: rest ->
        ReceiveTerminated tm d = Done (String "#" s) (set_rd rest d))
  /\ (forall a,
        sfind "#" a = None ->
        size a < 2 ^ 31 ->
        rd d = ReadOk a :: rest ->
        ReceiveTerminated tm d = Throw out_of_range (set_rd rest d)).
Proof.
  split; [|split].
  - intros msg Hrd. unfold ReceiveTerminated, bind, tty_read_section. rewrite Hrd.
    reflexivity.
  - intros junk s Hj Hs Hrd. unfold ReceiveTerminated, bind, tty_read_section.
    rewrite Hrd. cbv beta iota.
    unfold find. rewrite sfind_app_None by exact Hj.
    rewrite size_app in Hs. pose proof (size_nonneg junk).
    pose proof (size_nonneg (String "#" s)).
    rewrite to_int_small by (unfold size in *; lia).
    apply lift_Value. apply substr_after. rewrite size_app. lia.
  - intros a Ha Hs Hrd. unfold ReceiveTerminated, bind, tty_read_section.
    rewrite Hrd. cbv beta iota.
    unfold find. rewrite Ha. rewrite to_int_npos.
    unfold substr. change (size_t_of (-1)) with (2 ^ 64 - 1).
    destruct (Z.ltb_spec (size a) (2 ^ 64 - 1)); [reflexivity | lia].
Qed.

Lemma ReceiveTerminated_outcomes_witness :
  ReceiveTerminated ";" (set_rd [ReadOk "xy#G3:1;"] fresh)
  = Done "#G3:1;"%string (set_rd [] (set_rd [ReadOk "xy#G3:1;"] fresh))
  /\ ReceiveTerminated ";" (set_rd [ReadOk "G3:1;"] fresh)
     = Throw out_of_range (set_rd [] (set_rd [ReadOk "G3:1;"] fresh)).
Proof.
  split.
  - apply (proj1 (proj2 (ReceiveTerminated_outcomes ";" (set_rd [ReadOk "xy#G3:1;"] fresh) []))
             "xy"%string "G3:1;"%string); [reflexivity | vm_compute; reflexivity | reflexivity].
  - apply (proj2 (proj2 (ReceiveTerminated_outcomes ";" (set_rd [ReadOk "G3:1;"] fresh) []))
             "G3:1;"%string); [reflexivity | vm_compute; reflexivity | reflexivity].
Defined.

(** X2: the reboot button always reports success.  [reboot] returns
    [true] whatever [Transmit] returned, so the handler sets the vector
    to OK and never to ALERT, also when the write has failed (the failure
    is in the log); one packet, [# p 0], is written and no reply is read. *)
Theorem reboot_always_reports_ok (d : driver) :
  exists d',
    ISNewSwitch RebootSP d = Done true d'
    /\ pstate d' !! "RebootSP"%string = Some IPS_OK
    /\ written d' = written d ++ [packet2 "p" 0]
    /\ rd d' = rd d
    /\ log d' = log d ++ trace (packet2 "p" 0) ++ write_log d
                ++ [(INFO, "Rebooting device..."%string)].
Proof.
  eexists. cbn [ISNewSwitch]. unfold reboot.
  rewrite (bind_Done _ _ d _
             true (bind_Done _ _ _ _ _ (Transmit_sent _ _ _))).
  split; [reflexivity|].
  cbn [pstate set_pstate set_log written rd log sent set_wr set_written].
  split; [apply lookup_insert_eq|].
  repeat split. rewrite <- !app_assoc. reflexivity.
Qed.
(** ** What the exchanges store *)

Lemma followed_size (tag : ascii) (id : Z) (p t : string) (c : ascii) :
  0 <= id < 100 -> size p + size t < 2 ^ 30 ->
  size (frame tag id p +:+ t +:+ String c EmptyString) < 2 ^ 31.
Proof.
  intros Hid Hs. rewrite size_followed, size_frame, size_app, size_String.
  pose proof (size_to_string id ltac:(apply in_int_true; lia)). lia.
Qed.

Lemma ended_size (tag : ascii) (id : Z) (p : string) :
  0 <= id < 100 -> size p < 2 ^ 30 -> size (frame tag id p) < 2 ^ 31.
Proof.
  intros Hid Hs. rewrite size_frame.
  pose proof (size_to_string id ltac:(apply in_int_true; lia)). lia.
Qed.

Lemma open_size (tag : ascii) (id : Z) (p tail : string) :
  0 <= id < 100 -> size p + size tail < 2 ^ 30 ->
  size (frame tag id p +:+ tail) < 2 ^ 31 - 1.
Proof.
  intros Hid Hs. rewrite size_app, size_frame.
  pose proof (size_to_string id ltac:(apply in_int_true; lia)). lia.
Qed.

(** X3: a get whose reply goes on past the terminator stores the
    payload.  When the text received is the frame of the expected tag and
    index followed by at least one more character, [GetSwitchUSB] puts
    the payload (the text between ':' and ';') into the state cache,
    [GetNameUSB] into the name cache, and [GetLimitsUSB] and
    [SetLimitsUSB] put its reading as a float into [Limit]; the set-limit
    command stores what the device returned, not the value it asked for. *)
Theorem reply_past_terminator_is_stored
    (stof : string -> res spec_float) (d : driver) (id : Z) (p t : string) (c : ascii)
    (x y : spec_float) (rest : list read_result) :
  0 <= id < 100 ->
  sfind ";" p = None ->
  size p + size t < 2 ^ 30 ->
  (rd d = ReadOk (frame "G" id p +:+ t +:+ String c EmptyString) :: rest ->
   GetSwitchUSB id d
   = Done tt (set_state (<[Z.to_nat id := p]> (state d))
                (set_rd rest (sent (trace (packet2 "G" id)) (packet2 "G" id) d))))
  /\ (rd d = ReadOk (frame "n" id p +:+ t +:+ String c EmptyString) :: rest ->
      GetNameUSB id d
      = Done tt (set_name_switch (<[Z.to_nat id := p]> (name_switch d))
                   (set_rd rest (sent (trace (packet2 "n" id)) (packet2 "n" id) d))))
  /\ (id < 6 ->
      stof p = Value x ->
      rd d = ReadOk (frame "l" id p +:+ t +:+ String c EmptyString) :: rest ->
      GetLimitsUSB stof id d
      = Done tt (set_Limit (<[Z.to_nat id := x]> (Limit d))
                   (set_rd rest (sent (trace (packet2 "l" id)) (packet2 "l" id) d)))
      /\ SetLimitsUSB stof id y d
         = Done tt (set_Limit (<[Z.to_nat id := x]> (Limit d))
                      (set_rd rest
                         (sent (trace_int (packet3 "L" id (to_string_double y)))
                               (packet3 "L" id (to_string_double y)) d)))).
Proof.
  intros Hid Hp Hs.
  assert (Hi : - 2 ^ 15 <= id < 2 ^ 15) by lia.
  split; [|split].
  - intros Hrd.
    apply (GetSwitchUSB_followed id "G" p t c rest Hi eq_refl eq_refl eq_refl Hp
             (followed_size _ _ _ _ _ Hid Hs) d eq_refl Hid Hrd).
  - intros Hrd.
    apply (GetNameUSB_followed id "n" p t c rest Hi eq_refl eq_refl eq_refl Hp
             (followed_size _ _ _ _ _ Hid Hs) d eq_refl Hid Hrd).
  - intros H6 Hx Hrd.
    pose proof (fun d0 Hrd0 =>
                  limits_reply_followed id "l" p t c rest Hi eq_refl eq_refl eq_refl Hp
                    (followed_size _ _ _ _ _ Hid Hs) stof x d0 eq_refl
                    ltac:(lia) Hx Hrd0) as H.
    split.
    + unfold GetLimitsUSB. rewrite (bind_Done _ _ _ _ _ (Transmit_sent _ _ _)).
      rewrite H by exact Hrd. reflexivity.
    + unfold SetLimitsUSB, SetLimitsUSB_request.
      rewrite (bind_Done _ _ d _ tt (bind_Done _ _ _ _ _ (Transmit_float_sent _ _ _ _))).
      rewrite H by exact Hrd. reflexivity.
Qed.

Lemma reply_past_terminator_witness :
  exists d',
    GetSwitchUSB 3 (pending ("#G3:1;" +:+ String LF EmptyString)) = Done tt d'
    /\ state d' !! 3%nat = Some "1"%string.
Proof.
  destruct (reply_past_terminator_is_stored stof_fixed
              (pending ("#G3:1;" +:+ String LF EmptyString)) 3 "1" EmptyString LF
              (S754_zero false) (S754_zero false) [])
    as (H & _); [lia | reflexivity | vm_compute; reflexivity |].
  eexists. split; [apply H; reflexivity | reflexivity].
Defined.

(** X4: a get whose reply ends at its terminator stores nothing.  When
    the text received is exactly the frame of the expected tag and index,
    [GetSwitchUSB], [GetNameUSB], [GetLimitsUSB] and [SetLimitsUSB]
    consume the reply and return with the state cache, the name cache
    and [Limit] as they were: the terminator has been erased, with the
    last character, before it is looked for. *)
Theorem reply_ending_at_terminator_is_not_stored
    (stof : string -> res spec_float) (d : driver) (id : Z) (p : string)
    (y : spec_float) (rest : list read_result) :
  0 <= id < 100 ->
  sfind ";" p = None ->
  size p < 2 ^ 30 ->
  (rd d = ReadOk (frame "G" id p) :: rest ->
   GetSwitchUSB id d
   = Done tt (set_rd rest (sent (trace (packet2 "G" id)) (packet2 "G" id) d)))
  /\ (rd d = ReadOk (frame "n" id p) :: rest ->
      GetNameUSB id d
      = Done tt (set_rd rest (sent (trace (packet2 "n" id)) (packet2 "n" id) d)))
  /\ (rd d = ReadOk (frame "l" id p) :: rest ->
      GetLimitsUSB stof id d
      = Done tt (set_rd rest (sent (trace (packet2 "l" id)) (packet2 "l" id) d))
      /\ SetLimitsUSB stof id y d
         = Done tt (set_rd rest
                      (sent (trace_int (packet3 "L" id (to_string_double y)))
                            (packet3 "L" id (to_string_double y)) d))).
Proof.
  intros Hid Hp Hs.
  assert (Hi : - 2 ^ 15 <= id < 2 ^ 15) by lia.
  split; [|split].
  - intros Hrd.
    apply (GetSwitchUSB_ended id "G" p rest Hi eq_refl eq_refl eq_refl Hp
             (ended_size _ _ _ Hid Hs) d eq_refl Hrd).
  - intros Hrd.
    apply (GetNameUSB_ended id "n" p rest Hi eq_refl eq_refl eq_refl Hp
             (ended_size _ _ _ Hid Hs) d eq_refl Hrd).
  - intros Hrd.
    pose proof (fun d0 Hrd0 =>
                  limits_reply_ended id "l" p rest Hi eq_refl eq_refl eq_refl Hp
                    (ended_size _ _ _ Hid Hs) stof d0 eq_refl Hrd0) as H.
    split.
    + unfold GetLimitsUSB. rewrite (bind_Done _ _ _ _ _ (Transmit_sent _ _ _)).
      rewrite H by exact Hrd. reflexivity.
    + unfold SetLimitsUSB, SetLimitsUSB_request.
      rewrite (bind_Done _ _ d _ tt (bind_Done _ _ _ _ _ (Transmit_float_sent _ _ _ _))).
      rewrite H by exact Hrd. reflexivity.
Qed.

Lemma reply_ending_at_terminator_witness :
  exists d',
    GetSwitchUSB 3 (pending "#G3:1;") = Done tt d'
    /\ state d' !! 3%nat = Some "0"%string.
Proof.
  destruct (reply_ending_at_terminator_is_not_stored stof_fixed
              (pending "#G3:1;") 3 "1" (S754_zero false) [])
    as (H & _); [lia | reflexivity | vm_compute; reflexivity |].
  eexists. split; [apply H; reflexivity | reflexivity].
Defined.

(** X5: a set-name stores the name the device returns.  Whatever name
    was asked for, when the reply is the frame of tag 'n' and of the
    index, followed by any text, [SetNameUSB] puts the payload of the
    reply into the name cache; the name asked for only appears in the
    packet written.  The state cache is not touched. *)
Theorem SetNameUSB_stores_returned_name
    (d : driver) (id : Z) (name p tail : string) (rest : list read_result) :
  0 <= id < 100 ->
  sfind ";" p = None ->
  size p + size tail < 2 ^ 30 ->
  rd d = ReadOk (frame "n" id p +:+ tail) :: rest ->
  exists d',
    SetNameUSB id name d = Done tt d'
    /\ name_switch d' = <[Z.to_nat id := p]> (name_switch d)
    /\ written d' = written d ++ [packet3 "N" id name]
    /\ rd d' = rest
    /\ state d' = state d.
Proof.
  intros Hid Hp Hs Hrd.
  assert (Hi : - 2 ^ 15 <= id < 2 ^ 15) by lia.
  eexists. unfold SetNameUSB, SetNameUSB_request.
  rewrite (bind_Done _ _ d _ tt (bind_Done _ _ _ _ _ (Transmit_string_sent _ _ _ _))).
  rewrite (SetNameUSB_reply_open id "n" p tail rest Hi eq_refl eq_refl eq_refl Hp
             (open_size _ _ _ _ Hid Hs)
             (sent (trace (packet3 "N" id name)) (packet3 "N" id name) d) eq_refl Hid Hrd).
  repeat split.
Qed.

Lemma SetNameUSB_stores_returned_name_witness :
  exists d',
    SetNameUSB 0 "cam" (set_rd [ReadOk (frame "n" 0 "CAM")] fresh) = Done tt d'
    /\ name_switch d' !! 0%nat = Some "CAM"%string.
Proof.
  destruct (SetNameUSB_stores_returned_name
              (set_rd [ReadOk (frame "n" 0 "CAM")] fresh) 0 "cam" "CAM" EmptyString [])
    as (d' & E & N & _); [lia | reflexivity | vm_compute; reflexivity | reflexivity |].
  exists d'. split; [exact E|]. rewrite N. reflexivity.
Defined.

Lemma SetReverseUSB_open
    (d : driver) (id v n : Z) (tail : string) (rest : list read_result) :
  0 <= id < 5 ->
  in_int n = true ->
  size tail < 2 ^ 29 ->
  rd d = ReadOk (frame "r" id (to_string n) +:+ tail) :: rest ->
  GetReverseUSB id d
  = Done tt (set_Reverse (<[Z.to_nat id := negb (n =? 0)]> (Reverse d))
               (set_rd rest (sent (trace (packet2 "r" id)) (packet2 "r" id) d)))
  /\ SetReverseUSB id v d
     = Done tt (set_Reverse (<[Z.to_nat id := negb (n =? 0)]> (Reverse d))
                  (set_rd rest (sent (trace_int (packet3 "R" id (to_string v)))
                                     (packet3 "R" id (to_string v)) d))).
Proof.
  intros Hid Hn Hs Hrd.
  assert (Hi : - 2 ^ 15 <= id < 2 ^ 15) by lia.
  assert (Hsz : size (frame "r" id (to_string n) +:+ tail) < 2 ^ 31 - 1).
  { apply open_size; [lia|]. pose proof (size_to_string n Hn). lia. }
  pose proof (fun d0 Hrd0 =>
                reverse_reply_open id "r" (to_string n) tail rest Hi eq_refl eq_refl eq_refl
                  (sfind_to_string ";" n eq_refl eq_refl) Hsz n d0 eq_refl Hid Hn eq_refl
                  Hrd0) as H.
  split.
  - unfold GetReverseUSB. rewrite (bind_Done _ _ _ _ _ (Transmit_sent _ _ _)).
    rewrite H by exact Hrd. reflexivity.
  - unfold SetReverseUSB, SetReverseUSB_request.
    rewrite (bind_Done _ _ d _ tt (bind_Done _ _ _ _ _ (Transmit_int_sent _ _ _ _))).
    rewrite H by exact Hrd. reflexivity.
Qed.

(** X6: the polarity exchanges store the flag the device returns.  When
    the reply is the frame of tag 'r' and of the class index with the
    number [n] as payload, followed by any text, [GetReverseUSB] and
    [SetReverseUSB] set [Reverse] of the class to [n <> 0]; the set
    command does so whatever value it asked for. *)
Theorem polarity_reply_is_stored
    (d : driver) (id v n : Z) (tail : string) (rest : list read_result) :
  0 <= id < 5 ->
  in_int n = true ->
  size tail < 2 ^ 29 ->
  rd d = ReadOk (frame "r" id (to_string n) +:+ tail) :: rest ->
  GetReverseUSB id d
  = Done tt (set_Reverse (<[Z.to_nat id := negb (n =? 0)]> (Reverse d))
               (set_rd rest (sent (trace (packet2 "r" id)) (packet2 "r" id) d)))
  /\ SetReverseUSB id v d
     = Done tt (set_Reverse (<[Z.to_nat id := negb (n =? 0)]> (Reverse d))
                  (set_rd rest (sent (trace_int (packet3 "R" id (to_string v)))
                                     (packet3 "R" id (to_string v)) d))).
Proof. apply SetReverseUSB_open. Qed.

Lemma polarity_reply_witness :
  exists d',
    SetReverseUSB 1 0 (set_rd [ReadOk (frame "r" 1 (to_string 1))] fresh) = Done tt d'
    /\ Reverse d' !! 1%nat = Some true.
Proof.
  destruct (polarity_reply_is_stored (set_rd [ReadOk (frame "r" 1 (to_string 1))] fresh)
              1 0 1 EmptyString [])
    as (_ & H); [lia | reflexivity | vm_compute; reflexivity | reflexivity |].
  eexists. split; [exact H | reflexivity].
Defined.

(** X7: a polarity switch of the client reports whether the device
    agrees.  For each of the five polarity vectors, the handler commands
    the class of the vector with R and the state of element 0, stores
    the flag [n <> 0] of the reply, and sets the vector to OK when that
    flag equals the state asked for and to ALERT otherwise. *)
Theorem polarity_switch_reports_agreement
    (d : driver) (enabled : bool) (k n : Z) (ev : switch_event) (prop tail : string)
    (rest : list read_result) :
  In (k, ev, prop) (polarity_vectors enabled) ->
  length (Reverse d) = 5%nat ->
  in_int n = true ->
  size tail < 2 ^ 29 ->
  rd d = ReadOk (frame "r" k (to_string n) +:+ tail) :: rest ->
  exists d',
    ISNewSwitch ev d = Done true d'
    /\ written d' = written d ++ [packet3 "R" k (to_string (Z.b2z enabled))]
    /\ Reverse d' = <[Z.to_nat k := negb (n =? 0)]> (Reverse d)
    /\ pstate d' !! prop
       = Some (if Bool.eqb (negb (n =? 0)) enabled then IPS_OK else IPS_ALERT).
Proof.
  intros Hin Hlen Hn Hs Hrd.
  assert (Hk : 0 <= k < 5 /\ ISNewSwitch ev = reverse_switch prop k enabled).
  { cbn in Hin.
    repeat (destruct Hin as [[= <- <- <-]|Hin]; [split; [lia | reflexivity]|]).
    contradiction. }
  destruct Hk as [Hk ->].
  destruct (SetReverseUSB_open d k (Z.b2z enabled) n tail rest Hk Hn Hs Hrd)
    as [_ Hset].
  unfold reverse_switch. rewrite (bind_Done _ _ _ _ _ Hset).
  unfold Reverse_get, in_bounds.
  destruct (Z.leb_spec 0 k); [|lia]. destruct (Z.ltb_spec k 5); [|lia].
  cbn [andb]. cbv [bind setState modify ret].
  cbn [Reverse set_Reverse set_rd sent set_log set_wr set_written pstate set_pstate written].
  rewrite list_lookup_insert_eq by lia.
  eexists. split; [reflexivity|].
  cbn [Reverse set_Reverse set_rd sent set_log set_wr set_written pstate set_pstate written].
  split; [reflexivity|]. split; [reflexivity|].
  rewrite lookup_insert_eq. unfold ok_or_alert. reflexivity.
Qed.

Lemma polarity_switch_witness :
  exists d',
    ISNewSwitch (ReversePWMSP true) (set_rd [ReadOk (frame "r" 1 (to_string 0))] fresh)
    = Done true d'
    /\ pstate d' !! "ReversePWMSP"%string = Some IPS_ALERT.
Proof.
  destruct (polarity_switch_reports_agreement
              (set_rd [ReadOk (frame "r" 1 (to_string 0))] fresh) true 1 0
              (ReversePWMSP true) "ReversePWMSP" EmptyString [])
    as (d' & E & _ & _ & P);
    [right; left; reflexivity | reflexivity | reflexivity | vm_compute; reflexivity
    | reflexivity |].
  exists d'. split; [exact E | exact P].
Defined.
(** ** Topology discovery *)

(** Two runs of [GetNum] on the same outcome of the read take the same
    path: both throw the same exception, or both return, having consumed
    the read, with the same counts or with the counts they started from. *)
Lemma GetNum_aligned (r : read_result) (d1 d2 : driver) (rest1 rest2 : list read_result) :
  rd d1 = r :: rest1 -> rd d2 = r :: rest2 ->
  match GetNum d1, GetNum d2 with
  | Done _ a, Done _ b =>
      rd a = rest1 /\ rd b = rest2
      /\ ((same_counts d1 a /\ same_counts d2 b) \/ same_counts a b)
  | Throw e _, Throw e' _ => e = e'
  | _, _ => False
  end.
Proof.
  intros H1 H2. unfold GetNum.
  rewrite !(bind_Done _ _ _ _ _ (Transmit_sent _ _ _)).
  unfold ReceiveTerminated, tty_read_section.
  cbv beta iota delta [bind lift modify LOG ret].
  cbn [rd sent set_log set_wr set_written]. rewrite H1, H2.
  destruct r as [a|msg].
  - repeat (match goal with
            | |- context [match ?x with Value _ => _ | Raise _ => _ end] =>
                lazymatch x with
                | context [match _ with _ => _ end] => fail
                | _ => destruct x
                end
            | |- context [if ?c then _ else _] =>
                lazymatch c with
                | context [match _ with _ => _ end] => fail
                | _ => destruct c
                end
            end; cbv beta iota); try reflexivity;
      cbn [rd set_rd set_log set_numDC set_numPWM set_numRelay set_numOn set_numUSB];
      (split; [reflexivity|]; split; [reflexivity|]);
      first [ right; repeat split; reflexivity | left; split; repeat split; reflexivity ].
  - cbn. split; [reflexivity|]. split; [reflexivity|]. left. split; repeat split.
Qed.

Lemma reply_size (tag : ascii) (h p tail : string) :
  size (reply tag h p tail) = 4 + size h + size p + size tail.
Proof.
  unfold reply. repeat (rewrite size_app || rewrite size_String). lia.
Qed.

(** X8: topology discovery reads the comma list of the reply from its
    tail.  On a reply of tag 'Z' whose payload is the list
    [a,b,c,d,e] of five ints, followed by any text, [GetNum] returns
    with numDC = a, numPWM = b, numRelay = c, numOn = d and numUSB = e,
    whatever the counts were before; hence [e] is the USB count and [d]
    the bank count, and the sweep of the next poll cycle covers
    (a+b+d)*2 + (a+b+c+d+e) + 4 indices.  Caches, flags and limits stay
    as they were. *)
Theorem GetNum_reads_the_counts
    (d0 : driver) (a b c d e : Z) (h tail : string) (rest : list read_result) :
  in_int a = true -> in_int b = true -> in_int c = true -> in_int d = true ->
  in_int e = true ->
  sfind ":" h = None -> sfind ";" h = None ->
  size h + size tail < 2 ^ 30 ->
  rd d0 = ReadOk (reply "Z" h (counts_text a b c d e) tail) :: rest ->
  exists d',
    GetNum d0 = Done tt d'
    /\ numDC d' = a /\ numPWM d' = b /\ numRelay d' = c /\ numOn d' = d /\ numUSB d' = e
    /\ numSwitch d' = (a + b + d) * 2 + (a + b + c + d + e) + 4
    /\ state d' = state d0 /\ name_switch d' = name_switch d0
    /\ Reverse d' = Reverse d0 /\ Limit d' = Limit d0
    /\ written d' = written d0 ++ [packet2 "Z" 0]
    /\ rd d' = rest.
Proof.
  intros Ha Hb Hc Hd He Hhc Hhs Hs Hrd.
  eexists. split.
  - apply (GetNum_decodes a b c d e h tail rest); try assumption.
    rewrite reply_size. pose proof (size_counts_text a b c d e Ha Hb Hc Hd He). lia.
  - unfold numSwitch, total. cbn. repeat split; lia.
Qed.

Lemma GetNum_reads_the_counts_witness :
  exists d',
    GetNum (set_rd [ReadOk "#Z:7,3,1,1,7;"] fresh) = Done tt d'
    /\ numDC d' = 7 /\ numOn d' = 1 /\ numUSB d' = 7 /\ numSwitch d' = 45.
Proof.
  destruct (GetNum_reads_the_counts (set_rd [ReadOk "#Z:7,3,1,1,7;"] fresh)
              7 3 1 1 7 EmptyString EmptyString [])
    as (d' & E & H1 & _ & _ & H4 & H5 & H6 & _);
    try reflexivity.
  exists d'. repeat split; assumption.
Defined.

(** X9: topology discovery is idempotent.  When a run of [GetNum] has
    returned and the next read has the same outcome, a second run
    returns as well and leaves the five counts as the first run left
    them, whatever the text of the reply is. *)
Theorem GetNum_is_idempotent
    (d d1 : driver) (r : read_result) (rest : list read_result) :
  rd d = r :: r :: rest ->
  GetNum d = Done tt d1 ->
  exists d2,
    GetNum d1 = Done tt d2
    /\ numDC d2 = numDC d1 /\ numPWM d2 = numPWM d1 /\ numRelay d2 = numRelay d1
    /\ numOn d2 = numOn d1 /\ numUSB d2 = numUSB d1.
Proof.
  intros Hrd H1.
  pose proof (GetNum_aligned r d d (r :: rest) (r :: rest) Hrd Hrd) as Hself.
  rewrite H1 in Hself. destruct Hself as (Hrd1 & _ & _).
  pose proof (GetNum_aligned r d d1 (r :: rest) rest Hrd Hrd1) as H.
  rewrite H1 in H.
  destruct (GetNum d1) as [[] d2|e d2|]; [|contradiction|contradiction].
  exists d2. split; [reflexivity|].
  destruct H as (_ & _ & [[_ H]|H]); exact H.
Qed.

Lemma GetNum_is_idempotent_witness :
  exists d1 d2,
    GetNum (set_rd [ReadOk "#Z:7,3,1,1,7;"; ReadOk "#Z:7,3,1,1,7;"] fresh) = Done tt d1
    /\ GetNum d1 = Done tt d2
    /\ numDC d2 = 7 /\ numUSB d2 = 7.
Proof.
  pose proof (GetNum_decodes 7 3 1 1 7 EmptyString EmptyString [ReadOk "#Z:7,3,1,1,7;"]
                (set_rd [ReadOk "#Z:7,3,1,1,7;"; ReadOk "#Z:7,3,1,1,7;"] fresh)
                eq_refl eq_refl eq_refl eq_refl eq_refl eq_refl eq_refl eq_refl eq_refl)
    as E.
  destruct (GetNum_is_idempotent
              (set_rd [ReadOk "#Z:7,3,1,1,7;"; ReadOk "#Z:7,3,1,1,7;"] fresh) _
              (ReadOk "#Z:7,3,1,1,7;") [] eq_refl E)
    as (d2 & E2 & K1 & _ & _ & _ & K5).
  eexists. exists d2. split; [exact E|]. split; [exact E2|]. split; [exact K1 | exact K5].
Defined.
(** ** WiFi *)

Lemma wifi_size (tag : ascii) (h p tail : string) :
  size h + size p + size tail < 2 ^ 30 ->
  size (String "#" (String tag h +:+ String ":" (p +:+ String ";" tail))) < 2 ^ 31.
Proof. intros H. change (size (reply tag h p tail) < 2 ^ 31). rewrite reply_size. lia. Qed.

(** X10: the WiFi exchanges store the text the device returns.  On a
    reply of tag 'i' followed by any text, [GetIP] puts the payload into
    [IP] and into element 0 of the WiFi vector; on a reply of tag 'f',
    [GetSSID] and [SetSSID] put the payload into [SSID] and into
    element 1.  [SetSSID] stores the name returned, whatever name it
    asked for.  The message logged last carries the stored text. *)
Theorem wifi_replies_are_stored
    (d : driver) (h p tail ssid : string) (rest : list read_result) :
  sfind ":" h = None -> sfind ";" h = None -> sfind ";" p = None ->
  size h + size p + size tail < 2 ^ 30 ->
  (rd d = ReadOk (reply "i" h p tail) :: rest ->
   exists d',
     GetIP d = Done tt d'
     /\ IP d' = p /\ SSID d' = SSID d
     /\ widgets d' !! ("WifiTP"%string, 0) = Some (WText p)
     /\ written d' = written d ++ [packet2 "I" 0]
     /\ last (log d') = Some (INFO, "IP Address returned by the device: " +:+ p))
  /\ (rd d = ReadOk (reply "f" h p tail) :: rest ->
      (exists d',
         GetSSID d = Done tt d'
         /\ SSID d' = p /\ IP d' = IP d
         /\ widgets d' !! ("WifiTP"%string, 1) = Some (WText p)
         /\ written d' = written d ++ [packet2 "f" 0]
         /\ last (log d') = Some (INFO, "SSID returned by the device: " +:+ p))
      /\ (exists d',
            SetSSID ssid d = Done tt d'
            /\ SSID d' = p /\ IP d' = IP d
            /\ widgets d' !! ("WifiTP"%string, 1) = Some (WText p)
            /\ written d' = written d ++ [packet3 "F" 0 ssid]
            /\ last (log d') = Some (INFO, "SSID returned by the device: " +:+ p))).
Proof.
  intros Hhc Hhs Hp Hs.
  split; [intros Hrd | intros Hrd; split]; eexists.
  - unfold GetIP. rewrite (bind_Done _ _ _ _ _ (Transmit_sent _ _ _)).
    rewrite (wifi_reply_stores "i" h p tail rest eq_refl eq_refl eq_refl Hhc Hhs Hp (wifi_size _ _ _ _ Hs)
               set_IP 0 _ (sent (trace (packet2 "I" 0)) (packet2 "I" 0) d) Hrd).
    split; [reflexivity|].
    cbn. rewrite last_snoc. repeat split. apply lookup_insert_eq.
  - unfold GetSSID. rewrite (bind_Done _ _ _ _ _ (Transmit_sent _ _ _)).
    rewrite (wifi_reply_stores "f" h p tail rest eq_refl eq_refl eq_refl Hhc Hhs Hp (wifi_size _ _ _ _ Hs)
               set_SSID 1 _ (sent (trace (packet2 "f" 0)) (packet2 "f" 0) d) Hrd).
    split; [reflexivity|].
    cbn. rewrite last_snoc. repeat split. apply lookup_insert_eq.
  - unfold SetSSID. rewrite (bind_Done _ _ _ _ _ (Transmit_string_sent _ _ _ _)).
    rewrite (wifi_reply_stores "f" h p tail rest eq_refl eq_refl eq_refl Hhc Hhs Hp (wifi_size _ _ _ _ Hs)
               set_SSID 1 _ (sent (trace (packet3 "F" 0 ssid)) (packet3 "F" 0 ssid) d) Hrd).
    split; [reflexivity|].
    cbn. rewrite last_snoc. repeat split. apply lookup_insert_eq.
Qed.

Lemma wifi_replies_witness :
  exists d',
    SetSSID "home" (set_rd [ReadOk "#f:Home;"] fresh) = Done tt d'
    /\ SSID d' = "Home"%string.
Proof.
  destruct (wifi_replies_are_stored (set_rd [ReadOk "#f:Home;"] fresh)
              EmptyString "Home" EmptyString "home" [])
    as (_ & H); try reflexivity.
  destruct (H eq_refl) as (_ & d' & E & S & _).
  exists d'. split; [exact E | exact S].
Defined.
(** ** Failed reads *)

Lemma ReceiveTerminated_failed (tm : ascii) (msg : string) (rest : list read_result)
    (d : driver) :
  rd d = ReadFail msg :: rest ->
  ReceiveTerminated tm d = Done EmptyString (read_failed msg rest d).
Proof.
  intros Hrd. unfold ReceiveTerminated, bind, tty_read_section. rewrite Hrd. reflexivity.
Qed.

Ltac failed_read Hrd :=
  erewrite bind_Done by (apply ReceiveTerminated_failed; exact Hrd); reflexivity.

(** X11: an exchange without an index returns after a failed read.
    [GetNum], [GetIP], [GetSSID] and [SetSSID] take the empty string that
    [ReceiveTerminated] hands back for a reply without a tag: they
    return normally, with the counts, [IP] and [SSID] as they were; the
    only traces are the packet written and the failure in the log. *)
Theorem failed_read_without_index_returns
    (d : driver) (msg ssid : string) (rest : list read_result) :
  rd d = ReadFail msg :: rest ->
  GetNum d = Done tt (read_failed msg rest (sent (trace (packet2 "Z" 0)) (packet2 "Z" 0) d))
  /\ GetIP d = Done tt (read_failed msg rest (sent (trace (packet2 "I" 0)) (packet2 "I" 0) d))
  /\ GetSSID d
     = Done tt (read_failed msg rest (sent (trace (packet2 "f" 0)) (packet2 "f" 0) d))
  /\ SetSSID ssid d
     = Done tt (read_failed msg rest
                  (sent (trace (packet3 "F" 0 ssid)) (packet3 "F" 0 ssid) d)).
Proof.
  intros Hrd. repeat split.
  - unfold GetNum. rewrite (bind_Done _ _ _ _ _ (Transmit_sent _ _ _)). failed_read Hrd.
  - unfold GetIP, wifi_reply. rewrite (bind_Done _ _ _ _ _ (Transmit_sent _ _ _)).
    failed_read Hrd.
  - unfold GetSSID, wifi_reply. rewrite (bind_Done _ _ _ _ _ (Transmit_sent _ _ _)).
    failed_read Hrd.
  - unfold SetSSID, wifi_reply. rewrite (bind_Done _ _ _ _ _ (Transmit_string_sent _ _ _ _)).
    failed_read Hrd.
Qed.

Lemma failed_read_without_index_witness :
  exists d',
    GetNum (set_rd [ReadFail "Timeout error"] stock) = Done tt d'
    /\ numDC d' = 7 /\ rd d' = [].
Proof.
  destruct (failed_read_without_index_returns (set_rd [ReadFail "Timeout error"] stock)
              "Timeout error" EmptyString [] eq_refl) as (H & _).
  eexists. split; [exact H|]. split; reflexivity.
Defined.

(** X12: a get throws after a failed read.  [GetSwitchUSB],
    [GetNameUSB], [GetLimitsUSB] and [GetReverseUSB] end with the
    exception [out_of_range] ([erase], or [substr] for the polarity, on
    the empty string); the caches, the limits and the flags are as they
    were, the request is on the line and the failure is in the log. *)
Theorem failed_read_makes_get_throw
    (stof : string -> res spec_float) (d : driver) (id : Z) (msg : string)
    (rest : list read_result) :
  rd d = ReadFail msg :: rest ->
  GetSwitchUSB id d
  = Throw out_of_range
      (read_failed msg rest (sent (trace (packet2 "G" id)) (packet2 "G" id) d))
  /\ GetNameUSB id d
     = Throw out_of_range
         (read_failed msg rest (sent (trace (packet2 "n" id)) (packet2 "n" id) d))
  /\ GetLimitsUSB stof id d
     = Throw out_of_range
         (read_failed msg rest (sent (trace (packet2 "l" id)) (packet2 "l" id) d))
  /\ GetReverseUSB id d
     = Throw out_of_range
         (read_failed msg rest (sent (trace (packet2 "r" id)) (packet2 "r" id) d)).
Proof.
  intros Hrd. repeat split.
  - unfold GetSwitchUSB. rewrite (bind_Done _ _ _ _ _ (Transmit_sent _ _ _)). failed_read Hrd.
  - unfold GetNameUSB. rewrite (bind_Done _ _ _ _ _ (Transmit_sent _ _ _)). failed_read Hrd.
  - unfold GetLimitsUSB, limits_reply. rewrite (bind_Done _ _ _ _ _ (Transmit_sent _ _ _)).
    failed_read Hrd.
  - unfold GetReverseUSB, reverse_reply. rewrite (bind_Done _ _ _ _ _ (Transmit_sent _ _ _)).
    failed_read Hrd.
Qed.

Lemma failed_read_makes_get_throw_witness :
  exists d',
    GetNameUSB 2 (set_rd [ReadFail "Timeout error"] stock) = Throw out_of_range d'
    /\ name_switch d' = name_switch stock.
Proof.
  destruct (failed_read_makes_get_throw stof_fixed (set_rd [ReadFail "Timeout error"] stock)
              2 "Timeout error" [] eq_refl) as (_ & H & _).
  eexists. split; [exact H | reflexivity].
Defined.

(** X13: a set throws after a failed read, and a set-switch leaves the
    requested value in the cache.  [SetSwitchUSB] and
    [SetSwitchValueUSB] end with [out_of_range] while the cache entry
    holds the value written ahead of the reply: it is neither confirmed
    nor rolled back.  [SetNameUSB], [SetReverseUSB] and [SetLimitsUSB]
    end with the same exception and have stored nothing. *)
Theorem failed_read_makes_set_throw
    (stof : string -> res spec_float) (d : driver) (id v n : Z) (x y : spec_float)
    (name msg : string) (rest : list read_result) :
  0 <= id < 100 ->
  double_to_int x = Some n ->
  rd d = ReadFail msg :: rest ->
  SetSwitchUSB id v d
  = Throw out_of_range
      (read_failed msg rest
         (set_state (<[Z.to_nat id := to_string v]> (state d))
            (sent (trace_int (packet3 "S" id (to_string v)))
                  (packet3 "S" id (to_string v)) d)))
  /\ SetSwitchValueUSB id x d
     = Throw out_of_range
         (read_failed msg rest
            (set_state (<[Z.to_nat id := to_string_double x]> (state d))
               (sent (trace_int (packet3 "S" id (to_string n)))
                     (packet3 "S" id (to_string n)) d)))
  /\ SetNameUSB id name d
     = Throw out_of_range
         (set_log (log d ++ trace (packet3 "N" id name) ++ write_log d
                   ++ [(ERROR, "Serial read error: " +:+ msg); (INFO, EmptyString)])
            (set_rd rest (sent (trace (packet3 "N" id name)) (packet3 "N" id name) d)))
  /\ SetReverseUSB id v d
     = Throw out_of_range
         (read_failed msg rest
            (sent (trace_int (packet3 "R" id (to_string v)))
                  (packet3 "R" id (to_string v)) d))
  /\ SetLimitsUSB stof id y d
     = Throw out_of_range
         (read_failed msg rest
            (sent (trace_int (packet3 "L" id (to_string_double y)))
                  (packet3 "L" id (to_string_double y)) d)).
Proof.
  intros Hid Hx Hrd. repeat split.
  - unfold SetSwitchUSB.
    rewrite (bind_Done _ _ _ _ _ (SetSwitchUSB_request_run id v d Hid)).
    unfold SetSwitchUSB_reply. failed_read Hrd.
  - unfold SetSwitchValueUSB.
    rewrite (bind_Done _ _ _ _ _ (SetSwitchValueUSB_request_run id n x d Hid Hx)).
    unfold SetSwitchValueUSB_reply. failed_read Hrd.
  - unfold SetNameUSB, SetNameUSB_request.
    rewrite (bind_Done _ _ d _ tt (bind_Done _ _ _ _ _ (Transmit_string_sent _ _ _ _))).
    unfold SetNameUSB_reply.
    erewrite bind_Done by (apply ReceiveTerminated_failed; exact Hrd).
    cbv [LOG modify bind lift read_failed]. cbn. rewrite <- !app_assoc. reflexivity.
  - unfold SetReverseUSB, SetReverseUSB_request.
    rewrite (bind_Done _ _ d _ tt (bind_Done _ _ _ _ _ (Transmit_int_sent _ _ _ _))).
    unfold reverse_reply. failed_read Hrd.
  - unfold SetLimitsUSB, SetLimitsUSB_request.
    rewrite (bind_Done _ _ d _ tt (bind_Done _ _ _ _ _ (Transmit_float_sent _ _ _ _))).
    unfold limits_reply. failed_read Hrd.
Qed.

Lemma failed_read_makes_set_throw_witness :
  exists d',
    SetSwitchUSB 3 1 (set_rd [ReadFail "Timeout error"] (pending "")) = Throw out_of_range d'
    /\ state (pending "") !! 3%nat = Some "0"%string
    /\ state d' !! 3%nat = Some "1"%string.
Proof.
  destruct (failed_read_makes_set_throw stof_fixed
              (set_rd [ReadFail "Timeout error"] (pending "")) 3 1 0
              (S754_zero false) (S754_zero false) EmptyString "Timeout error" []
              ltac:(lia) eq_refl eq_refl) as (H & _).
  eexists. split; [exact H|]. split; reflexivity.
Defined.
(** ** Error replies *)

Lemma ReceiveTerminated_error (tm : ascii) (text : string) (rest : list read_result)
    (d : driver) :
  size text < 2 ^ 30 ->
  rd d = ReadOk (String "#" (String "E" text)) :: rest ->
  ReceiveTerminated tm d = Done (String "#" (String "E" text)) (set_rd rest d).
Proof.
  intros Hs Hrd. apply ReceiveTerminated_hash; [exact Hrd|]. rewrite size_String. lia.
Qed.

Ltac error_reply Hs Hrd :=
  erewrite bind_Done by (apply ReceiveTerminated_error; [exact Hs | exact Hrd]);
  reflexivity.

(** X14: an exchange without an index reports an error reply.  On a
    reply that starts with "#E", whatever follows, [GetNum], [GetIP],
    [GetSSID] and [SetSSID] log the text after the '#' at INFO level,
    behind the words "The power box returned error: ", and return with
    the counts, [IP] and [SSID] as they were. *)
Theorem error_reply_without_index_is_logged
    (d : driver) (text ssid : string) (rest : list read_result) :
  size text < 2 ^ 30 ->
  rd d = ReadOk (String "#" (String "E" text)) :: rest ->
  GetNum d
  = Done tt (set_log (log d ++ trace (packet2 "Z" 0) ++ write_log d
                      ++ [(INFO, error_msg (String "E" text))])
               (set_rd rest (sent (trace (packet2 "Z" 0)) (packet2 "Z" 0) d)))
  /\ GetIP d
     = Done tt (set_log (log d ++ trace (packet2 "I" 0) ++ write_log d
                         ++ [(INFO, error_msg (String "E" text))])
                  (set_rd rest (sent (trace (packet2 "I" 0)) (packet2 "I" 0) d)))
  /\ GetSSID d
     = Done tt (set_log (log d ++ trace (packet2 "f" 0) ++ write_log d
                         ++ [(INFO, error_msg (String "E" text))])
                  (set_rd rest (sent (trace (packet2 "f" 0)) (packet2 "f" 0) d)))
  /\ SetSSID ssid d
     = Done tt (set_log (log d ++ trace (packet3 "F" 0 ssid) ++ write_log d
                         ++ [(INFO, error_msg (String "E" text))])
                  (set_rd rest (sent (trace (packet3 "F" 0 ssid)) (packet3 "F" 0 ssid) d))).
Proof.
  intros Hs Hrd. repeat split.
  - unfold GetNum. rewrite (bind_Done _ _ _ _ _ (Transmit_sent _ _ _)).
    erewrite bind_Done by (apply ReceiveTerminated_error; [exact Hs | exact Hrd]).
    rewrite (bind_Done _ _ _ _ _ (lift_Value _ _ _ (erase_first _ _))).
    cbn [front]. change (Ascii.eqb "E" "E") with true. cbv beta iota.
    cbv [LOG modify].
    cbn [log set_rd sent set_log set_wr set_written]. rewrite <- !app_assoc. reflexivity.
  - unfold GetIP, wifi_reply. rewrite (bind_Done _ _ _ _ _ (Transmit_sent _ _ _)).
    erewrite bind_Done by (apply ReceiveTerminated_error; [exact Hs | exact Hrd]).
    rewrite (bind_Done _ _ _ _ _ (lift_Value _ _ _ (erase_first _ _))).
    cbn [front]. change (Ascii.eqb "E" "E") with true. cbv beta iota.
    cbv [LOG modify].
    cbn [log set_rd sent set_log set_wr set_written]. rewrite <- !app_assoc. reflexivity.
  - unfold GetSSID, wifi_reply. rewrite (bind_Done _ _ _ _ _ (Transmit_sent _ _ _)).
    erewrite bind_Done by (apply ReceiveTerminated_error; [exact Hs | exact Hrd]).
    rewrite (bind_Done _ _ _ _ _ (lift_Value _ _ _ (erase_first _ _))).
    cbn [front]. change (Ascii.eqb "E" "E") with true. cbv beta iota.
    cbv [LOG modify].
    cbn [log set_rd sent set_log set_wr set_written]. rewrite <- !app_assoc. reflexivity.
  - unfold SetSSID, wifi_reply. rewrite (bind_Done _ _ _ _ _ (Transmit_string_sent _ _ _ _)).
    erewrite bind_Done by (apply ReceiveTerminated_error; [exact Hs | exact Hrd]).
    rewrite (bind_Done _ _ _ _ _ (lift_Value _ _ _ (erase_first _ _))).
    cbn [front]. change (Ascii.eqb "E" "E") with true. cbv beta iota.
    cbv [LOG modify].
    cbn [log set_rd sent set_log set_wr set_written]. rewrite <- !app_assoc. reflexivity.
Qed.

Lemma error_reply_without_index_witness :
  exists d',
    GetNum (set_rd [ReadOk "#E bad request;"] stock) = Done tt d'
    /\ numDC d' = 7
    /\ last (log d') = Some (INFO, "The power box returned error: E bad request;"%string).
Proof.
  destruct (error_reply_without_index_is_logged (set_rd [ReadOk "#E bad request;"] stock)
              " bad request;" EmptyString [] eq_refl eq_refl) as (H & _).
  eexists. split; [exact H|]. split; reflexivity.
Defined.
(** Text that does not start with a number, also when one more
    character that is no digit follows. *)
Lemma read_digits_none (acc : Z) (s : string) :
  isdigit (front s) = false -> read_digits acc 0 s = (acc, O, s).
Proof. destruct s as [|c s]; [reflexivity|]. cbn [front read_digits]. intros ->. reflexivity. Qed.

Lemma read_digits_some (acc : Z) (cnt : nat) (s : string) :
  isdigit (front s) = true -> exists n k r, read_digits acc cnt s = (n, S k, r).
Proof.
  destruct s as [|c s]; [discriminate|]. cbn [front read_digits]. intros ->.
  generalize (10 * acc + digit_val c). generalize cnt. clear.
  induction s as [|c s IH]; intros cnt acc; cbn [read_digits]; [eauto|].
  destruct (isdigit c); [apply IH | eauto].
Qed.

Lemma strtol_None (s : string) :
  strtol s = None <-> isdigit (front (snd (split_sign (skip_space s)))) = false.
Proof.
  unfold strtol. destruct (split_sign (skip_space s)) as [neg s2]. cbn [snd].
  destruct (isdigit (front s2)) eqn:E.
  - destruct (read_digits_some 0 0 s2 E) as (n & k & r & ->). split; discriminate.
  - rewrite (read_digits_none 0 s2 E). split; reflexivity.
Qed.

Lemma front_app (a : string) (c : ascii) :
  isdigit c = false -> isdigit (front a) = false ->
  isdigit (front (a +:+ String c EmptyString)) = false.
Proof. destruct a; cbn; auto. Qed.

Lemma split_sign_app (s : string) (c : ascii) :
  isdigit c = false ->
  isdigit (front (snd (split_sign s))) = false ->
  isdigit (front (snd (split_sign (s +:+ String c EmptyString)))) = false.
Proof.
  intros Hc. destruct s as [|x s].
  - intros _. rewrite sapp_nil_l. unfold split_sign.
    destruct (Ascii.eqb c "-"); [reflexivity|].
    destruct (Ascii.eqb c "+"); [reflexivity | exact Hc].
  - rewrite sapp_cons. unfold split_sign.
    destruct (Ascii.eqb x "-"); cbn [snd]; [apply front_app; exact Hc|].
    destruct (Ascii.eqb x "+"); cbn [snd]; [apply front_app; exact Hc|].
    cbn [front]. auto.
Qed.

Lemma skip_space_app (s : string) (c : ascii) :
  isdigit c = false ->
  isdigit (front (snd (split_sign (skip_space s)))) = false ->
  isdigit (front (snd (split_sign (skip_space (s +:+ String c EmptyString))))) = false.
Proof.
  intros Hc. induction s as [|x s IH].
  - intros _. rewrite sapp_nil_l. cbn [skip_space].
    destruct (isspace c); [reflexivity|].
    apply (split_sign_app EmptyString c Hc). reflexivity.
  - rewrite sapp_cons. cbn [skip_space].
    destruct (isspace x); [exact IH|].
    rewrite <- sapp_cons. apply split_sign_app. exact Hc.
Qed.

(** [std::stoi] on a text that does not start with a number. *)
Lemma stoi_invalid (s : string) : strtol s = None -> stoi s = Raise invalid_argument.
Proof. intros H. unfold stoi. rewrite H. reflexivity. Qed.

Lemma stoi_invalid_app (s : string) (c : ascii) :
  isdigit c = false -> strtol s = None ->
  stoi (s +:+ String c EmptyString) = Raise invalid_argument.
Proof.
  intros Hc H. apply stoi_invalid. apply strtol_None. apply skip_space_app; [exact Hc|].
  apply strtol_None. exact H.
Qed.

Lemma substr_rest (c : ascii) (s : string) :
  size s < 2 ^ 63 -> substr (String c s) 1 (size_t_of (-1 - 1)) = Value s.
Proof.
  intros Hs. pose proof (size_nonneg s). unfold substr. rewrite size_String.
  destruct (Z.ltb_spec (1 + size s) 1); [lia|].
  change (Z.to_nat 1) with 1%nat. cbn [sdrop].
  rewrite stake_all; [reflexivity|].
  change (size_t_of (-1 - 1)) with (2 ^ 64 - 2). unfold size in *. lia.
Qed.

Lemma read_switchN_no_colon (c : ascii) (s : string) (e : exn) (d : driver) :
  sfind ":" (String c s) = None ->
  size s < 2 ^ 63 ->
  stoi s = Raise e ->
  read_switchN (String c s) (to_int (find (String c s) ":")) d = Throw e d.
Proof.
  intros Hc Hs He. unfold read_switchN, find. rewrite Hc, to_int_npos.
  rewrite (bind_Done _ _ _ _ _ (lift_Value _ _ _ (substr_rest c s Hs))).
  unfold bind, lift. rewrite He. reflexivity.
Qed.

(** An error reply whose text holds no ':' and does not start with a
    number. *)
Section ErrorText.

Variables (text : string) (rest : list read_result).
Hypothesis Hcolon : sfind ":" text = None.
Hypothesis Hnum : strtol text = None.
Hypothesis Hsize : size text < 2 ^ 30.

Lemma error_text_receive (tm : ascii) (d : driver) :
  rd d = ReadOk (String "#" (String "E" (text +:+ ";"))) :: rest ->
  ReceiveTerminated tm d = Done (String "#" (String "E" (text +:+ ";"))) (set_rd rest d).
Proof.
  intros Hrd. apply ReceiveTerminated_hash; [exact Hrd|].
  rewrite size_String, size_app. change (size ";") with 1. lia.
Qed.

Lemma error_text_strip (d : driver) :
  strip_both (String "#" (String "E" (text +:+ ";"))) d = Done (String "E" text) d.
Proof.
  rewrite <- sapp_cons. apply strip_both_followed. rewrite size_String. lia.
Qed.

Lemma error_text_closed (d : driver) :
  read_switchN (String "E" text) (to_int (find (String "E" text) ":")) d
  = Throw invalid_argument d.
Proof.
  apply read_switchN_no_colon; [|lia|apply stoi_invalid; exact Hnum].
  apply sfind_cons_ne; [reflexivity | exact Hcolon].
Qed.

Lemma error_text_open (d : driver) :
  read_switchN (String "E" (text +:+ ";")) (to_int (find (String "E" (text +:+ ";")) ":")) d
  = Throw invalid_argument d.
Proof.
  apply read_switchN_no_colon.
  - apply sfind_cons_ne; [reflexivity|].
    apply sfind_app_None_None; [exact Hcolon | reflexivity].
  - rewrite size_app. change (size ";") with 1. lia.
  - apply stoi_invalid_app; [reflexivity | exact Hnum].
Qed.

Ltac error_closed Hrd :=
  erewrite bind_Done by (apply error_text_receive; exact Hrd);
  rewrite (bind_Done _ _ _ _ _ (error_text_strip _));
  rewrite (bind_Throw _ _ _ _ _ (error_text_closed _)); reflexivity.

Ltac error_open Hrd :=
  erewrite bind_Done by (apply error_text_receive; exact Hrd);
  rewrite (bind_Done _ _ _ _ _ (lift_Value _ _ _ (erase_first _ _)));
  rewrite (bind_Throw _ _ _ _ _ (error_text_open _)); reflexivity.

Lemma error_text_gets (stof : string -> res spec_float) (id : Z) (d : driver) :
  rd d = ReadOk (String "#" (String "E" (text +:+ ";"))) :: rest ->
  GetSwitchUSB id d
  = Throw invalid_argument (set_rd rest (sent (trace (packet2 "G" id)) (packet2 "G" id) d))
  /\ GetNameUSB id d
     = Throw invalid_argument (set_rd rest (sent (trace (packet2 "n" id)) (packet2 "n" id) d))
  /\ GetLimitsUSB stof id d
     = Throw invalid_argument (set_rd rest (sent (trace (packet2 "l" id)) (packet2 "l" id) d))
  /\ GetReverseUSB id d
     = Throw invalid_argument (set_rd rest (sent (trace (packet2 "r" id)) (packet2 "r" id) d)).
Proof.
  intros Hrd. repeat split.
  - unfold GetSwitchUSB. rewrite (bind_Done _ _ _ _ _ (Transmit_sent _ _ _)).
    error_closed Hrd.
  - unfold GetNameUSB. rewrite (bind_Done _ _ _ _ _ (Transmit_sent _ _ _)).
    error_closed Hrd.
  - unfold GetLimitsUSB, limits_reply. rewrite (bind_Done _ _ _ _ _ (Transmit_sent _ _ _)).
    error_closed Hrd.
  - unfold GetReverseUSB, reverse_reply. rewrite (bind_Done _ _ _ _ _ (Transmit_sent _ _ _)).
    error_open Hrd.
Qed.

Lemma error_text_sets (stof : string -> res spec_float) (id v n : Z) (x y : spec_float)
    (name : string) (d : driver) :
  0 <= id < 100 ->
  double_to_int x = Some n ->
  rd d = ReadOk (String "#" (String "E" (text +:+ ";"))) :: rest ->
  SetSwitchUSB id v d
  = Throw invalid_argument
      (set_rd rest
         (set_state (<[Z.to_nat id := to_string v]> (state d))
            (sent (trace_int (packet3 "S" id (to_string v)))
                  (packet3 "S" id (to_string v)) d)))
  /\ SetSwitchValueUSB id x d
     = Throw invalid_argument
         (set_rd rest
            (set_state (<[Z.to_nat id := to_string_double x]> (state d))
               (sent (trace_int (packet3 "S" id (to_string n)))
                     (packet3 "S" id (to_string n)) d)))
  /\ SetReverseUSB id v d
     = Throw invalid_argument
         (set_rd rest (sent (trace_int (packet3 "R" id (to_string v)))
                            (packet3 "R" id (to_string v)) d))
  /\ SetLimitsUSB stof id y d
     = Throw invalid_argument
         (set_rd rest (sent (trace_int (packet3 "L" id (to_string_double y)))
                            (packet3 "L" id (to_string_double y)) d))
  /\ exists d', SetNameUSB id name d = Throw invalid_argument d'
                /\ name_switch d' = name_switch d.
Proof.
  intros Hid Hx Hrd. repeat split.
  - unfold SetSwitchUSB.
    rewrite (bind_Done _ _ _ _ _ (SetSwitchUSB_request_run id v d Hid)).
    unfold SetSwitchUSB_reply. error_closed Hrd.
  - unfold SetSwitchValueUSB.
    rewrite (bind_Done _ _ _ _ _ (SetSwitchValueUSB_request_run id n x d Hid Hx)).
    unfold SetSwitchValueUSB_reply. error_closed Hrd.
  - unfold SetReverseUSB, SetReverseUSB_request.
    rewrite (bind_Done _ _ d _ tt (bind_Done _ _ _ _ _ (Transmit_int_sent _ _ _ _))).
    unfold reverse_reply. error_open Hrd.
  - unfold SetLimitsUSB, SetLimitsUSB_request.
    rewrite (bind_Done _ _ d _ tt (bind_Done _ _ _ _ _ (Transmit_float_sent _ _ _ _))).
    unfold limits_reply. error_closed Hrd.
  - eexists. unfold SetNameUSB, SetNameUSB_request.
    rewrite (bind_Done _ _ d _ tt (bind_Done _ _ _ _ _ (Transmit_string_sent _ _ _ _))).
    unfold SetNameUSB_reply.
    erewrite bind_Done by (apply error_text_receive; exact Hrd).
    unfold LOG at 1. erewrite (bind_Done (modify _)) by reflexivity.
    rewrite (bind_Done _ _ _ _ _ (lift_Value _ _ _ (erase_first _ _))).
    rewrite (bind_Throw _ _ _ _ _ (error_text_open _)).
    split; reflexivity.
Qed.

End ErrorText.

(** X15: an error reply without a number is not handled by the
    exchanges that carry an index.  When the reply is "#E" followed by a
    text that holds no ':' and does not start with a number, and by the
    terminator, each of the four gets ends with the exception
    [invalid_argument] of [std::stoi], which reads the index before the
    tag is looked at; nothing is stored and no error message is logged. *)
Theorem error_text_makes_get_throw
    (stof : string -> res spec_float) (d : driver) (id : Z) (text : string)
    (rest : list read_result) :
  sfind ":" text = None ->
  strtol text = None ->
  size text < 2 ^ 30 ->
  rd d = ReadOk (String "#" (String "E" (text +:+ ";"))) :: rest ->
  GetSwitchUSB id d
  = Throw invalid_argument (set_rd rest (sent (trace (packet2 "G" id)) (packet2 "G" id) d))
  /\ GetNameUSB id d
     = Throw invalid_argument (set_rd rest (sent (trace (packet2 "n" id)) (packet2 "n" id) d))
  /\ GetLimitsUSB stof id d
     = Throw invalid_argument (set_rd rest (sent (trace (packet2 "l" id)) (packet2 "l" id) d))
  /\ GetReverseUSB id d
     = Throw invalid_argument (set_rd rest (sent (trace (packet2 "r" id)) (packet2 "r" id) d)).
Proof. intros Hc Hn Hs Hrd. apply (error_text_gets text rest); assumption. Qed.

Lemma error_text_makes_get_throw_witness :
  exists d',
    GetNameUSB 2 (set_rd [ReadOk "#E bad request;"] stock) = Throw invalid_argument d'
    /\ log d' = trace (packet2 "n" 2).
Proof.
  destruct (error_text_makes_get_throw stof_fixed (set_rd [ReadOk "#E bad request;"] stock)
              2 " bad request" [] eq_refl eq_refl eq_refl eq_refl) as (_ & H & _).
  eexists. split; [exact H | reflexivity].
Defined.

(** X16: after such an error reply a set throws as well, and a
    set-switch keeps the requested value in the cache.  [SetSwitchUSB]
    and [SetSwitchValueUSB] end with [invalid_argument] while the cache
    entry holds the value written ahead of the reply: the value the
    entry had before is not restored.  [SetReverseUSB], [SetLimitsUSB]
    and [SetNameUSB] end with the same exception and store nothing. *)
Theorem error_text_makes_set_throw
    (stof : string -> res spec_float) (d : driver) (id v n : Z) (x y : spec_float)
    (name text : string) (rest : list read_result) :
  sfind ":" text = None ->
  strtol text = None ->
  size text < 2 ^ 30 ->
  0 <= id < 100 ->
  double_to_int x = Some n ->
  rd d = ReadOk (String "#" (String "E" (text +:+ ";"))) :: rest ->
  SetSwitchUSB id v d
  = Throw invalid_argument
      (set_rd rest
         (set_state (<[Z.to_nat id := to_string v]> (state d))
            (sent (trace_int (packet3 "S" id (to_string v)))
                  (packet3 "S" id (to_string v)) d)))
  /\ SetSwitchValueUSB id x d
     = Throw invalid_argument
         (set_rd rest
            (set_state (<[Z.to_nat id := to_string_double x]> (state d))
               (sent (trace_int (packet3 "S" id (to_string n)))
                     (packet3 "S" id (to_string n)) d)))
  /\ SetReverseUSB id v d
     = Throw invalid_argument
         (set_rd rest (sent (trace_int (packet3 "R" id (to_string v)))
                            (packet3 "R" id (to_string v)) d))
  /\ SetLimitsUSB stof id y d
     = Throw invalid_argument
         (set_rd rest (sent (trace_int (packet3 "L" id (to_string_double y)))
                            (packet3 "L" id (to_string_double y)) d))
  /\ exists d', SetNameUSB id name d = Throw invalid_argument d'
                /\ name_switch d' = name_switch d.
Proof. intros Hc Hn Hs Hid Hx Hrd. apply (error_text_sets text rest); assumption. Qed.

Lemma error_text_makes_set_throw_witness :
  exists d',
    SetSwitchValueUSB 8 (double_of_int 50) (set_rd [ReadOk "#E bad request;"] stock)
    = Throw invalid_argument d'
    /\ state d' !! 8%nat = Some "50.000000"%string.
Proof.
  destruct (error_text_makes_set_throw stof_fixed (set_rd [ReadOk "#E bad request;"] stock)
              8 1 50 (double_of_int 50) (S754_zero false) EmptyString " bad request" []
              eq_refl eq_refl eq_refl ltac:(lia) eq_refl eq_refl) as (_ & H & _).
  eexists. split; [exact H | reflexivity].
Defined.
(** ** The acknowledgment test of the set-switch commands *)

Lemma SetSwitchUSB_frame_result
    (d : driver) (id v : Z) (v0 p : string) (rest : list read_result) :
  0 <= id < 100 ->
  state d !! Z.to_nat id = Some v0 ->
  size p < 2 ^ 30 ->
  rd d = ReadOk (frame "G" id p) :: rest ->
  exists d',
    SetSwitchUSB id v d = Done tt d'
    /\ state d' = (if Ascii.eqb (front (to_string v)) (front p)
                   then <[Z.to_nat id := to_string v]> (state d)
                   else state d)
    /\ written d' = written d ++ [packet3 "S" id (to_string v)]
    /\ rd d' = rest
    /\ pstate d' = pstate d /\ widgets d' = widgets d /\ same_counts d d'.
Proof.
  intros Hid Hv0 Hs Hrd.
  assert (Hlen : (Z.to_nat id < length (state d))%nat) by (eapply lookup_lt_Some; eauto).
  unfold SetSwitchUSB.
  rewrite (bind_Done _ _ _ _ _ (SetSwitchUSB_request_run id v d Hid)).
  rewrite (SetSwitchUSB_reply_frame id _ p rest)
    by (first [exact Hid | exact Hrd | apply ended_size; lia]).
  cbn [state set_state sent set_log set_wr set_written].
  rewrite list_lookup_insert_eq by exact Hlen.
  change (default EmptyString (Some (to_string v))) with (to_string v).
  rewrite Hv0. change (default EmptyString (Some v0)) with v0.
  destruct (Ascii.eqb (front (to_string v)) (front p)); eexists; (split; [reflexivity|]).
  - repeat split.
  - cbn [state set_state set_log set_rd written rd].
    rewrite list_insert_insert_eq, list_insert_id by exact Hv0. repeat split.
Qed.

(** X17: [SetSwitchUSB] accepts a reply by its first character.  When
    the reply is the frame of tag 'G' and of the index with payload [p],
    the call returns with the requested value in the cache if the first
    character of [p] is the first character of the decimal text of the
    value, and with the cache as it was before the call otherwise; the
    rest of the payload plays no part. *)
Theorem SetSwitchUSB_compares_first_character
    (d : driver) (id v : Z) (v0 p : string) (rest : list read_result) :
  0 <= id < 100 ->
  state d !! Z.to_nat id = Some v0 ->
  size p < 2 ^ 30 ->
  rd d = ReadOk (frame "G" id p) :: rest ->
  exists d',
    SetSwitchUSB id v d = Done tt d'
    /\ state d' = (if Ascii.eqb (front (to_string v)) (front p)
                   then <[Z.to_nat id := to_string v]> (state d)
                   else state d)
    /\ written d' = written d ++ [packet3 "S" id (to_string v)]
    /\ rd d' = rest.
Proof.
  intros Hid Hv0 Hs Hrd.
  destruct (SetSwitchUSB_frame_result d id v v0 p rest Hid Hv0 Hs Hrd)
    as (d' & E & S & W & R & _).
  exists d'. repeat split; assumption.
Qed.

Lemma SetSwitchUSB_compares_first_character_witness :
  exists d',
    SetSwitchUSB 3 1 (pending (frame "G" 3 "10")) = Done tt d'
    /\ state d' !! 3%nat = Some "1"%string.
Proof.
  destruct (SetSwitchUSB_compares_first_character (pending (frame "G" 3 "10")) 3 1
              "0" "10" []) as (d' & E & S & _);
    [lia | reflexivity | vm_compute; reflexivity | reflexivity |].
  exists d'. split; [exact E|]. rewrite S. reflexivity.
Defined.

(** X18: [SetSwitchValueUSB] accepts a reply by its integer reading.
    For a duty cycle [x] that holds the integer [n], the command S with
    [n] is written and the text of [x] goes into the cache; when the
    reply is the frame of tag 'G' and of the index whose payload [p]
    reads as the integer [m], the call returns with that text in the
    cache if [m = n], and otherwise with the cache as it was before the
    call and the message that the new state was not acknowledged in the
    log. *)
Theorem SetSwitchValueUSB_compares_integers
    (d : driver) (id n m : Z) (x : spec_float) (v0 p : string) (rest : list read_result) :
  0 <= id < 100 ->
  state d !! Z.to_nat id = Some v0 ->
  in_int n = true ->
  holds_int x n ->
  stoi p = Value m ->
  size p < 2 ^ 30 ->
  rd d = ReadOk (frame "G" id p) :: rest ->
  exists d',
    SetSwitchValueUSB id x d = Done tt d'
    /\ state d' = (if n =? m then <[Z.to_nat id := to_string_double x]> (state d)
                   else state d)
    /\ (n <> m -> last (log d') = Some (INFO, nack_msg))
    /\ written d' = written d ++ [packet3 "S" id (to_string n)]
    /\ rd d' = rest.
Proof.
  intros Hid Hv0 Hn Hx Hp Hs Hrd.
  assert (Hlen : (Z.to_nat id < length (state d))%nat) by (eapply lookup_lt_Some; eauto).
  pose proof (holds_int_to_string x n Hx) as Htxt.
  pose proof (stoi_double_text n Hn) as Hread. rewrite <- Htxt in Hread.
  unfold SetSwitchValueUSB.
  rewrite (bind_Done _ _ _ _ _
             (SetSwitchValueUSB_request_run id n x d Hid (holds_int_to_int x n Hx Hn))).
  rewrite (SetSwitchValueUSB_reply_frame id n m _ p rest);
    [ | exact Hid | exact Hrd | apply ended_size; lia
      | cbn [state set_state]; rewrite list_lookup_insert_eq by exact Hlen; exact Hread
      | exact Hp ].
  rewrite Hv0. change (default EmptyString (Some v0)) with v0.
  destruct (Z.eqb_spec n m) as [E|E]; eexists; (split; [reflexivity|]).
  - repeat split. intros C. contradiction.
  - cbn [state set_state set_log set_rd written rd log sent set_wr set_written].
    rewrite list_insert_insert_eq, list_insert_id by exact Hv0.
    repeat split. intros _. apply last_snoc.
Qed.

Lemma SetSwitchValueUSB_compares_integers_witness :
  exists d',
    SetSwitchValueUSB 3 (double_of_int 50) (pending (frame "G" 3 "40")) = Done tt d'
    /\ state d' !! 3%nat = Some "0"%string
    /\ last (log d') = Some (INFO, nack_msg).
Proof.
  assert (H50 : holds_int (double_of_int 50) 50).
  { exists 50. split; [reflexivity|]. vm_compute. reflexivity. }
  destruct (SetSwitchValueUSB_compares_integers (pending (frame "G" 3 "40")) 3 50 40
              (double_of_int 50) "0" "40" [] ltac:(lia) eq_refl eq_refl H50 eq_refl
              eq_refl eq_refl) as (d' & E & S & L & _).
  exists d'. split; [exact E|]. split; [rewrite S; reflexivity|].
  apply L. discriminate.
Defined.
(** ** The poll cycle *)

Lemma same_timers_refl (d : driver) : same_timers d d.
Proof. reflexivity. Qed.

Lemma same_timers_trans (d1 d2 d3 : driver) :
  same_timers d1 d2 -> same_timers d2 d3 -> same_timers d1 d3.
Proof. unfold same_timers. congruence. Qed.

Lemma GetSwitchUSB_timers (id : Z) : spec True same_timers (GetSwitchUSB id).
Proof.
  unfold GetSwitchUSB, Transmit, send_packet, ReceiveTerminated, strip_both, read_switchN.
  spec_go same_timers_refl same_timers_trans; spec_leaf.
Qed.

Lemma sweep_timers (n : Z) : spec True same_timers (sweep n).
Proof.
  unfold sweep. apply (spec_for_range _ _ same_timers_refl same_timers_trans).
  intros i. apply GetSwitchUSB_timers.
Qed.

Lemma publish_timers (stof : string -> res spec_float) (iv ia sn : Z) :
  spec True same_timers (publish stof iv ia sn).
Proof.
  unfold publish, state_float, state_bool.
  spec_go same_timers_refl same_timers_trans; spec_leaf.
Qed.

(** X19: the poll timer is armed again exactly when the cycle returns.
    A call of [TimerHit] that returns has called [SetTimer] once; a call
    that ends with an exception (a failed read, a reply or a cache entry
    that does not parse) has not called it, so no further cycle is
    scheduled.  A driver that is not connected only arms the timer. *)
Theorem TimerHit_rearms_only_on_return (stof : string -> res spec_float) (d : driver) :
  match TimerHit stof d with
  | Done _ d' => timers d' = S (timers d)
  | Throw _ d' => timers d' = timers d
  | Undefined => True
  end
  /\ (isConnected d = false -> TimerHit stof d = Done tt (set_timers (S (timers d)) d)).
Proof.
  split.
  - unfold TimerHit. unfold gets at 1. unfold bind at 1.
    destruct (isConnected d); cbn [negb]; [|reflexivity].
    unfold get at 1. unfold bind at 1.
    pose proof (sweep_timers (numSwitch d) d) as Hs.
    unfold bind at 1. destruct (sweep (numSwitch d) d) as [[] d1|e d1|]; [|exact Hs|exact I].
    pose proof (publish_timers stof (numInputV d) (numTotalA d) (sensorNum d) d1) as Hp.
    unfold bind. destruct (publish stof _ _ _ d1) as [[] d2|e d2|]; [| |exact I].
    + cbn [SetTimer modify timers set_timers]. unfold same_timers in *. congruence.
    + unfold same_timers in *. congruence.
  - intros Hc. unfold TimerHit, gets, bind. rewrite Hc. reflexivity.
Qed.

Lemma TimerHit_rearms_witness :
  TimerHit stof_fixed offline = Done tt (set_timers 1 offline).
Proof.
  apply (proj2 (TimerHit_rearms_only_on_return stof_fixed offline)). reflexivity.
Defined.

Lemma GetSwitchUSB_writes_request (id : Z) :
  spec True (fun d d' => written d' = written d ++ [packet2 "G" id]) (GetSwitchUSB id).
Proof.
  intros d. unfold GetSwitchUSB.
  rewrite (bind_Done _ _ _ _ _ (Transmit_sent _ _ _)).
  assert (H : spec True same_written
                (let* buf := ReceiveTerminated ";" in
                 let* buf := strip_both buf in
                 let i := to_int (find buf ":") in
                 let* switchN := read_switchN buf i in
                 if Ascii.eqb (front buf) "E" then LOG INFO (error_msg buf)
                 else if Ascii.eqb (front buf) "G" && (switchN =? id) then
                   let j := to_int (find buf ";") in
                   if j =? to_int npos then ret tt
                   else
                     let* buf := lift (erase buf (size_t_of j) npos) in
                     let* v := lift (substr buf (size_t_of (i + 1)) npos) in
                     state_put id v
                 else ret tt)).
  { cbv zeta. spec_go same_written_refl same_written_trans;
      try apply ReceiveTerminated_written; try apply strip_both_written;
      try apply read_switchN_written; spec_leaf. }
  specialize (H (sent (trace (packet2 "G" id)) (packet2 "G" id) d)).
  match goal with |- match ?X with _ => _ end => destruct X end; try exact I; exact H.
Qed.

Lemma sweep_writes_requests (n : nat) :
  forall (lo : Z) (d : driver),
    0 <= lo -> lo + Z.of_nat n <= 2 ^ 15 ->
    match for_from n lo (fun k => GetSwitchUSB (to_short k)) d with
    | Done _ d' => written d' = written d ++ polls n lo
    | Throw _ d' => exists k, (k <= n)%nat /\ written d' = written d ++ polls k lo
    | Undefined => True
    end.
Proof.
  induction n as [|n IH]; intros lo d Hlo Hhi.
  - cbn [for_from polls ret]. rewrite app_nil_r. reflexivity.
  - cbn [for_from]. unfold bind.
    pose proof (GetSwitchUSB_writes_request lo d) as H1.
    rewrite (to_short_small lo) by lia.
    destruct (GetSwitchUSB lo d) as [[] d1|e d1|]; [| |exact I].
    + specialize (IH (lo + 1) d1 ltac:(lia) ltac:(lia)).
      destruct (for_from n (lo + 1) _ d1) as [[] d2|e d2|]; [| |exact I].
      * rewrite IH, H1. cbn [polls]. rewrite <- app_assoc. reflexivity.
      * destruct IH as (k & Hk & Hw). exists (S k). split; [lia|].
        rewrite Hw, H1. cbn [polls]. rewrite <- app_assoc. reflexivity.
    + exists 1%nat. split; [lia|]. rewrite H1. reflexivity.
Qed.

(** X20: a poll cycle writes nothing but its requests.  Whatever the
    device answers, the packets a call of [TimerHit] on a connected
    driver has written when it returns are the requests G 0, G 1, ...,
    G (numSwitch-1) in this order, and when it ends with an exception
    they are the first [k] of them for some [k]: the cycle never writes
    a set command and never asks twice for an index. *)
Theorem poll_cycle_writes_only_requests (stof : string -> res spec_float) (d : driver) :
  isConnected d = true ->
  numSwitch d <= 2 ^ 15 ->
  match TimerHit stof d with
  | Done _ d' => written d' = written d ++ polls (Z.to_nat (numSwitch d)) 0
  | Throw _ d' =>
      exists k, (k <= Z.to_nat (numSwitch d))%nat /\ written d' = written d ++ polls k 0
  | Undefined => True
  end.
Proof.
  intros Hc Hn. unfold TimerHit. unfold gets at 1. unfold bind at 1.
  rewrite Hc. cbn [negb]. unfold get at 1. unfold bind at 1.
  pose proof (sweep_writes_requests (Z.to_nat (numSwitch d)) 0 d ltac:(lia) ltac:(lia)) as Hs.
  unfold sweep, for_range. rewrite Z.sub_0_r.
  unfold bind at 1.
  destruct (for_from _ 0 _ d) as [[] d1|e d1|]; [|exact Hs|exact I].
  pose proof (publish_written stof (numInputV d) (numTotalA d) (sensorNum d) d1) as Hp.
  unfold bind. destruct (publish stof _ _ _ d1) as [[] d2|e d2|]; [| |exact I].
  - cbn [SetTimer modify written set_timers]. unfold same_written in Hp. congruence.
  - exists (Z.to_nat (numSwitch d)). split; [lia|]. unfold same_written in Hp. congruence.
Qed.

Lemma poll_cycle_writes_only_requests_witness :
  match TimerHit stof_fixed stalled with
  | Throw _ d' => exists k, (k <= 45)%nat /\ written d' = polls k 0
  | _ => False
  end.
Proof.
  pose proof (poll_cycle_writes_only_requests stof_fixed stalled eq_refl
                ltac:(vm_compute; discriminate)) as H.
  destruct (TimerHit stof_fixed stalled) as [[] d'|e d'|] eqn:E.
  - vm_compute in E. discriminate.
  - exact H.
  - vm_compute in E. discriminate.
Defined.
(** ** What a poll cycle publishes *)

Lemma keeps_vector_refl (prop : string) (d : driver) : keeps_vector prop d d.
Proof. split; [apply same_cache_refl | reflexivity]. Qed.

Lemma keeps_vector_trans (prop : string) (d1 d2 d3 : driver) :
  keeps_vector prop d1 d2 -> keeps_vector prop d2 d3 -> keeps_vector prop d1 d3.
Proof.
  intros [C1 W1] [C2 W2]. split; [eapply same_cache_trans; eauto|].
  intros i. rewrite W2. apply W1.
Qed.

Lemma widget_set_keeps_vector (u : Prop) (prop q : string) (i : Z) (v : wval) :
  q <> prop -> spec u (keeps_vector prop) (widget_set q i v).
Proof.
  intros Hp d. cbn [widget_set modify]. split; [repeat split|].
  intros j. cbn [widgets set_widgets]. apply lookup_insert_ne. intros [= E _]. contradiction.
Qed.

Ltac vector_go prop :=
  cbv zeta;
  spec_go (keeps_vector_refl prop) (keeps_vector_trans prop);
  try (apply widget_set_keeps_vector; discriminate);
  spec_leaf; try apply keeps_vector_refl.

(** A loop whose iteration [i] leaves the cache alone and only sets
    widgets of index [i]. *)
Section LoopWidgets.

Variable body : Z -> M unit.
Variable post : Z -> list string -> gmap (string * Z) wval -> Prop.
Hypothesis post_stable :
  forall i st w w',
    post i st w -> (forall prop, w' !! (prop, i) = w !! (prop, i)) -> post i st w'.
Hypothesis body_ok :
  forall i d d',
    body i d = Done tt d' ->
    same_cache d d' /\ post i (state d) (widgets d')
    /\ forall prop j, j <> i -> widgets d' !! (prop, j) = widgets d !! (prop, j).

Lemma for_from_widgets (n : nat) :
  forall (k : Z) (d d' : driver),
    for_from n k body d = Done tt d' ->
    same_cache d d'
    /\ (forall i, k <= i < k + Z.of_nat n -> post i (state d) (widgets d'))
    /\ (forall prop j, ~ (k <= j < k + Z.of_nat n) ->
                       widgets d' !! (prop, j) = widgets d !! (prop, j)).
Proof.
  induction n as [|n IH]; intros k d d' H.
  - cbn [for_from ret] in H. injection H as <-.
    split; [apply same_cache_refl|]. split; [intros i Hi; lia | reflexivity].
  - cbn [for_from] in H. apply bind_Done_inv in H as ([] & d1 & E & H).
    destruct (body_ok _ _ _ E) as (C1 & P1 & F1).
    destruct (IH _ _ _ H) as (C2 & P2 & F2).
    split; [eapply same_cache_trans; eauto|]. split.
    + intros i Hi. destruct (Z.eq_dec i k) as [->|Hne].
      * apply (post_stable _ _ _ _ P1). intros prop. apply F2. lia.
      * destruct C1 as (S1 & _). rewrite <- S1. apply P2. lia.
    + intros prop j Hj. rewrite F2 by lia. apply F1. lia.
Qed.

End LoopWidgets.

Lemma state_get_inv (k : Z) (d d' : driver) (s : string) :
  state_get k d = Done s d' -> d' = d /\ s = cached d k.
Proof.
  unfold state_get, cached. destruct (in_bounds 100 k); [|discriminate].
  intros [= <- <-]. split; reflexivity.
Qed.

Lemma lift_inv {A} (r : res A) (a : A) (d d' : driver) :
  lift r d = Done a d' -> d' = d /\ r = Value a.
Proof. unfold lift. destruct r; [|discriminate]. intros [= <- <-]. split; reflexivity. Qed.

Lemma state_bool_inv (k : Z) (d d' : driver) (b : bool) :
  state_bool k d = Done b d' ->
  d' = d /\ exists n, stoi (cached d k) = Value n /\ b = negb (n =? 0).
Proof.
  intros H. unfold state_bool in H.
  inv_step H. apply state_get_inv in E as [-> ->].
  inv_step H. apply lift_inv in E as [-> E].
  cbv [ret] in H. injection H as <- <-. split; [reflexivity|]. eauto.
Qed.

(** The four loops of [publish]. *)
Lemma channels_loop_sets (n : nat) (k : Z) (d d' : driver) :
  for_from n k (fun i => let* b := state_bool i in widget_set "PowerChannelsSP" i (WSwitch b))
           d = Done tt d' ->
  same_cache d d'
  /\ forall i, k <= i < k + Z.of_nat n ->
       exists m, stoi (cached d i) = Value m
                 /\ widgets d' !! ("PowerChannelsSP"%string, i) = Some (WSwitch (negb (m =? 0))).
Proof.
  intros H.
  apply (for_from_widgets _
           (fun i st w => exists m, stoi (default EmptyString (st !! Z.to_nat i)) = Value m
                                    /\ w !! ("PowerChannelsSP"%string, i)
                                       = Some (WSwitch (negb (m =? 0))))) in H.
  - destruct H as (C & P & _). split; [exact C | exact P].
  - intros i st w w' (m & Hm & Hw) Hs. exists m. split; [exact Hm|]. rewrite Hs. exact Hw.
  - clear. intros i d d' H.
    inv_step H. apply state_bool_inv in E as (-> & m & Hm & ->).
    cbv [widget_set modify] in H. injection H as <-.
    split; [repeat split|]. split.
    + exists m. split; [exact Hm|]. cbn [widgets set_widgets]. apply lookup_insert_eq.
    + intros prop j Hj. cbn [widgets set_widgets]. apply lookup_insert_ne. congruence.
Qed.

Lemma duty_loop_sets (dc : Z) (n : nat) (k : Z) (d d' : driver) :
  for_from n k (fun j =>
                  let* s := state_get (dc + j) in
                  let* m := lift (stoi s) in
                  widget_set "DewChannelDutyCycleNP" j (WNum (double_of_int m)))
           d = Done tt d' ->
  same_cache d d'
  /\ forall j, k <= j < k + Z.of_nat n ->
       exists m, stoi (cached d (dc + j)) = Value m
                 /\ widgets d' !! ("DewChannelDutyCycleNP"%string, j)
                    = Some (WNum (double_of_int m)).
Proof.
  intros H.
  apply (for_from_widgets _
           (fun j st w => exists m, stoi (default EmptyString (st !! Z.to_nat (dc + j))) = Value m
                                    /\ w !! ("DewChannelDutyCycleNP"%string, j)
                                       = Some (WNum (double_of_int m)))) in H.
  - destruct H as (C & P & _). split; [exact C | exact P].
  - intros i st w w' (m & Hm & Hw) Hs. exists m. split; [exact Hm|]. rewrite Hs. exact Hw.
  - clear. intros i d d' H.
    inv_step H. apply state_get_inv in E as [-> ->].
    inv_step H. apply lift_inv in E as [-> E].
    cbv [widget_set modify] in H. injection H as <-.
    split; [repeat split|]. split.
    + eexists. split; [exact E|]. cbn [widgets set_widgets]. apply lookup_insert_eq.
    + intros prop j Hj. cbn [widgets set_widgets]. apply lookup_insert_ne. congruence.
Qed.

Lemma dc_loop_sets (stof : string -> res spec_float) (base : Z) (n : nat) (k : Z)
    (d d' : driver) :
  for_from n k (fun i =>
                  let* x := state_float stof (base + 2 * i) in
                  widget_set "DCVoltageNP" i (WNum x) >>
                  let* y := state_float stof (base + 2 * i + 1) in
                  widget_set "DCCurrentNP" i (WNum y) >>
                  let* z := state_float stof (base + 2 * i + 1) in
                  widget_set "PowerChannelCurrentNP" i (WNum z))
           d = Done tt d' ->
  same_cache d d'
  /\ forall i, k <= i < k + Z.of_nat n ->
       exists x y,
         stof (cached d (base + 2 * i)) = Value x
         /\ stof (cached d (base + 2 * i + 1)) = Value y
         /\ widgets d' !! ("DCVoltageNP"%string, i) = Some (WNum x)
         /\ widgets d' !! ("DCCurrentNP"%string, i) = Some (WNum y)
         /\ widgets d' !! ("PowerChannelCurrentNP"%string, i) = Some (WNum y).
Proof.
  intros H.
  apply (for_from_widgets _
           (fun i st w =>
              exists x y,
                stof (default EmptyString (st !! Z.to_nat (base + 2 * i))) = Value x
                /\ stof (default EmptyString (st !! Z.to_nat (base + 2 * i + 1))) = Value y
                /\ w !! ("DCVoltageNP"%string, i) = Some (WNum x)
                /\ w !! ("DCCurrentNP"%string, i) = Some (WNum y)
                /\ w !! ("PowerChannelCurrentNP"%string, i) = Some (WNum y))) in H.
  - destruct H as (C & P & _). split; [exact C | exact P].
  - intros i st w w' (x & y & Hx & Hy & H1 & H2 & H3) Hs. exists x, y.
    rewrite !Hs. repeat split; assumption.
  - clear. intros i d d' H.
    inv_step H. apply state_float_inv in E as [-> Hx].
    inv_set H.
    inv_step H. apply state_float_inv in E as [-> Hy]. cbn [state set_widgets] in Hy.
    inv_set H.
    inv_step H. apply state_float_inv in E as [-> Hz]. cbn [state set_widgets] in Hz.
    cbv [widget_set modify] in H. injection H as <-.
    unfold cached in *. cbn [state set_widgets] in *.
    rewrite Hy in Hz. injection Hz as <-.
    split; [repeat split|]. split.
    + do 2 eexists. split; [exact Hx|]. split; [exact Hy|].
      cbn [widgets set_widgets].
      rewrite !lookup_insert_ne by discriminate.
      rewrite lookup_insert_eq.
      rewrite lookup_insert_ne by discriminate. rewrite !lookup_insert_eq.
      repeat split.
    + intros prop j Hj. cbn [widgets set_widgets].
      rewrite !lookup_insert_ne by congruence. reflexivity.
Qed.

Lemma pwm_loop_sets (stof : string -> res spec_float) (base : Z) (n : nat) (k : Z)
    (d d' : driver) :
  for_from n k (fun i =>
                  let* x := state_float stof (base + 2 * i + 1) in
                  widget_set "PWMCurrentNP" i (WNum x))
           d = Done tt d' ->
  same_cache d d'
  /\ forall i, k <= i < k + Z.of_nat n ->
       exists x,
         stof (cached d (base + 2 * i + 1)) = Value x
         /\ widgets d' !! ("PWMCurrentNP"%string, i) = Some (WNum x).
Proof.
  intros H.
  apply (for_from_widgets _
           (fun i st w =>
              exists x,
                stof (default EmptyString (st !! Z.to_nat (base + 2 * i + 1))) = Value x
                /\ w !! ("PWMCurrentNP"%string, i) = Some (WNum x))) in H.
  - destruct H as (C & P & _). split; [exact C | exact P].
  - intros i st w w' (x & Hx & H1) Hs. exists x. rewrite Hs. split; assumption.
  - clear. intros i d d' H.
    inv_step H. apply state_float_inv in E as [-> Hx].
    cbv [widget_set modify] in H. injection H as <-.
    split; [repeat split|]. split.
    + eexists. split; [exact Hx|]. cbn [widgets set_widgets]. apply lookup_insert_eq.
    + intros prop j Hj. cbn [widgets set_widgets]. apply lookup_insert_ne. congruence.
Qed.
Ltac keep P E K :=
  match type of E with
  | ?m ?d = Done _ ?d' =>
      assert (K : keeps_vector P d d');
      [ refine (spec_Done True _ m d d' _ _ E);
        unfold for_range, state_float, state_bool; vector_go P
      | ]
  end.

(** What [publish] has set when it returns, by vector. *)
Lemma publish_layout (stof : string -> res spec_float) (iv ia sn : Z) (d d' : driver) :
  publish stof iv ia sn d = Done tt d' ->
  same_cache d d'
  /\ (forall i, 0 <= i < numDC d ->
        exists m, stoi (cached d i) = Value m
                  /\ widgets d' !! ("PowerChannelsSP"%string, i)
                     = Some (WSwitch (negb (m =? 0))))
  /\ (forall j, 0 <= j < numPWM d ->
        exists m, stoi (cached d (numDC d + j)) = Value m
                  /\ widgets d' !! ("DewChannelDutyCycleNP"%string, j)
                     = Some (WNum (double_of_int m)))
  /\ (forall i, 0 <= i < numDC d ->
        exists x y,
          stof (cached d (sn + 2 * i)) = Value x
          /\ stof (cached d (sn + 2 * i + 1)) = Value y
          /\ widgets d' !! ("DCVoltageNP"%string, i) = Some (WNum x)
          /\ widgets d' !! ("DCCurrentNP"%string, i) = Some (WNum y)
          /\ widgets d' !! ("PowerChannelCurrentNP"%string, i) = Some (WNum y))
  /\ (forall i, 0 <= i < numPWM d ->
        exists x,
          stof (cached d (sn + 2 * numDC d + 2 * i + 1)) = Value x
          /\ widgets d' !! ("PWMCurrentNP"%string, i) = Some (WNum x))
  /\ (exists x y,
        stof (cached d (sn + 2 * numDC d + 2 * numPWM d)) = Value x
        /\ stof (cached d (sn + 2 * numDC d + 2 * numPWM d + 1)) = Value y
        /\ widgets d' !! ("OnSensorNP"%string, ON_V) = Some (WNum x)
        /\ widgets d' !! ("OnSensorNP"%string, ON_A) = Some (WNum y)).
Proof.
  intros H. unfold publish in H.
  apply bind_Done_inv in H as (v & d0 & E & H). apply state_float_inv in E as [-> _].
  apply bind_Done_inv in H as (a & d0 & E & H). apply state_float_inv in E as [-> _].
  inv_set H. inv_set H. inv_set H. inv_set H.
  apply bind_Done_inv in H as (dg & d0 & E & H). cbv [get] in E. injection E as <- <-.
  cbn [numDC numPWM set_widgets set_pstate] in H.
  apply bind_Done_inv in H as ([] & d1 & L1 & H).
  apply bind_Done_inv in H as ([] & d2 & L2 & H).
  apply bind_Done_inv in H as ([] & d3 & L3 & H).
  apply bind_Done_inv in H as ([] & d4 & L4 & H).
  apply bind_Done_inv in H as (x & d5 & E & H). apply state_float_inv in E as [-> Hx].
  inv_set H.
  apply bind_Done_inv in H as (y & d5 & E & H). apply state_float_inv in E as [-> Hy].
  inv_set H. inv_set H. inv_set H. inv_set H.
  cbv [setState modify] in H. injection H as <-.
  keep "PowerChannelsSP"%string L2 K12. keep "PowerChannelsSP"%string L3 K13.
  keep "PowerChannelsSP"%string L4 K14.
  keep "DewChannelDutyCycleNP"%string L3 K23. keep "DewChannelDutyCycleNP"%string L4 K24.
  keep "DCVoltageNP"%string L4 KV. keep "DCCurrentNP"%string L4 KC.
  keep "PowerChannelCurrentNP"%string L4 KP.
  unfold for_range in L1, L2, L3, L4. rewrite Z.sub_0_r in L1, L2, L3, L4.
  apply channels_loop_sets in L1 as (C1 & P1).
  apply duty_loop_sets in L2 as (C2 & P2).
  apply dc_loop_sets in L3 as (C3 & P3).
  apply pwm_loop_sets in L4 as (C4 & P4).
  assert (C01 : same_cache d d1).
  { destruct C1 as (S1 & S2 & S3 & S4 & S5 & S6). repeat split; assumption. }
  pose proof (same_cache_trans _ _ _ C01 C2) as C02.
  pose proof (same_cache_trans _ _ _ C02 C3) as C03.
  pose proof (same_cache_trans _ _ _ C03 C4) as C04.
  assert (Hc1 : forall k, cached d1 k = cached d k)
    by (intros k; unfold cached; destruct C01 as (-> & _); reflexivity).
  assert (Hc2 : forall k, cached d2 k = cached d k)
    by (intros k; unfold cached; destruct C02 as (-> & _); reflexivity).
  assert (Hc3 : forall k, cached d3 k = cached d k)
    by (intros k; unfold cached; destruct C03 as (-> & _); reflexivity).
  assert (Hc4 : forall k, cached d4 k = cached d k)
    by (intros k; unfold cached; destruct C04 as (-> & _); reflexivity).
  unfold cached in Hx, Hy. cbn [state set_widgets] in Hx, Hy.
  fold (cached d4 (sn + 2 * numDC d + 2 * numPWM d)) in Hx.
  fold (cached d4 (sn + 2 * numDC d + 2 * numPWM d + 1)) in Hy.
  rewrite Hc4 in Hx, Hy.
  cbn [widgets set_widgets set_pstate].
  split.
  { destruct C04 as (S1 & S2 & S3 & S4 & S5 & S6). repeat split; assumption. }
  split.
  { intros i Hi. destruct (P1 i ltac:(cbn [numDC set_widgets set_pstate]; lia)) as (m & Hm & Hw).
    exists m. split; [exact Hm|].
    rewrite !lookup_insert_ne by discriminate.
    destruct K14 as [_ ->]. destruct K13 as [_ ->]. destruct K12 as [_ ->]. exact Hw. }
  split.
  { intros j Hj. destruct (P2 j ltac:(lia)) as (m & Hm & Hw).
    exists m. rewrite Hc1 in Hm. split; [exact Hm|].
    rewrite !lookup_insert_ne by discriminate.
    destruct K24 as [_ ->]. destruct K23 as [_ ->]. exact Hw. }
  split.
  { intros i Hi. destruct (P3 i ltac:(lia)) as (x1 & y1 & Hx1 & Hy1 & W1 & W2 & W3).
    exists x1, y1. rewrite Hc2 in Hx1, Hy1. split; [exact Hx1|]. split; [exact Hy1|].
    rewrite !lookup_insert_ne by discriminate.
    destruct KV as [_ ->]. destruct KC as [_ ->]. destruct KP as [_ ->].
    repeat split; assumption. }
  split.
  { intros i Hi. destruct (P4 i ltac:(lia)) as (x1 & Hx1 & W1).
    exists x1. rewrite Hc3 in Hx1. split; [exact Hx1|].
    rewrite !lookup_insert_ne by discriminate. exact W1. }
  exists x, y. split; [exact Hx|]. split; [exact Hy|].
  split.
  - rewrite !lookup_insert_ne by discriminate. apply lookup_insert_eq.
  - rewrite !lookup_insert_ne by discriminate. apply lookup_insert_eq.
Qed.
Lemma TimerHit_inv (stof : string -> res spec_float) (d d' : driver) :
  isConnected d = true ->
  TimerHit stof d = Done tt d' ->
  exists d1 d2,
    sweep (numSwitch d) d = Done tt d1
    /\ publish stof (numInputV d) (numTotalA d) (sensorNum d) d1 = Done tt d2
    /\ d' = set_timers (S (timers d2)) d2
    /\ same_counts d d1.
Proof.
  intros Hup H. unfold TimerHit in H.
  rewrite (bind_Done _ _ d d true) in H by (unfold gets; rewrite Hup; reflexivity).
  cbn [negb] in H. rewrite (bind_Done _ _ d d d) in H by reflexivity.
  apply bind_Done_inv in H as ([] & d1 & E1 & H).
  apply bind_Done_inv in H as ([] & d2 & E2 & H).
  cbv [SetTimer modify] in H. injection H as <-.
  exists d1, d2. repeat split; try assumption.
  all: pose proof (spec_Done True _ _ _ _ _ (sweep_counts _) E1) as (S1 & S2 & S3 & S4 & S5);
    assumption.
Qed.

Lemma TimerHit_polled : TimerHit stof_fixed polled = Done tt polled_end.
Proof. vm_cast_no_check (eq_refl (Done tt polled_end)). Qed.

(** X21: the sensor values a poll cycle publishes, by index.  When a
    cycle of a connected driver returns, with [sn = total + 4] the index
    of the first output sensor, element [i] of the DC voltage vector is
    the float read from the cache at [sn + 2i], element [i] of the DC
    current vector and of the channel current vector of the power
    interface is the float read at [sn + 2i + 1], element [i] of the
    dew-heater current vector is the float read at
    [sn + 2 numDC + 2i + 1], and the bank voltage and current are read at
    [sn + 2 numDC + 2 numPWM] and the index after it. *)
Theorem sensors_are_published_by_index
    (stof : string -> res spec_float) (d d' : driver) :
  isConnected d = true ->
  numDC d <= 10 -> numPWM d <= 10 ->
  TimerHit stof d = Done tt d' ->
  (forall i, 0 <= i < numDC d' ->
     exists x y,
       stof (cached d' (total d' + 4 + 2 * i)) = Value x
       /\ stof (cached d' (total d' + 4 + 2 * i + 1)) = Value y
       /\ widgets d' !! ("DCVoltageNP"%string, i) = Some (WNum x)
       /\ widgets d' !! ("DCCurrentNP"%string, i) = Some (WNum y)
       /\ widgets d' !! ("PowerChannelCurrentNP"%string, i) = Some (WNum y))
  /\ (forall i, 0 <= i < numPWM d' ->
        exists x,
          stof (cached d' (total d' + 4 + 2 * numDC d' + 2 * i + 1)) = Value x
          /\ widgets d' !! ("PWMCurrentNP"%string, i) = Some (WNum x))
  /\ (exists x y,
        stof (cached d' (total d' + 4 + 2 * numDC d' + 2 * numPWM d')) = Value x
        /\ stof (cached d' (total d' + 4 + 2 * numDC d' + 2 * numPWM d' + 1)) = Value y
        /\ widgets d' !! ("OnSensorNP"%string, ON_V) = Some (WNum x)
        /\ widgets d' !! ("OnSensorNP"%string, ON_A) = Some (WNum y)).
Proof.
  intros Hup _ _ H.
  destruct (TimerHit_inv stof d d' Hup H) as (d1 & d2 & _ & Hp & -> & (S1 & S2 & S3 & S4 & S5)).
  destruct (publish_layout stof _ _ _ _ _ Hp)
    as ((C0 & C1 & C2 & C3 & C4 & C5) & _ & _ & P3 & P4 & P5).
  assert (Hc : forall k, cached (set_timers (S (timers d2)) d2) k = cached d1 k).
  { intros k. unfold cached. cbn [state set_timers]. rewrite C0. reflexivity. }
  unfold sensorNum, total in *.
  rewrite <- ?S1, <- ?S2, <- ?S3, <- ?S4, <- ?S5 in P3, P4, P5.
  cbn [numDC numPWM numOn numRelay numUSB widgets set_timers].
  rewrite C1, C2, C3, C4, C5.
  split; [|split].
  - intros i Hi. destruct (P3 i Hi) as (x & y & Hx & Hy & W).
    exists x, y. rewrite !Hc. auto.
  - intros i Hi. destruct (P4 i Hi) as (x & Hx & W).
    exists x. rewrite Hc. auto.
  - destruct P5 as (x & y & Hx & Hy & W). exists x, y. rewrite !Hc. auto.
Qed.

Lemma sensors_are_published_witness :
  widgets polled_end !! ("DCVoltageNP"%string, 2) = Some (WNum (f32 1 (-1)))
  /\ cached polled_end (total polled_end + 4 + 2 * 2) = "0.50"%string.
Proof.
  destruct (sensors_are_published_by_index stof_fixed polled polled_end eq_refl
              ltac:(vm_compute; discriminate) ltac:(vm_compute; discriminate)
              TimerHit_polled) as (H & _).
  destruct (H 2 ltac:(vm_compute; split; [discriminate | reflexivity]))
    as (x & y & Hx & _ & W & _).
  split; [|reflexivity].
  rewrite W. f_equal. f_equal.
  assert (E : stof_fixed (cached polled_end (total polled_end + 4 + 2 * 2))
              = Value (f32 1 (-1))) by (vm_compute; reflexivity).
  congruence.
Defined.

(** X22: the switch states and duty cycles a poll cycle publishes.
    When a cycle of a connected driver returns, channel [i] of the power
    interface is shown ON exactly when the cache entry [i], read by
    [std::stoi], is not 0, and the duty cycle of dew heater [j] is the
    integer read by [std::stoi] from the entry [numDC + j]: of a text
    such as "50.000000" only the integer part counts. *)
Theorem channels_are_published_by_index
    (stof : string -> res spec_float) (d d' : driver) :
  isConnected d = true ->
  TimerHit stof d = Done tt d' ->
  (forall i, 0 <= i < numDC d' ->
     exists m, stoi (cached d' i) = Value m
               /\ widgets d' !! ("PowerChannelsSP"%string, i)
                  = Some (WSwitch (negb (m =? 0))))
  /\ (forall j, 0 <= j < numPWM d' ->
        exists m, stoi (cached d' (numDC d' + j)) = Value m
                  /\ widgets d' !! ("DewChannelDutyCycleNP"%string, j)
                     = Some (WNum (double_of_int m))).
Proof.
  intros Hup H.
  destruct (TimerHit_inv stof d d' Hup H) as (d1 & d2 & _ & Hp & -> & (S1 & S2 & S3 & S4 & S5)).
  destruct (publish_layout stof _ _ _ _ _ Hp)
    as ((C0 & C1 & C2 & C3 & C4 & C5) & P1 & P2 & _).
  assert (Hc : forall k, cached (set_timers (S (timers d2)) d2) k = cached d1 k).
  { intros k. unfold cached. cbn [state set_timers]. rewrite C0. reflexivity. }
  cbn [numDC numPWM widgets set_timers]. rewrite C1, C2.
  split.
  - intros i Hi. destruct (P1 i Hi) as (m & Hm & W). exists m. rewrite Hc. auto.
  - intros j Hj. destruct (P2 j Hj) as (m & Hm & W). exists m. rewrite Hc. auto.
Qed.

Lemma channels_are_published_witness :
  widgets polled_end !! ("PowerChannelsSP"%string, 0) = Some (WSwitch true)
  /\ widgets polled_end !! ("DewChannelDutyCycleNP"%string, 1) = Some (WNum (double_of_int 1)).
Proof.
  destruct (channels_are_published_by_index stof_fixed polled polled_end eq_refl
              TimerHit_polled) as (H1 & H2).
  destruct (H1 0 ltac:(vm_compute; split; [discriminate | reflexivity])) as (m & Hm & W1).
  destruct (H2 1 ltac:(vm_compute; split; [discriminate | reflexivity])) as (n & Hn & W2).
  assert (E1 : stoi (cached polled_end 0) = Value 1) by (vm_compute; reflexivity).
  assert (E2 : stoi (cached polled_end (numDC polled_end + 1)) = Value 1)
    by (vm_compute; reflexivity).
  split.
  - rewrite W1. replace m with 1 by congruence. reflexivity.
  - rewrite W2. replace n with 1 by congruence. reflexivity.
Defined.
(** ** The entries a sweep leaves alone *)

Lemma keeps_entry_refl (k : nat) (d : driver) : keeps_entry k d d.
Proof. reflexivity. Qed.

Lemma keeps_entry_trans (k : nat) (d1 d2 d3 : driver) :
  keeps_entry k d1 d2 -> keeps_entry k d2 d3 -> keeps_entry k d1 d3.
Proof. unfold keeps_entry. congruence. Qed.

Lemma state_put_keeps_entry (k : nat) (id : Z) (v : string) :
  Z.to_nat id <> k -> spec True (keeps_entry k) (state_put id v).
Proof.
  intros Hne d. unfold state_put. destruct (in_bounds 100 id); [|exact I].
  unfold keeps_entry. cbn [state set_state]. apply list_lookup_insert_ne. exact Hne.
Qed.

Lemma GetSwitchUSB_keeps_entry (k : nat) (id : Z) :
  Z.to_nat id <> k -> spec True (keeps_entry k) (GetSwitchUSB id).
Proof.
  intros Hne. unfold GetSwitchUSB, Transmit, send_packet. cbv zeta.
  spec_go (keeps_entry_refl k) (keeps_entry_trans k);
    try (apply state_put_keeps_entry; exact Hne); spec_leaf.
Qed.

Lemma spec_for_from_in (u : Prop) (R : driver -> driver -> Prop) (body : Z -> M unit) :
  (forall d, R d d) -> (forall d1 d2 d3, R d1 d2 -> R d2 d3 -> R d1 d3) ->
  forall (n : nat) (k : Z),
    (forall i, k <= i < k + Z.of_nat n -> spec u R (body i)) ->
    spec u R (for_from n k body).
Proof.
  intros Hrefl Htrans. induction n as [|n IH]; intros k Hb; [apply spec_ret; exact Hrefl|].
  cbn [for_from]. apply spec_bind; [exact Htrans | apply Hb; lia |].
  intros _. apply IH. intros i Hi. apply Hb. lia.
Qed.

(** A sweep over the indices below [n] leaves every entry from [n] on
    as it was. *)
Lemma sweep_keeps_entry (n k : Z) :
  n <= k -> n <= 2 ^ 15 -> spec True (keeps_entry (Z.to_nat k)) (sweep n).
Proof.
  intros Hk Hn. unfold sweep, for_range.
  apply (spec_for_from_in _ _ _ (keeps_entry_refl _) (keeps_entry_trans _)).
  intros i Hi. apply GetSwitchUSB_keeps_entry. rewrite to_short_small by lia. lia.
Qed.

(** X23: without a bank the bank sensors are read past the sweep.  When
    numOn is 0 the two indices from which [TimerHit] reads the bank
    voltage and current are numSwitch and numSwitch + 1, which the sweep
    does not query: when the cycle returns, the two values it has
    published are read from these entries as they were before the cycle
    (and a cycle cannot return unless [std::stof] reads them). *)
Theorem bank_sensors_without_bank_are_stale
    (stof : string -> res spec_float) (d d' : driver) :
  isConnected d = true ->
  numOn d = 0 ->
  numSwitch d <= 2 ^ 15 ->
  TimerHit stof d = Done tt d' ->
  exists x y,
    stof (cached d (numSwitch d)) = Value x
    /\ stof (cached d (numSwitch d + 1)) = Value y
    /\ widgets d' !! ("OnSensorNP"%string, ON_V) = Some (WNum x)
    /\ widgets d' !! ("OnSensorNP"%string, ON_A) = Some (WNum y).
Proof.
  intros Hup Hon Hn H.
  destruct (TimerHit_inv stof d d' Hup H) as (d1 & d2 & Hs & Hp & -> & (S1 & S2 & S3 & S4 & S5)).
  destruct (publish_layout stof _ _ _ _ _ Hp) as (_ & _ & _ & _ & _ & (x & y & Hx & Hy & W)).
  assert (Hidx : sensorNum d + 2 * numDC d1 + 2 * numPWM d1 = numSwitch d).
  { unfold sensorNum, numSwitch. rewrite S1, S2, Hon. lia. }
  rewrite Hidx in Hx, Hy.
  pose proof (spec_Done True _ _ _ _ _ (sweep_keeps_entry (numSwitch d) (numSwitch d)
                                          ltac:(lia) Hn) Hs) as K0.
  pose proof (spec_Done True _ _ _ _ _ (sweep_keeps_entry (numSwitch d) (numSwitch d + 1)
                                          ltac:(lia) Hn) Hs) as K1.
  unfold keeps_entry in K0, K1. unfold cached in *. rewrite K0 in Hx. rewrite K1 in Hy.
  exists x, y. cbn [widgets set_timers]. tauto.
Qed.

Lemma TimerHit_bankless : TimerHit stof_fixed bankless = Done tt bankless_end.
Proof. vm_cast_no_check (eq_refl (Done tt bankless_end)). Qed.

Lemma bank_sensors_without_bank_witness :
  numSwitch bankless = 7
  /\ rd bankless = answers 7 0 (fun _ => "0"%string)
  /\ widgets bankless_end !! ("OnSensorNP"%string, ON_V) = Some (WNum (f32 1 0)).
Proof.
  destruct (bank_sensors_without_bank_are_stale stof_fixed bankless bankless_end
              eq_refl eq_refl ltac:(vm_compute; discriminate) TimerHit_bankless)
    as (x & y & Hx & _ & W & _).
  split; [reflexivity|]. split; [reflexivity|].
  rewrite W. f_equal. f_equal.
  assert (E : stof_fixed (cached bankless (numSwitch bankless)) = Value (f32 1 0))
    by (vm_compute; reflexivity).
  congruence.
Defined.
(** ** The master toggles *)

Lemma answers_zero_small (k : Z) :
  0 <= k < 100 -> size (frame "G" k "0") < 2 ^ 31.
Proof. intros Hk. apply ended_size; [exact Hk | reflexivity]. Qed.

(** One round of the loop of the DC master toggle, acknowledged. *)
Lemma all_dc_step (i : Z) (rest : list read_result) (d : driver) :
  0 <= i < 100 ->
  length (state d) = 100%nat ->
  rd d = ReadOk (frame "G" i "0") :: rest ->
  (SetSwitchUSB (to_short i) (Z.b2z false) >>
   let* b := state_bool i in
   widget_set "PowerChannelsSP" i (WSwitch b)) d
  = Done tt
      (set_widgets (<[("PowerChannelsSP"%string, i) := WSwitch false]> (widgets d))
         (set_rd rest
            (set_state (<[Z.to_nat i := "0"%string]> (state d))
               (sent (trace_int (packet3 "S" i "0")) (packet3 "S" i "0") d)))).
Proof.
  intros Hi Hlen Hrd.
  assert (Hlt : (Z.to_nat i < length (state d))%nat) by lia.
  rewrite to_short_small by lia. cbn [Z.b2z].
  assert (H1 : SetSwitchUSB i 0 d
               = Done tt (set_rd rest
                            (set_state (<[Z.to_nat i := "0"%string]> (state d))
                               (sent (trace_int (packet3 "S" i "0")) (packet3 "S" i "0") d)))).
  { unfold SetSwitchUSB.
    rewrite (bind_Done _ _ _ _ _ (SetSwitchUSB_request_run i 0 d Hi)).
    rewrite (SetSwitchUSB_reply_frame i _ "0" rest)
      by (first [exact Hi | exact Hrd | apply answers_zero_small; exact Hi]).
    cbn [state set_state]. rewrite list_lookup_insert_eq by exact Hlt.
    reflexivity. }
  rewrite (bind_Done _ _ _ _ _ H1).
  match goal with
  | |- bind (state_bool i) _ ?dd = _ => assert (H2 : state_bool i dd = Done false dd)
  end.
  { unfold state_bool. rewrite (bind_Done _ _ _ _ _ (state_get_in _ _ Hi)).
    cbn [state set_rd set_state]. rewrite list_lookup_insert_eq by exact Hlt.
    reflexivity. }
  rewrite (bind_Done _ _ _ _ _ H2). reflexivity.
Qed.

(** One round of the loop of the dew-heater master toggle, acknowledged. *)
Lemma all_pwm_step (dc j : Z) (rest : list read_result) (d : driver) :
  0 <= dc + j < 100 ->
  length (state d) = 100%nat ->
  rd d = ReadOk (frame "G" (dc + j) "0") :: rest ->
  (SetSwitchValueUSB (to_short (dc + j)) (double_of_int (Z.b2z false)) >>
   let* s := state_get (dc + j) in
   let* v := lift (stoi s) in
   widget_set "DewChannelDutyCycleNP" j (WNum (double_of_int v))) d
  = Done tt
      (set_widgets (<[("DewChannelDutyCycleNP"%string, j) := WNum (double_of_int 0)]> (widgets d))
         (set_rd rest
            (set_state (<[Z.to_nat (dc + j) := "0.000000"%string]> (state d))
               (sent (trace_int (packet3 "S" (dc + j) "0")) (packet3 "S" (dc + j) "0") d)))).
Proof.
  intros Hi Hlen Hrd.
  assert (Hlt : (Z.to_nat (dc + j) < length (state d))%nat) by lia.
  rewrite to_short_small by lia. cbn [Z.b2z].
  assert (H1 : SetSwitchValueUSB (dc + j) (double_of_int 0) d
               = Done tt (set_rd rest
                            (set_state (<[Z.to_nat (dc + j) := "0.000000"%string]> (state d))
                               (sent (trace_int (packet3 "S" (dc + j) "0"))
                                     (packet3 "S" (dc + j) "0") d)))).
  { unfold SetSwitchValueUSB.
    rewrite (bind_Done _ _ _ _ _
               (SetSwitchValueUSB_request_run (dc + j) 0 (double_of_int 0) d Hi eq_refl)).
    rewrite (SetSwitchValueUSB_reply_frame (dc + j) 0 0 _ "0" rest);
      [reflexivity | exact Hi | exact Hrd | apply answers_zero_small; exact Hi | | reflexivity].
    cbn [state set_state]. rewrite list_lookup_insert_eq by exact Hlt. reflexivity. }
  rewrite (bind_Done _ _ _ _ _ H1).
  rewrite (bind_Done _ _ _ _ _ (state_get_in _ _ Hi)).
  cbn [state set_rd set_state]. rewrite list_lookup_insert_eq by exact Hlt.
  reflexivity.
Qed.

Lemma all_dc_loop (n : nat) :
  forall (lo : Z) (d : driver) (rest : list read_result),
    0 <= lo -> lo + Z.of_nat n <= 100 ->
    length (state d) = 100%nat ->
    rd d = answers n lo (fun _ => "0"%string) ++ rest ->
    exists d',
      for_from n lo (fun i =>
                       SetSwitchUSB (to_short i) (Z.b2z false) >>
                       let* b := state_bool i in
                       widget_set "PowerChannelsSP" i (WSwitch b)) d = Done tt d'
      /\ written d' = written d ++ sets n lo 0
      /\ rd d' = rest
      /\ length (state d') = 100%nat
      /\ Alldc d' = Alldc d
      /\ (forall i, lo <= i < lo + Z.of_nat n ->
            cached d' i = "0"%string
            /\ widgets d' !! ("PowerChannelsSP"%string, i) = Some (WSwitch false))
      /\ (forall i, 0 <= i < lo ->
            cached d' i = cached d i
            /\ widgets d' !! ("PowerChannelsSP"%string, i)
               = widgets d !! ("PowerChannelsSP"%string, i)).
Proof.
  induction n as [|n IH]; intros lo d rest Hlo Hhi Hlen Hrd.
  - exists d. cbn [for_from sets]. rewrite app_nil_r.
    repeat split; try reflexivity; try assumption; lia.
  - cbn [for_from]. cbn [answers] in Hrd.
    rewrite (bind_Done _ _ _ _ _ (all_dc_step lo _ d ltac:(lia) Hlen Hrd)).
    match goal with
    | |- context [for_from n (lo + 1) _ ?d1] =>
        destruct (IH (lo + 1) d1 rest) as (d' & Hrun & Hw & Hr & Hl & Ha & Hin & Hout);
          [lia | lia | cbn [state set_widgets set_rd set_state]; rewrite length_insert; exact Hlen
          | reflexivity |]
    end.
    exists d'. split; [exact Hrun|]. split.
    { rewrite Hw. cbn [written set_widgets set_rd set_state sent set_log set_wr set_written sets].
      rewrite <- app_assoc. reflexivity. }
    split; [exact Hr|]. split; [exact Hl|]. split; [exact Ha|]. split.
    + intros i Hi. destruct (Z.eq_dec i lo) as [->|Hne].
      * destruct (Hout lo ltac:(lia)) as [Hc Hwd]. rewrite Hc, Hwd.
        unfold cached. cbn [state widgets set_widgets set_rd set_state].
        rewrite list_lookup_insert_eq by lia. rewrite lookup_insert_eq. split; reflexivity.
      * apply Hin. lia.
    + intros i Hi. destruct (Hout i ltac:(lia)) as [Hc Hwd]. rewrite Hc, Hwd.
      unfold cached. cbn [state widgets set_widgets set_rd set_state].
      rewrite list_lookup_insert_ne by lia.
      rewrite lookup_insert_ne by (intros [= E]; lia). split; reflexivity.
Qed.

Lemma all_pwm_loop (dc : Z) (n : nat) :
  forall (lo : Z) (d : driver) (rest : list read_result),
    0 <= dc -> 0 <= lo -> dc + lo + Z.of_nat n <= 100 ->
    length (state d) = 100%nat ->
    rd d = answers n (dc + lo) (fun _ => "0"%string) ++ rest ->
    exists d',
      for_from n lo (fun i =>
                       SetSwitchValueUSB (to_short (dc + i)) (double_of_int (Z.b2z false)) >>
                       let* s := state_get (dc + i) in
                       let* v := lift (stoi s) in
                       widget_set "DewChannelDutyCycleNP" i (WNum (double_of_int v))) d
      = Done tt d'
      /\ written d' = written d ++ sets n (dc + lo) 0
      /\ rd d' = rest
      /\ length (state d') = 100%nat
      /\ Allpwm d' = Allpwm d
      /\ (forall j, lo <= j < lo + Z.of_nat n ->
            cached d' (dc + j) = "0.000000"%string
            /\ widgets d' !! ("DewChannelDutyCycleNP"%string, j)
               = Some (WNum (double_of_int 0)))
      /\ (forall j, 0 <= j < lo ->
            cached d' (dc + j) = cached d (dc + j)
            /\ widgets d' !! ("DewChannelDutyCycleNP"%string, j)
               = widgets d !! ("DewChannelDutyCycleNP"%string, j)).
Proof.
  intros lo d rest Hdc. revert lo d rest.
  induction n as [|n IH]; intros lo d rest Hlo Hhi Hlen Hrd.
  - exists d. cbn [for_from sets]. rewrite app_nil_r.
    repeat split; try reflexivity; try assumption; lia.
  - cbn [for_from]. cbn [answers] in Hrd.
    rewrite (bind_Done _ _ _ _ _ (all_pwm_step dc lo _ d ltac:(lia) Hlen Hrd)).
    match goal with
    | |- context [for_from n (lo + 1) _ ?d1] =>
        destruct (IH (lo + 1) d1 rest) as (d' & Hrun & Hw & Hr & Hl & Ha & Hin & Hout);
          [lia | lia | cbn [state set_widgets set_rd set_state]; rewrite length_insert; exact Hlen
          | cbn [rd set_widgets set_rd]; rewrite Z.add_assoc; reflexivity |]
    end.
    exists d'. split; [exact Hrun|]. split.
    { rewrite Hw. cbn [written set_widgets set_rd set_state sent set_log set_wr set_written sets].
      rewrite <- app_assoc, Z.add_assoc. reflexivity. }
    split; [exact Hr|]. split; [exact Hl|]. split; [exact Ha|]. split.
    + intros i Hi. destruct (Z.eq_dec i lo) as [->|Hne].
      * destruct (Hout lo ltac:(lia)) as [Hc Hwd]. rewrite Hc, Hwd.
        unfold cached. cbn [state widgets set_widgets set_rd set_state].
        rewrite list_lookup_insert_eq by lia. rewrite lookup_insert_eq. split; reflexivity.
      * apply Hin. lia.
    + intros i Hi. destruct (Hout i ltac:(lia)) as [Hc Hwd]. rewrite Hc, Hwd.
      unfold cached. cbn [state widgets set_widgets set_rd set_state].
      rewrite list_lookup_insert_ne by lia.
      rewrite lookup_insert_ne by (intros [= E]; lia). split; reflexivity.
Qed.

(** X24: what the master toggles send.  Switching the DC master toggle
    off commands every DC output off, S 0 0, ..., S (numDC-1) 0 in this
    order; when the device acknowledges each command, every one of these
    cache entries holds "0" and every channel of the power interface is
    shown OFF.  The dew-heater toggle does the same for the indices
    numDC, ..., numDC+numPWM-1 with duty cycle 0, which leaves the text
    "0.000000" in the cache.  Switching a master toggle on only sets the
    flag: nothing is sent and no output is switched back on. *)
Theorem master_toggles_command_every_output (d : driver) (rest : list read_result) :
  length (state d) = 100%nat ->
  (0 <= numDC d <= 100 ->
   rd d = answers (Z.to_nat (numDC d)) 0 (fun _ => "0"%string) ++ rest ->
   exists d',
     ISNewSwitch (AllDCSP false) d = Done true d'
     /\ Alldc d' = false
     /\ written d' = written d ++ sets (Z.to_nat (numDC d)) 0 0
     /\ rd d' = rest
     /\ forall i, 0 <= i < numDC d ->
          cached d' i = "0"%string
          /\ widgets d' !! ("PowerChannelsSP"%string, i) = Some (WSwitch false))
  /\ (0 <= numDC d -> 0 <= numPWM d -> numDC d + numPWM d <= 100 ->
      rd d = answers (Z.to_nat (numPWM d)) (numDC d) (fun _ => "0"%string) ++ rest ->
      exists d',
        ISNewSwitch (AllPWMSP false) d = Done true d'
        /\ Allpwm d' = false
        /\ written d' = written d ++ sets (Z.to_nat (numPWM d)) (numDC d) 0
        /\ rd d' = rest
        /\ forall j, 0 <= j < numPWM d ->
             cached d' (numDC d + j) = "0.000000"%string
             /\ widgets d' !! ("DewChannelDutyCycleNP"%string, j)
                = Some (WNum (double_of_int 0)))
  /\ ISNewSwitch (AllDCSP true) d = Done true (set_Alldc true d)
  /\ ISNewSwitch (AllPWMSP true) d = Done true (set_Allpwm true d).
Proof.
  intros Hlen. split; [|split; [|split; reflexivity]].
  - intros Hn Hrd. cbn [ISNewSwitch negb].
    destruct (all_dc_loop (Z.to_nat (numDC d)) 0 (set_Alldc false d) rest)
      as (d' & Hrun & Hw & Hr & _ & Ha & Hin & _); [lia | lia | exact Hlen | exact Hrd |].
    exists d'.
    assert (E : ISNewSwitch (AllDCSP false) d = Done true d').
    { cbn [ISNewSwitch negb].
      rewrite (bind_Done _ _ d (set_Alldc false d) tt) by reflexivity.
      rewrite (bind_Done _ _ (set_Alldc false d) d' tt); [reflexivity|].
      rewrite (bind_Done _ _ _ (set_Alldc false d) (numDC d)) by reflexivity.
      unfold for_range. rewrite Z.sub_0_r. exact Hrun. }
    split; [exact E|]. split; [exact Ha|]. split; [exact Hw|]. split; [exact Hr|].
    intros i Hi. apply Hin. lia.
  - intros Hdc Hn Hsum Hrd.
    destruct (all_pwm_loop (numDC d) (Z.to_nat (numPWM d)) 0 (set_Allpwm false d) rest)
      as (d' & Hrun & Hw & Hr & _ & Ha & Hin & _);
      [lia | lia | lia | exact Hlen | rewrite Z.add_0_r; exact Hrd |].
    exists d'.
    assert (E : ISNewSwitch (AllPWMSP false) d = Done true d').
    { cbn [ISNewSwitch negb].
      rewrite (bind_Done _ _ d (set_Allpwm false d) tt) by reflexivity.
      rewrite (bind_Done _ _ (set_Allpwm false d) d' tt); [reflexivity|].
      rewrite (bind_Done _ _ _ (set_Allpwm false d) (numPWM d)) by reflexivity.
      rewrite (bind_Done _ _ _ (set_Allpwm false d) (numDC d)) by reflexivity.
      unfold for_range. rewrite Z.sub_0_r. exact Hrun. }
    split; [exact E|]. split; [exact Ha|].
    split; [rewrite Hw, Z.add_0_r; reflexivity|]. split; [exact Hr|].
    intros j Hj. apply Hin. lia.
Qed.

Lemma master_toggles_witness :
  exists d',
    ISNewSwitch (AllDCSP false) (set_rd (answers 7 0 (fun _ => "0"%string)) stock) = Done true d'
    /\ written d' = sets 7 0 0
    /\ cached d' 6 = "0"%string.
Proof.
  destruct (master_toggles_command_every_output
              (set_rd (answers 7 0 (fun _ => "0"%string)) stock) [] eq_refl)
    as (H & _).
  destruct H as (d' & E & _ & W & _ & C).
  - vm_compute. split; discriminate.
  - reflexivity.
  - exists d'. split; [exact E|]. split; [exact W|].
    apply C. vm_compute. split; [discriminate | reflexivity].
Defined.
(** ** The bank and relay switches *)

Lemma state_bool_run (k : Z) (d : driver) :
  0 <= k < 100 ->
  state_bool k d
  = match stoi (cached d k) with
    | Value n => Done (negb (n =? 0)) d
    | Raise e => Throw e d
    end.
Proof.
  intros Hk. unfold state_bool. rewrite (bind_Done _ _ _ _ _ (state_get_in _ _ Hk)).
  unfold cached, bind, lift, ret. destruct (stoi _); reflexivity.
Qed.

Lemma switch_handler_result
    (prop : string) (k : Z) (enabled : bool) (v0 p : string) (rest : list read_result)
    (d : driver) :
  0 <= k < 100 ->
  state d !! Z.to_nat k = Some v0 ->
  size p < 2 ^ 30 ->
  rd d = ReadOk (frame "G" k p) :: rest ->
  (front (to_string (Z.b2z enabled)) = front p ->
   exists d',
     (SetSwitchUSB k (Z.b2z enabled) >>
      (let* b := state_bool k in
       setState prop (ok_or_alert (Bool.eqb b enabled)) >> ret true)) d = Done true d'
     /\ pstate d' !! prop = Some IPS_OK
     /\ cached d' k = to_string (Z.b2z enabled))
  /\ (front (to_string (Z.b2z enabled)) <> front p ->
      forall m, stoi v0 = Value m ->
      exists d',
        (SetSwitchUSB k (Z.b2z enabled) >>
         (let* b := state_bool k in
          setState prop (ok_or_alert (Bool.eqb b enabled)) >> ret true)) d = Done true d'
        /\ pstate d' !! prop = Some (ok_or_alert (Bool.eqb (negb (m =? 0)) enabled))
        /\ cached d' k = v0)
  /\ (front (to_string (Z.b2z enabled)) <> front p ->
      forall e, stoi v0 = Raise e ->
      exists d',
        (SetSwitchUSB k (Z.b2z enabled) >>
         (let* b := state_bool k in
          setState prop (ok_or_alert (Bool.eqb b enabled)) >> ret true)) d = Throw e d'
        /\ cached d' k = v0
        /\ pstate d' = pstate d).
Proof.
  intros Hk Hv0 Hs Hrd.
  assert (Hlen : (Z.to_nat k < length (state d))%nat) by (eapply lookup_lt_Some; eauto).
  destruct (SetSwitchUSB_frame_result d k (Z.b2z enabled) v0 p rest Hk Hv0 Hs Hrd)
    as (d1 & E & S & _ & _ & Hps & _).
  rewrite (bind_Done _ _ _ _ _ E).
  pose proof (state_bool_run k d1 Hk) as Hb. unfold cached in Hb.
  split; [|split].
  - intros Hf. apply Ascii.eqb_eq in Hf. rewrite Hf in S. rewrite S in Hb.
    rewrite list_lookup_insert_eq in Hb by exact Hlen.
    change (default EmptyString (Some (to_string (Z.b2z enabled))))
      with (to_string (Z.b2z enabled)) in Hb.
    rewrite (stoi_to_string (Z.b2z enabled)) in Hb by (destruct enabled; reflexivity).
    rewrite (bind_Done _ _ _ _ _ Hb).
    eexists. split; [reflexivity|]. cbn [pstate set_pstate]. split.
    + rewrite lookup_insert_eq. destruct enabled; reflexivity.
    + unfold cached. cbn [state set_pstate]. rewrite S.
      rewrite list_lookup_insert_eq by exact Hlen. reflexivity.
  - intros Hf m Hm. apply Ascii.eqb_neq in Hf. rewrite Hf in S. rewrite S, Hv0 in Hb.
    change (default EmptyString (Some v0)) with v0 in Hb. rewrite Hm in Hb.
    rewrite (bind_Done _ _ _ _ _ Hb).
    eexists. split; [reflexivity|]. cbn [pstate set_pstate]. split.
    + apply lookup_insert_eq.
    + unfold cached. cbn [state set_pstate]. rewrite S, Hv0. reflexivity.
  - intros Hf e He. apply Ascii.eqb_neq in Hf. rewrite Hf in S. rewrite S, Hv0 in Hb.
    change (default EmptyString (Some v0)) with v0 in Hb. rewrite He in Hb.
    rewrite (bind_Throw _ _ _ _ _ Hb).
    eexists. split; [reflexivity|]. split; [|exact Hps].
    unfold cached. rewrite S, Hv0. reflexivity.
Qed.

(** X25: what the bank and relay switches report.  The handler of the
    bank vector commands index numDC+numPWM and that of the relay vector
    index numDC+numPWM+numOn.  When the first character of the reply
    agrees with the state asked for, the vector is set to OK and the
    cache holds that state.  Otherwise the cache entry is restored and
    read with [std::stoi]: the vector is OK if the restored entry happens
    to stand for the state asked for and ALERT if not, and when the
    restored entry is not a number (an entry never filled, say) the
    exception leaves the handler and the vector keeps its state. *)
Theorem bank_and_relay_switches_report
    (d : driver) (enabled : bool) (k : Z) (ev : switch_event) (prop v0 p : string)
    (rest : list read_result) :
  In (k, ev, prop) (single_switches d enabled) ->
  0 <= k < 100 ->
  state d !! Z.to_nat k = Some v0 ->
  size p < 2 ^ 30 ->
  rd d = ReadOk (frame "G" k p) :: rest ->
  (front (to_string (Z.b2z enabled)) = front p ->
   exists d',
     ISNewSwitch ev d = Done true d'
     /\ pstate d' !! prop = Some IPS_OK
     /\ cached d' k = to_string (Z.b2z enabled))
  /\ (front (to_string (Z.b2z enabled)) <> front p ->
      forall m, stoi v0 = Value m ->
      exists d',
        ISNewSwitch ev d = Done true d'
        /\ pstate d' !! prop = Some (ok_or_alert (Bool.eqb (negb (m =? 0)) enabled))
        /\ cached d' k = v0)
  /\ (front (to_string (Z.b2z enabled)) <> front p ->
      forall e, stoi v0 = Raise e ->
      exists d',
        ISNewSwitch ev d = Throw e d'
        /\ cached d' k = v0
        /\ pstate d' = pstate d).
Proof.
  intros Hin Hk Hv0 Hs Hrd.
  assert (E : ISNewSwitch ev d
              = (SetSwitchUSB k (Z.b2z enabled) >>
                 (let* b := state_bool k in
                  setState prop (ok_or_alert (Bool.eqb b enabled)) >> ret true)) d).
  { cbn in Hin. destruct Hin as [[= <- <- <-]|[[= <- <- <-]|[]]];
      cbn [ISNewSwitch]; rewrite (bind_Done _ _ d d d) by reflexivity;
      rewrite to_short_small by lia; reflexivity. }
  rewrite E. apply (switch_handler_result prop k enabled v0 p rest d Hk Hv0 Hs Hrd).
Qed.

Lemma bank_and_relay_switches_witness :
  exists d',
    ISNewSwitch (RelaySP true) (set_rd [ReadOk (frame "G" 11 "0")] stock)
    = Throw invalid_argument d'
    /\ cached d' 11 = EmptyString.
Proof.
  destruct (bank_and_relay_switches_report (set_rd [ReadOk (frame "G" 11 "0")] stock)
              true 11 (RelaySP true) "RelaySP" EmptyString "0" [])
    as (_ & _ & H);
    [right; left; reflexivity | lia | reflexivity | vm_compute; reflexivity | reflexivity |].
  destruct (H ltac:(vm_compute; discriminate) invalid_argument eq_refl) as (d' & E & C & _).
  exists d'. split; [exact E | exact C].
Defined.
(** ** The ports of the power interface *)

Lemma SetSwitchValueUSB_reply_written (id : Z) (prev : string) :
  0 <= id < 100 -> spec False same_written (SetSwitchValueUSB_reply id prev).
Proof.
  intros Hid. unfold SetSwitchValueUSB_reply. cbv zeta.
  spec_go same_written_refl same_written_trans;
    try apply ReceiveTerminated_written; try apply strip_both_written;
    try apply read_switchN_written; spec_leaf.
Qed.

(** A set-switch command with a duty cycle puts exactly one packet on
    the line, whatever the reply. *)
Lemma SetSwitchValueUSB_packet (id n : Z) (x : spec_float) :
  0 <= id < 100 ->
  double_to_int x = Some n ->
  spec False (fun d d' => written d' = written d ++ [packet3 "S" id (to_string n)])
       (SetSwitchValueUSB id x).
Proof.
  intros Hid Hx d. unfold SetSwitchValueUSB.
  rewrite (bind_Done _ _ _ _ _ (SetSwitchValueUSB_request_run id n x d Hid Hx)).
  match goal with
  | |- context [SetSwitchValueUSB_reply id ?p ?d1] =>
      pose proof (SetSwitchValueUSB_reply_written id p Hid d1) as H;
      destruct (SetSwitchValueUSB_reply id p d1)
  end; unfold same_written in H; cbn in H; try contradiction; exact H.
Qed.

(** The duty cycles 0 ... 100 as doubles. *)
Lemma duty_round_trip (n : Z) :
  0 <= n <= 100 -> double_to_int (double_of_int n) = Some n.
Proof.
  intros Hn.
  assert (H : forallb (fun k => match double_to_int (double_of_int (Z.of_nat k)) with
                                | Some m => m =? Z.of_nat k
                                | None => false
                                end) (seq 0 101) = true) by (vm_compute; reflexivity).
  rewrite forallb_forall in H. specialize (H (Z.to_nat n)).
  rewrite Z2Nat.id in H by lia.
  destruct (double_to_int (double_of_int n)) as [m|].
  - f_equal. apply Z.eqb_eq. apply H. apply in_seq. lia.
  - discriminate H. apply in_seq. lia.
Qed.

(** X26: the ports of the power interface are commanded by index.  With
    its master toggle on, [SetPowerPort] writes one command S with the
    port number as index and 1 or 0 as value.  [SetDewPort] writes one
    command S with index numDC + port; its value is the duty cycle cut
    to an integer when the port is enabled and 0 when it is not.  This
    holds whatever the device answers. *)
Theorem power_ports_are_commanded_by_index
    (d : driver) (port n : Z) (enabled : bool) (dutyCycle : spec_float) :
  0 <= port ->
  (Alldc d = true -> port < 100 ->
   exists d',
     final (SetPowerPort port enabled d) = Some d'
     /\ written d' = written d ++ [packet3 "S" port (to_string (Z.b2z enabled))])
  /\ (Allpwm d = true -> 0 <= numDC d + port < 100 ->
      double_to_int dutyCycle = Some n -> 0 <= n <= 100 ->
      exists d',
        final (SetDewPort port enabled dutyCycle d) = Some d'
        /\ written d' = written d
                        ++ [packet3 "S" (numDC d + port) (to_string (if enabled then n else 0))]).
Proof.
  intros Hport. split.
  - intros Hall Hlt.
    pose proof (state_get_in port d ltac:(lia)) as Hg.
    pose proof (to_short_small port ltac:(lia)) as Hsh.
    cbv [SetPowerPort bind gets LOG modify ret]. rewrite Hall, Hg, Hsh.
    match goal with
    | |- context [SetSwitchUSB port ?v ?d2] =>
        pose proof (SetSwitchUSB_packet port v ltac:(lia) d2) as H;
        destruct (SetSwitchUSB port v d2) as [[] d'|e d'|]; [| |contradiction]
    end; exists d'; (split; [reflexivity | exact H]).
  - intros Hall Hid Hd Hn.
    pose proof (size_t_small (numDC d + port) ltac:(lia)) as Hsz.
    pose proof (to_short_small (numDC d + port) ltac:(lia)) as Hsh.
    cbv [SetDewPort bind gets LOG modify ret]. rewrite Hall, Hd.
    cbn [numDC set_log]. rewrite Hsz, Hsh.
    destruct enabled.
    + match goal with
      | |- context [SetSwitchValueUSB ?id ?x ?d2] =>
          pose proof (SetSwitchValueUSB_packet id n x Hid (duty_round_trip n Hn) d2) as H;
          destruct (SetSwitchValueUSB id x d2) as [[] d'|e d'|]; [| |contradiction]
      end; exists d'; (split; [reflexivity | exact H]).
    + match goal with
      | |- context [SetSwitchValueUSB ?id ?x ?d2] =>
          pose proof (SetSwitchValueUSB_packet id 0 x Hid eq_refl d2) as H;
          destruct (SetSwitchValueUSB id x d2) as [[] d'|e d'|]; [| |contradiction]
      end; exists d'; (split; [reflexivity | exact H]).
Qed.

Lemma power_ports_witness :
  exists d',
    final (SetDewPort 1 true (double_of_int 40) stock) = Some d'
    /\ written d' = [packet3 "S" 8 "40"].
Proof.
  destruct (power_ports_are_commanded_by_index stock 1 40 true (double_of_int 40)
              ltac:(lia)) as (_ & H).
  apply H; [reflexivity | vm_compute; split; [discriminate | reflexivity] | reflexivity | lia].
Defined.
(** ** Text properties *)

Lemma log_grows_refl (d : driver) : log_grows d d.
Proof. exists []. rewrite app_nil_r. reflexivity. Qed.

Lemma log_grows_trans (d1 d2 d3 : driver) :
  log_grows d1 d2 -> log_grows d2 d3 -> log_grows d1 d3.
Proof.
  intros [l1 H1] [l2 H2]. exists (l1 ++ l2). rewrite H2, H1, app_assoc. reflexivity.
Qed.

Lemma same_surface_refl (d : driver) : same_surface d d.
Proof. split; reflexivity. Qed.

Lemma same_surface_trans (d1 d2 d3 : driver) :
  same_surface d1 d2 -> same_surface d2 d3 -> same_surface d1 d3.
Proof. unfold same_surface. intuition congruence. Qed.

Ltac grow_leaf :=
  let d := fresh "d" in
  intros d;
  unfold state_get, state_put, name_switch_put, Reverse_get, Reverse_put, Limit_put,
    LOG, widget_set, setState, SetTimer, modify, tty_read_section, tty_write_string,
    undefined, in_bounds in *;
  repeat match goal with
         | |- _ => progress cbn [andb orb negb]
         | |- context [match ?x with _ => _ end] =>
             lazymatch x with
             | context [match _ with _ => _ end] => fail
             | _ => destruct x
             end
         end;
  cbn; try exact I; try apply log_grows_refl;
  try (exists []; cbn; rewrite app_nil_r; reflexivity); try (eexists; reflexivity).

Lemma GetIP_log_grows : spec True log_grows GetIP.
Proof.
  unfold GetIP, wifi_reply, Transmit, send_packet, ReceiveTerminated. cbv zeta.
  spec_go log_grows_refl log_grows_trans; grow_leaf.
Qed.

Lemma wifi_reply_written (tag : ascii) (store : string -> driver -> driver) (widget : Z)
    (what : string) :
  (forall s d, written (store s d) = written d) ->
  spec True same_written (wifi_reply tag store widget what).
Proof.
  intros Hst. unfold wifi_reply. cbv zeta.
  spec_go same_written_refl same_written_trans;
    try apply ReceiveTerminated_written;
    try (apply spec_modify; intros; apply Hst); spec_leaf.
Qed.

Lemma text_at_in (texts : list string) (i : Z) (s : string) (d : driver) :
  0 <= i -> texts !! Z.to_nat i = Some s -> text_at texts i d = Done s d.
Proof.
  intros Hi H. unfold text_at. destruct (Z.leb_spec 0 i); [|lia]. rewrite H. reflexivity.
Qed.


Lemma written_sent (pre : list (log_level * string)) (packet : string) (d : driver) :
  written (sent pre packet d) = written d ++ [packet].
Proof. reflexivity. Qed.

Lemma GetIP_writes (d d' : driver) :
  GetIP d = Done tt d' -> written d' = written d ++ [packet2 "I" 0].
Proof.
  intros E. unfold GetIP in E.
  rewrite (bind_Done _ _ _ _ _ (Transmit_sent _ _ _)) in E.
  apply (spec_Done True _ _ _ _ _ (wifi_reply_written _ set_IP _ _ (fun _ _ => eq_refl))) in E.
  exact E.
Qed.

Lemma SetSSID_writes (ssid : string) (d d' : driver) :
  SetSSID ssid d = Done tt d' -> written d' = written d ++ [packet3 "F" 0 ssid].
Proof.
  intros E. unfold SetSSID in E.
  rewrite (bind_Done _ _ _ _ _ (Transmit_string_sent _ _ _ _)) in E.
  apply (spec_Done True _ _ _ _ _ (wifi_reply_written _ set_SSID _ _ (fun _ _ => eq_refl)))
    in E.
  exact E.
Qed.
(** X27: what setting the WiFi credentials sends.  When the handler of
    the WiFi vector returns, it has written four packets in this order:
    F with the SSID (element 1 of the texts), H with the password
    (element 2), p, and I; the two elements it shows are the [IP] and
    [SSID] members as the replies left them; and the password stands in
    clear in a DEBUG entry of the log. *)
Theorem wifi_credentials_exchange
    (stof : string -> res spec_float) (d d' : driver) (texts : list string)
    (ssid pwd : string) (r : bool) :
  texts !! 1%nat = Some ssid ->
  texts !! 2%nat = Some pwd ->
  ISNewText stof (WifiTP texts) d = Done r d' ->
  r = true
  /\ written d' = written d ++ [packet3 "F" 0 ssid; packet3 "H" 0 pwd; packet2 "p" 0;
                                packet2 "I" 0]
  /\ widgets d' !! ("WifiTP"%string, 0) = Some (WText (IP d'))
  /\ widgets d' !! ("WifiTP"%string, 1) = Some (WText (SSID d'))
  /\ In (DEBUG, "CMD <" +:+ packet3 "H" 0 pwd +:+ ">") (log d').
Proof.
  intros H1 H2 H. cbn [ISNewText] in H.
  rewrite (bind_Done _ _ d d ssid) in H by (apply text_at_in; [lia | exact H1]).
  apply bind_Done_inv in H as ([] & d1 & E1 & H).
  rewrite (bind_Done _ _ d1 d1 pwd) in H by (apply text_at_in; [lia | exact H2]).
  unfold SetPWD in H.
  rewrite (bind_Done _ _ d1 _ tt (bind_Done _ _ _ _ _ (Transmit_string_sent _ _ _ _))) in H.
  rewrite (bind_Done _ _ _ _ _ (Transmit_sent _ _ _)) in H.
  apply bind_Done_inv in H as ([] & d4 & E4 & H).
  cbv [bind gets widget_set modify ret] in H. injection H as <- <-.
  split; [reflexivity|].
  pose proof (SetSSID_writes _ _ _ E1) as W1.
  pose proof (spec_Done True _ _ _ _ _ GetIP_log_grows E4) as [l Hl].
  assert (W4 : written d4
               = written d ++ [packet3 "F" 0 ssid; packet3 "H" 0 pwd; packet2 "p" 0;
                               packet2 "I" 0]).
  { rewrite (GetIP_writes _ _ E4), !written_sent, W1, <- !app_assoc. reflexivity. }
  split; [exact W4|].
  cbn [widgets set_widgets IP SSID log].
  split; [rewrite lookup_insert_ne by discriminate; apply lookup_insert_eq|].
  split; [apply lookup_insert_eq|].
  rewrite Hl.
  cbn [log sent set_log set_wr set_written].
  apply in_or_app. left. apply in_or_app. left. apply in_or_app. right.
  apply in_or_app. left. left. reflexivity.
Qed.

Lemma wifi_credentials_witness :
  exists d',
    ISNewText stof_fixed (WifiTP ["-"; "Home"; "secret"]%string)
      (set_rd [ReadOk "#f:Home;"; ReadOk "#i:10.0.0.7;"] fresh) = Done true d'
    /\ written d' = [packet3 "F" 0 "Home"; packet3 "H" 0 "secret"; packet2 "p" 0; packet2 "I" 0]
    /\ In (DEBUG, "CMD <" +:+ packet3 "H" 0 "secret" +:+ ">") (log d').
Proof.
  eexists. split; [vm_compute; reflexivity|].
  match goal with
  | |- written ?x = _ /\ _ =>
      destruct (wifi_credentials_exchange stof_fixed
                  (set_rd [ReadOk "#f:Home;"; ReadOk "#i:10.0.0.7;"] fresh) x
                  ["-"; "Home"; "secret"]%string "Home" "secret" true eq_refl eq_refl)
        as (_ & W & _ & _ & L)
  end.
  - vm_compute. reflexivity.
  - split; [exact W | exact L].
Defined.
(** ** Label and limit vectors *)

Lemma for_from_idle (body : Z -> M unit) (d : driver) (n : nat) :
  forall k,
    (forall i, k <= i < k + Z.of_nat n -> body i d = Done tt d) ->
    for_from n k body d = Done tt d.
Proof.
  induction n as [|n IH]; intros k Hb; [reflexivity|].
  cbn [for_from]. rewrite (bind_Done _ _ d d tt) by (apply Hb; lia).
  apply IH. intros i Hi. apply Hb. lia.
Qed.

Lemma for_range_idle (body : Z -> M unit) (d : driver) (n : Z) :
  (forall i, 0 <= i < n -> body i d = Done tt d) ->
  for_range 0 n body d = Done tt d.
Proof.
  intros Hb. unfold for_range. apply for_from_idle. intros i Hi. apply Hb. lia.
Qed.

Lemma compare_idle (prop : string) (texts : list string) (i : Z) (t : string)
    (change : string -> M unit) (d : driver) :
  0 <= i ->
  widgets d !! (prop, i) = Some (WText t) ->
  texts !! Z.to_nat i = Some t ->
  (let* cur := getText prop i in
   let* t := text_at texts i in
   if negb (String.eqb cur t) then change t else ret tt) d = Done tt d.
Proof.
  intros Hi Hw Ht.
  rewrite (bind_Done _ _ d d t) by (unfold getText; rewrite Hw; reflexivity).
  rewrite (bind_Done _ _ d d t) by (apply text_at_in; assumption).
  rewrite String.eqb_refl. reflexivity.
Qed.

(** X28: sending a label or limit vector the texts it already shows
    sends nothing.  When every text matches the text of its element, the
    handler returns true and leaves the driver as it was: no packet is
    written, nothing is read, nothing is logged. *)
Theorem unchanged_texts_send_nothing
    (stof : string -> res spec_float) (d : driver) (texts : list string)
    (ev : text_event) (prop : string) (n : Z) :
  In (ev, prop, n) (compared_vectors d texts) ->
  shows prop n texts d ->
  ISNewText stof ev d = Done true d.
Proof.
  intros Hin Hs. unfold shows in Hs.
  destruct Hin as [E|[E|[E|[]]]]; injection E as <- <- <-; cbn [ISNewText];
    cbv [bind gets];
    match goal with
    | |- context [for_range 0 ?n ?b d] =>
        assert (Hl : for_range 0 n b d = Done tt d);
        [ apply for_range_idle; intros i Hi; destruct (Hs i Hi) as (t & Hw & Ht);
          apply (compare_idle _ _ _ t); [lia | exact Hw | exact Ht]
        | rewrite Hl; reflexivity ]
    end.
Qed.

Lemma unchanged_texts_witness :
  ISNewText stof_fixed (PowerChannelLabelsTP ["Mount"; "Camera"]%string) labelled
  = Done true labelled.
Proof.
  apply (unchanged_texts_send_nothing stof_fixed labelled ["Mount"; "Camera"]%string
           (PowerChannelLabelsTP ["Mount"; "Camera"]%string) "PowerChannelLabelsTP" 2).
  - left. reflexivity.
  - intros i Hi. assert (E : i = 0 \/ i = 1) by lia.
    destruct E as [-> | ->]; eexists; split; reflexivity.
Defined.

Lemma ReceiveTerminated_surface (u : Prop) (t : ascii) :
  spec u same_surface (ReceiveTerminated t).
Proof.
  unfold ReceiveTerminated.
  spec_go same_surface_refl same_surface_trans; spec_leaf.
Qed.

Lemma SetNameUSB_reply_surface (id : Z) : spec True same_surface (SetNameUSB_reply id).
Proof.
  unfold SetNameUSB_reply, read_switchN. cbv zeta.
  spec_go same_surface_refl same_surface_trans;
    try apply ReceiveTerminated_surface; spec_leaf.
Qed.

Lemma SetNameUSB_surface (id : Z) (t : string) (d d' : driver) :
  SetNameUSB id t d = Done tt d' ->
  written d' = written d ++ [packet3 "N" id t] /\ widgets d' = widgets d.
Proof.
  intros E. unfold SetNameUSB in E.
  assert (R : SetNameUSB_request id t d
              = Done tt (sent (trace (packet3 "N" id t)) (packet3 "N" id t) d)).
  { unfold SetNameUSB_request.
    rewrite (bind_Done _ _ _ _ _ (Transmit_string_sent _ _ _ _)). reflexivity. }
  rewrite (bind_Done _ _ _ _ _ R) in E.
  apply (spec_Done True _ _ _ _ _ (SetNameUSB_reply_surface id)) in E.
  exact E.
Qed.

Lemma renames_ext (prop : string) (w w' : gmap (string * Z) wval) (texts : list string)
    (base : Z) (n : nat) :
  forall lo,
    (forall k, lo <= k -> w' !! (prop, k) = w !! (prop, k)) ->
    renames prop w' texts base n lo = renames prop w texts base n lo.
Proof.
  induction n as [|n IH]; intros lo H; [reflexivity|].
  cbn [renames]. rewrite (H lo) by lia. f_equal. apply IH. intros k Hk. apply H. lia.
Qed.

Lemma label_loop (prop : string) (texts : list string) (base : Z) (n : nat) :
  forall lo d d',
    0 <= lo -> - 2 ^ 15 <= base + lo -> base + lo + Z.of_nat n <= 2 ^ 15 ->
    for_from n lo (fun i =>
      let* cur := getText prop i in
      let* t := text_at texts i in
      if negb (String.eqb cur t) then
        SetNameUSB (to_short (base + i)) t >>
        let* nm := name_switch_get (base + i) in
        widget_set prop i (WText nm)
      else ret tt) d = Done tt d' ->
    written d' = written d ++ renames prop (widgets d) texts base n lo.
Proof.
  induction n as [|n IH]; intros lo d d' Hlo Hb Hn H.
  - cbn in H. injection H as <-. cbn [renames]. rewrite app_nil_r. reflexivity.
  - cbn [for_from] in H. apply bind_Done_inv in H as ([] & d1 & E & H).
    apply IH in H; [|lia|lia|lia].
    apply bind_Done_inv in E as (cur & d0 & G & E).
    unfold getText in G. destruct (widgets d !! (prop, lo)) as [[x|b|s]|] eqn:Hw;
      try discriminate G. injection G as <- <-.
    apply bind_Done_inv in E as (t & d0 & G & E).
    unfold text_at in G. destruct (0 <=? lo); [|discriminate G].
    destruct (texts !! Z.to_nat lo) as [t'|] eqn:Ht; [|discriminate G].
    injection G as <- <-.
    cbn [renames]. rewrite Hw, Ht.
    destruct (String.eqb s t') eqn:Heq; cbn [negb] in E.
    + injection E as <-. exact H.
    + apply bind_Done_inv in E as ([] & d2 & S & E).
      apply bind_Done_inv in E as (nm & d3 & G & E).
      unfold name_switch_get in G. destruct (in_bounds 100 (base + lo)); [|discriminate G].
      injection G as <- <-.
      cbv [widget_set modify] in E. injection E as <-.
      rewrite to_short_small in S by lia.
      apply SetNameUSB_surface in S as [W V].
      rewrite H. cbn [written set_widgets].
      rewrite W, <- app_assoc. cbn [app]. f_equal. f_equal.
      apply renames_ext. intros k Hk. cbn [widgets set_widgets].
      rewrite lookup_insert_ne by (intros [= ?]; lia). rewrite V. reflexivity.
Qed.

(** X29: a label vector renames exactly the outputs whose label differs.
    When the handler of the power or of the dew labels returns, it
    returns true and the packets it has written are the set-name
    commands [renames] lists: one N packet, in index order, for each
    element whose text differs from the text the element showed when the
    handler started, addressed to the output's index in its class plus
    the index of the first output of the class. *)
Theorem labels_rename_what_differs
    (stof : string -> res spec_float) (d d' : driver) (texts : list string)
    (ev : text_event) (prop : string) (base n : Z) (r : bool) :
  In (ev, prop, base, n) (label_vectors d texts) ->
  - 2 ^ 15 <= base -> 0 <= n -> base + n <= 2 ^ 15 ->
  ISNewText stof ev d = Done r d' ->
  r = true
  /\ written d' = written d ++ renames prop (widgets d) texts base (Z.to_nat n) 0.
Proof.
  intros Hin Hb H0 Hn H.
  destruct Hin as [E|[E|[]]]; injection E as <- <- <- <-; cbn [ISNewText] in H;
    cbv [gets] in H; unfold bind at 1 in H; try (unfold bind at 1 in H);
    apply bind_Done_inv in H as ([] & d1 & E & H); injection H as <- <-;
    (split; [reflexivity|]);
    unfold for_range in E; rewrite Z.sub_0_r in E.
  - apply (label_loop "PowerChannelLabelsTP" texts 0) in E; [exact E | lia | lia | lia].
  - apply (label_loop "DewChannelLabelsTP" texts (numDC d)) in E; [exact E | lia | lia | lia].
Qed.

Lemma labels_rename_witness :
  ISNewText stof_fixed (PowerChannelLabelsTP ["Mount"; "Scope"]%string) relabelling
  = Done true relabelled
  /\ written relabelled = [packet3 "N" 1 "Scope"].
Proof.
  assert (E : ISNewText stof_fixed (PowerChannelLabelsTP ["Mount"; "Scope"]%string) relabelling
              = Done true relabelled)
    by (vm_cast_no_check (eq_refl (Done true relabelled))).
  split; [exact E|].
  destruct (labels_rename_what_differs stof_fixed relabelling relabelled
              ["Mount"; "Scope"]%string
              (PowerChannelLabelsTP ["Mount"; "Scope"]%string) "PowerChannelLabelsTP" 0 2 true)
    as [_ W].
  - left. reflexivity.
  - lia.
  - lia.
  - lia.
  - exact E.
  - exact W.
Defined.
(** ** Topology and the poll count *)

(** C7: topology discovery reads the comma list of the Z reply from its
    tail.  For any five ints, the reply whose payload is the list
    [a,b,c,bank,usb] (with a text [h] free of ':' and ';' between the
    tag and the colon and any text [tail] after the terminator) gives
    numDC = a, numPWM = b, numRelay = c, numOn = bank and numUSB = usb,
    whatever the counts were before: the last field is the USB count,
    the one before it the bank, then the relay, then PWM, and what
    remains is DC.  So "#Z:7,3,1,1,7;" gives 7 DC, 3 PWM, 1 relay,
    1 bank and 7 USB, hence 19 physical switches and 45 polled indices.
    In a poll cycle of a connected driver whose device answers every
    request, the sweep returns after writing exactly the requests
    G 0 ... G (n-1) with n = (numDC+numPWM+numOn)*2 + total + 4, and
    these are all the packets [TimerHit] has written when it ends. *)
Theorem topology_and_poll_count
    (stof : string -> res spec_float) (d : driver) (rest : list read_result)
    (val : Z -> string) (a b c bank usb : Z) (h tail : string) :
  (in_int a = true -> in_int b = true -> in_int c = true -> in_int bank = true ->
   in_int usb = true ->
   sfind ":" h = None -> sfind ";" h = None ->
   size h + size tail < 2 ^ 30 ->
   rd d = ReadOk (reply "Z" h (counts_text a b c bank usb) tail) :: rest ->
   exists d',
     GetNum d = Done tt d'
     /\ numDC d' = a /\ numPWM d' = b /\ numRelay d' = c /\ numOn d' = bank /\ numUSB d' = usb
     /\ total d' = a + b + c + bank + usb
     /\ numSwitch d' = (a + b + bank) * 2 + (a + b + c + bank + usb) + 4)
  /\
  (isConnected d = true ->
   0 <= numSwitch d <= 100 ->
   (forall k, 0 <= k < numSwitch d -> size (val k) <= 60 /\ sfind ";" (val k) = None) ->
   rd d = answers (Z.to_nat (numSwitch d)) 0 val ++ rest ->
   numSwitch d
   = (numDC d + numPWM d + numOn d) * 2
     + (numDC d + numPWM d + numRelay d + numOn d + numUSB d) + 4
   /\ exists d1,
        sweep (numSwitch d) d = Done tt d1
        /\ written d1 = written d ++ polls (Z.to_nat (numSwitch d)) 0
        /\ Z.of_nat (length (polls (Z.to_nat (numSwitch d)) 0)) = numSwitch d
        /\ forall d', final (TimerHit stof d) = Some d' ->
                      written d' = written d ++ polls (Z.to_nat (numSwitch d)) 0).
Proof.
  split.
  - intros Ha Hb Hc Hd He Hhc Hhs Hs Hrd. eexists. split.
    + apply (GetNum_decodes a b c bank usb h tail rest); try assumption.
      rewrite reply_size. pose proof (size_counts_text a b c bank usb Ha Hb Hc Hd He). lia.
    + unfold numSwitch, total. cbn. repeat split; lia.
  - intros Hup Hn Hval Hrd. split; [unfold numSwitch, total; lia|].
    destruct (sweep_polls val rest (Z.to_nat (numSwitch d)) 0 d) as (d1 & Hrun & Hw & _);
      try lia; try assumption.
    { intros k Hk. apply Hval. lia. }
    assert (Hsweep : sweep (numSwitch d) d = Done tt d1).
    { unfold sweep, for_range. rewrite Z.sub_0_r. exact Hrun. }
    exists d1. split; [exact Hsweep|]. split; [exact Hw|].
    split; [rewrite length_polls; lia|].
    intros d' Hf. unfold TimerHit in Hf.
    rewrite (bind_Done _ _ d d true) in Hf by (unfold gets; rewrite Hup; reflexivity).
    cbn [negb] in Hf. rewrite (bind_Done _ _ d d d) in Hf by reflexivity.
    rewrite (bind_Done _ _ _ _ _ Hsweep) in Hf.
    rewrite <- Hw.
    pose proof (publish_written stof (numInputV d) (numTotalA d) (sensorNum d) d1) as Hp.
    unfold bind in Hf.
    destruct (publish stof (numInputV d) (numTotalA d) (sensorNum d) d1) as [[] d2|e d2|];
      cbn in Hf.
    + injection Hf as <-. exact Hp.
    + injection Hf as <-. exact Hp.
    + discriminate.
Qed.

Lemma topology_and_poll_count_witness :
  (exists d', GetNum (set_rd [ReadOk "#Z:7,3,1,1,7;"] fresh) = Done tt d'
              /\ numDC d' = 7 /\ numPWM d' = 3 /\ numRelay d' = 1 /\ numOn d' = 1
              /\ numUSB d' = 7 /\ total d' = 19 /\ numSwitch d' = 45)
  /\ (exists d', GetNum (set_rd [ReadOk "#Z:1,2,3,4,5;"] fresh) = Done tt d'
                 /\ numDC d' = 1 /\ numPWM d' = 2 /\ numRelay d' = 3 /\ numOn d' = 4
                 /\ numUSB d' = 5 /\ total d' = 15 /\ numSwitch d' = 33)
  /\ (exists d1, sweep 45 (set_rd (answers 45 0 (fun _ => "1"%string)) stock) = Done tt d1
                 /\ length (written d1) = 45%nat).
Proof.
  pose proof (topology_and_poll_count stof_fixed
                (set_rd [ReadOk "#Z:7,3,1,1,7;"] fresh) [] (fun _ => "1"%string)
                7 3 1 1 7 EmptyString EmptyString)
    as [H _].
  pose proof (topology_and_poll_count stof_fixed
                (set_rd [ReadOk "#Z:1,2,3,4,5;"] fresh) [] (fun _ => "1"%string)
                1 2 3 4 5 EmptyString EmptyString)
    as [H2 _].
  pose proof (topology_and_poll_count stof_fixed
                (set_rd (answers 45 0 (fun _ => "1"%string)) stock) [] (fun _ => "1"%string)
                7 3 1 1 7 EmptyString EmptyString)
    as [_ H'].
  split; [|split].
  - apply H; reflexivity.
  - apply H2; reflexivity.
  - destruct H' as (_ & d1 & E & W & _).
    + reflexivity.
    + vm_compute. split; discriminate.
    + intros k _. split; [vm_compute; discriminate | reflexivity].
    + vm_compute. reflexivity.
    + exists d1. split; [exact E|]. rewrite W. reflexivity.
Defined.
